(** * OPME consignment control: invoice parsing and balance ledger

    A shallow embedding of [src/services/xml_parser.py],
    [src/models/nota_fiscal.py] and [src/services/saldo_service.py], and of
    what calls them: the upload and synchronisation routes of
    [src/routes/notas_fiscais.py], the route of the balances of one
    counterparty of [src/routes/saldos.py] and the text helpers of
    [src/routes/export.py].

    Conventions of the embedding.
    - Text is [string]; a character is read as one code point below 256.
    - A Python value that is [None] or a [str] is an [option string]; its
      truth value is [truthy].
    - A quantity or amount is a [decimal]: an integer counting ten-thousandths,
      the scale of the [Numeric(15, 4)] columns.  Where the source converts
      with [float(...)] before computing ([saldo_disponivel]), the conversion
      and the arithmetic are binary64 ([PrimFloat]).
    - The three tables are lists in insertion order; a row is identified by
      its primary key [id].  Of the column constraints, the [nullable=False]
      ones can fail (a document without issue date); the lengths of the
      [String(n)] columns are not checked.
    - A call of the service runs in a [Sessao]: the database, the log and the
      reading of the clock that the column defaults take.  An exception in
      [processar_nota_fiscal] gives the database back as it was and keeps the
      log.
    - The library calls that read a document or a date ([ET.fromstring] after
      [_remove_namespaces], [datetime.fromisoformat], [datetime.strptime]) are
      parameters of the development.  [_remove_namespaces] itself is embedded
      apart, on texts.
    - In the routes, what the database engine decides about texts (an
      [ILIKE] match, the order of a text column), the decoding of the bytes
      of a file and the answers of [MainoAPIService] are parameters too. *)

From Stdlib Require Import ZArith List String Ascii Bool Lia Floats Uint63.
Import ListNotations.

Local Open Scope string_scope.
Local Open Scope list_scope.
Local Open Scope Z_scope.

(* ------------------------------------------------------------------ *)
(** ** Python text primitives *)

Module PyStr.

(** Truth value of [None], [''] or a non-empty [str]. *)
Definition truthy (o : option string) : bool :=
  match o with
  | Some (String _ _) => true
  | _ => false
  end.

(** [a or b] on such values. *)
Definition or_else (a b : option string) : option string :=
  if truthy a then a else b.

(** [a or ''] *)
Definition or_empty (a : option string) : string :=
  match or_else a (Some "") with Some s => s | None => "" end.

(** [str.isspace] on one character; also the class [\s] of [re]. *)
Definition isspace (c : ascii) : bool :=
  match N_of_ascii c with
  | 9%N | 10%N | 11%N | 12%N | 13%N
  | 28%N | 29%N | 30%N | 31%N | 32%N | 133%N | 160%N => true
  | _ => false
  end.

Definition isdigit (c : ascii) : bool :=
  (48 <=? N_of_ascii c)%N && (N_of_ascii c <=? 57)%N.

(** Case folding used by [re.IGNORECASE] on the letters of the patterns. *)
Definition lower (c : ascii) : ascii :=
  if (65 <=? N_of_ascii c)%N && (N_of_ascii c <=? 90)%N
  then ascii_of_N (N_of_ascii c + 32)
  else c.

Fixpoint lstrip (s : string) : string :=
  match s with
  | String c s' => if isspace c then lstrip s' else s
  | EmptyString => EmptyString
  end.

(** Drops the trailing white space: [rstrip s] keeps a character when it is
    not a space or something that is kept follows it. *)
Fixpoint rstrip (s : string) : string :=
  match s with
  | String c s' =>
      match rstrip s' with
      | EmptyString => if isspace c then EmptyString else String c EmptyString
      | r => String c r
      end
  | EmptyString => EmptyString
  end.

Definition strip (s : string) : string := rstrip (lstrip s).

(** [c in s] *)
Fixpoint contains (c : ascii) (s : string) : bool :=
  match s with
  | String d s' => Ascii.eqb c d || contains c s'
  | EmptyString => false
  end.

(** [s.replace('NFe', '')]: every occurrence, scanning from the left. *)
Fixpoint remove_NFe (s : string) : string :=
  match s with
  | String "N" (String "F" (String "e" r)) => remove_NFe r
  | String c r => String c (remove_NFe r)
  | EmptyString => EmptyString
  end.

(** [s.replace('Z', '+00:00')] *)
Fixpoint replace_Z (s : string) : string :=
  match s with
  | String "Z" r => ("+00:00" ++ replace_Z r)%string
  | String c r => String c (replace_Z r)
  | EmptyString => EmptyString
  end.

(** [re.sub(r'[^\d]', '', s)] *)
Fixpoint only_digits (s : string) : string :=
  match s with
  | String c r => if isdigit c then String c (only_digits r) else only_digits r
  | EmptyString => EmptyString
  end.

End PyStr.

(* ------------------------------------------------------------------ *)
(** ** Decimal quantities *)

(** Ten-thousandths of a unit. *)
Definition decimal := Z.

Module Decimal.

Definition digit_value (c : ascii) : Z := Z.of_N (N_of_ascii c) - 48.

(** Value of a run of digits, most significant first. *)
Fixpoint digits_value (acc : Z) (s : string) : option Z :=
  match s with
  | String c r =>
      if PyStr.isdigit c then digits_value (10 * acc + digit_value c) r
      else None
  | EmptyString => Some acc
  end.

(** Splits at the first ['.']. *)
Fixpoint split_point (s : string) : string * option string :=
  match s with
  | String "." r => (EmptyString, Some r)
  | String c r => let (a, b) := split_point r in (String c a, b)
  | EmptyString => (EmptyString, None)
  end.

(** The fraction digits as ten-thousandths: four digits, the fifth rounds. *)
Definition frac_value (f : string) : option Z :=
  match digits_value 0 f with
  | None => None
  | Some _ =>
      let padded := (f ++ "00000")%string in
      match digits_value 0 (substring 0 4 padded),
            digits_value 0 (substring 4 1 padded) with
      | Some v, Some d => Some (if 5 <=? d then v + 1 else v)
      | _, _ => None
      end
  end.

Definition unsigned_value (s : string) : option Z :=
  let (i, fr) := split_point s in
  let f := match fr with Some f => f | None => EmptyString end in
  match i, f with
  | EmptyString, EmptyString => None
  | _, _ =>
      match digits_value 0 i, frac_value f with
      | Some vi, Some vf => Some (10000 * vi + vf)
      | _, _ => None
      end
  end.

(** [float(text)] on a plain decimal numeral: optional surrounding white
    space, optional sign, digits with an optional fraction.  The result stands
    for the binary64 number nearest to it ([to_float] below); digits after the
    fourth decimal place are rounded away, as the columns do.  [None] is the
    [ValueError].  The other spellings [float] accepts (exponents, [inf],
    [nan], digit separators) are not covered and read as errors here. *)
Definition py_float (text : string) : option decimal :=
  match PyStr.strip text with
  | String "-" r => option_map Z.opp (unsigned_value r)
  | String "+" r => unsigned_value r
  | r => unsigned_value r
  end.

(** [float(d)] of a stored decimal, as binary64: the quotient of two exactly
    represented integers, correctly rounded.  The fifteen digits of the
    columns are within the 53 bits of the format. *)
Definition float_of_Z (z : Z) : float :=
  match z with
  | Z0 => PrimFloat.zero
  | Zpos _ => PrimFloat.of_uint63 (Uint63.of_Z z)
  | Zneg p => PrimFloat.opp (PrimFloat.of_uint63 (Uint63.of_Z (Zpos p)))
  end.

Definition to_float (d : decimal) : float :=
  PrimFloat.div (float_of_Z d) (float_of_Z 10000).

End Decimal.

(* ------------------------------------------------------------------ *)
(** ** ElementTree *)

Module ET.

#[local] Set Warnings "-register-all".

Inductive Element : Type :=
  Elem (tag : string) (attrib : list (string * string))
       (text : option string) (children : list Element).

Definition tag (e : Element) : string := let (t, _, _, _) := e in t.
Definition attrib (e : Element) := let (_, a, _, _) := e in a.
Definition text (e : Element) : option string := let (_, _, t, _) := e in t.
Definition children (e : Element) : list Element := let (_, _, _, c) := e in c.

(** [e.iter()]: the element and everything below it, in document order. *)
Fixpoint iter (e : Element) : list Element :=
  match e with
  | Elem _ _ _ cs => e :: flat_map iter cs
  end.

(** What the path [.//] ranges over: everything strictly below [e]. *)
Definition descendants (e : Element) : list Element :=
  flat_map iter (children e).

Definition has_tag (t : string) (e : Element) : bool := String.eqb (tag e) t.

(** [e.findall('t')], [e.find('t')] *)
Definition findall_child (t : string) (e : Element) : list Element :=
  filter (has_tag t) (children e).
Definition find_child (t : string) (e : Element) : option Element :=
  hd_error (findall_child t e).

(** [e.findall('.//t')], [e.find('.//t')] *)
Definition findall (t : string) (e : Element) : list Element :=
  filter (has_tag t) (descendants e).
Definition find (t : string) (e : Element) : option Element :=
  hd_error (findall t e).

(** [findtext]: [None] when nothing matches, [''] for a match without text. *)
Definition text_of (o : option Element) : option string :=
  match o with
  | Some e => Some (match text e with Some s => s | None => "" end)
  | None => None
  end.

(** [e.findtext('t')] *)
Definition findtext_child (t : string) (e : Element) : option string :=
  text_of (find_child t e).

(** [e.findtext('.//t')] *)
Definition findtext (t : string) (e : Element) : option string :=
  text_of (find t e).

(** [e.findtext('.//p/t')] *)
Definition findtext_path2 (p t : string) (e : Element) : option string :=
  text_of (hd_error (flat_map (findall_child t) (findall p e))).

(** [e.get(k, default)] *)
Fixpoint get (k : string) (default : string) (a : list (string * string)) : string :=
  match a with
  | (k', v) :: a' => if String.eqb k k' then v else get k default a'
  | [] => default
  end.

End ET.

(* ------------------------------------------------------------------ *)
(** ** The fragment of [re] the parser uses *)

Module Re.

(** One character position of a pattern. *)
Inductive classe : Type :=
  | Lit (c : ascii)                       (* a literal *)
  | Sep                                   (* [:\s] *)
  | Tok.                                  (* [^\s,;\.] *)

Inductive quant : Type := Um | Mais | Estrela.

(** A pattern is a sequence of quantified classes; [grp] marks what group 1
    encloses. *)
Record peca : Type := { cl : classe; qt : quant; grp : bool }.
Definition regex := list peca.

(** With [re.IGNORECASE]. *)
Definition aceita (k : classe) (c : ascii) : bool :=
  match k with
  | Lit l => Ascii.eqb (PyStr.lower c) (PyStr.lower l)
  | Sep => Ascii.eqb c ":" || PyStr.isspace c
  | Tok => negb (PyStr.isspace c || Ascii.eqb c "," || Ascii.eqb c ";" || Ascii.eqb c ".")
  end.

Definition keep (p : peca) (c : ascii) (g : string) : string :=
  if grp p then String c g else g.

(** Greedy repetition with backtracking: as many characters as the class
    accepts, giving one back each time the rest [k] of the pattern fails. *)
Fixpoint rep (p : peca) (k : string -> option string) (s : string) : option string :=
  match s with
  | String c s' =>
      if aceita (cl p) c then
        match rep p k s' with
        | Some g => Some (keep p c g)
        | None => k s
        end
      else k s
  | EmptyString => k s
  end.

Definition one (p : peca) (k : string -> option string) (s : string) : option string :=
  match s with
  | String c s' => if aceita (cl p) c then option_map (keep p c) (k s') else None
  | EmptyString => None
  end.

(** Match at the start of [s]; the result is group 1. *)
Fixpoint match_here (r : regex) : string -> option string :=
  match r with
  | [] => fun _ => Some EmptyString
  | p :: r' =>
      match qt p with
      | Um => one p (match_here r')
      | Mais => one p (rep p (match_here r'))
      | Estrela => rep p (match_here r')
      end
  end.

(** [re.search(r, s, re.IGNORECASE)]: the leftmost start that matches. *)
Fixpoint search (r : regex) (s : string) : option string :=
  match match_here r s with
  | Some g => Some g
  | None =>
      match s with
      | String _ s' => search r s'
      | EmptyString => None
      end
  end.

Fixpoint lit (s : string) : regex :=
  match s with
  | String c s' => {| cl := Lit c; qt := Um; grp := false |} :: lit s'
  | EmptyString => []
  end.

Definition sep_plus : regex := [{| cl := Sep; qt := Mais; grp := false |}].
Definition sep_star : regex := [{| cl := Sep; qt := Estrela; grp := false |}].
Definition token : regex := [{| cl := Tok; qt := Mais; grp := true |}].

End Re.

(* ------------------------------------------------------------------ *)
(** ** Library calls taken as parameters *)

Definition datetime := Z.
Definition date := Z.

Record PyLib : Type := {
  (** [ET.fromstring(XMLParser._remove_namespaces(xml_content))];
      [None] is [ET.ParseError]. *)
  fromstring : string -> option ET.Element;
  (** [datetime.fromisoformat]; [None] is [ValueError]. *)
  fromisoformat : string -> option datetime;
  (** [datetime.strptime(s, '%Y-%m-%d')]; [None] is [ValueError]. *)
  strptime_ymd : string -> option datetime;
  (** [datetime.date()] *)
  to_date : datetime -> date
}.

(** Exceptions that cross a function boundary. *)
Inductive Excecao : Type :=
  | ValueError (msg : string)
  | IntegrityError (msg : string).

Definition exc (A : Type) : Type := (Excecao + A)%type.

Definition exc_bind {A B} (m : exc A) (k : A -> exc B) : exc B :=
  match m with
  | inl e => inl e
  | inr a => k a
  end.

Notation "x <-! m ;; k" := (exc_bind m (fun x => k))
  (at level 61, m at next level, right associativity).

(* ------------------------------------------------------------------ *)
(** ** [XMLParser] *)

Inductive TipoOperacao : Type :=
  | Saida | Retorno | Simbolico | Faturamento | Outros.

(** One entry of [nf_data['itens']]. *)
Record ItemData : Type := {
  it_codigo_produto : string;
  it_descricao_produto : string;
  it_quantidade : decimal;
  it_valor_unitario : decimal;
  it_valor_total : decimal;
  it_numero_lote : option string;
  it_data_fabricacao : option date;
  it_data_validade : option date
}.

Record LoteData : Type := {
  ld_numero_lote : option string;
  ld_data_fabricacao : option date;
  ld_data_validade : option date
}.

(** The dictionary [parse_xml] returns. *)
Record NFData : Type := {
  nd_numero : option string;
  nd_serie : option string;
  nd_chave_acesso : string;
  nd_data_emissao : option datetime;
  nd_cfop : string;
  nd_tipo_operacao : TipoOperacao;
  nd_destinatario_cnpj : string;
  nd_destinatario_nome : string;
  nd_itens : list ItemData
}.

Module XMLParser.

Definition CFOP_MAPPING : list (string * TipoOperacao) :=
  [ ("5917", Saida); ("6917", Saida);
    ("1918", Retorno); ("2918", Retorno);
    ("1919", Simbolico); ("2919", Simbolico);
    ("5114", Faturamento); ("6114", Faturamento) ].

(** [CFOP_MAPPING.get(cfop, 'outros')] *)
Fixpoint mapping_get (m : list (string * TipoOperacao)) (cfop : string) : TipoOperacao :=
  match m with
  | (k, v) :: m' => if String.eqb cfop k then v else mapping_get m' cfop
  | [] => Outros
  end.

(** The list [lote_patterns], in its order. *)
Definition lote_patterns : list Re.regex :=
  [ Re.lit "lote" ++ Re.sep_plus ++ Re.token;
    Re.lit "l" ++ Re.sep_plus ++ Re.token;
    Re.lit "lot" ++ Re.sep_plus ++ Re.token;
    Re.lit "batch" ++ Re.sep_plus ++ Re.token;
    Re.lit "nr" ++ Re.sep_star ++ Re.lit "lote" ++ Re.sep_plus ++ Re.token;
    Re.lit "numero" ++ Re.sep_star ++ Re.lit "lote" ++ Re.sep_plus ++ Re.token ].

(** The loop over the patterns, left at the first match. *)
Fixpoint scan_patterns (ps : list Re.regex) (inf_ad_prod : string)
    (lote_data : LoteData) : LoteData :=
  match ps with
  | pattern :: ps' =>
      match Re.search pattern inf_ad_prod with
      | Some g =>
          {| ld_numero_lote := Some (PyStr.strip g);
             ld_data_fabricacao := ld_data_fabricacao lote_data;
             ld_data_validade := ld_data_validade lote_data |}
      | None => scan_patterns ps' inf_ad_prod lote_data
      end
  | [] => lote_data
  end.

Section WithLib.

Variable lib : PyLib.

(** [float(text or 0)] *)
Definition float_or_0 (text : option string) : exc decimal :=
  if PyStr.truthy text then
    match Decimal.py_float (PyStr.or_empty text) with
    | Some d => inr d
    | None => inl (ValueError "could not convert string to float")
    end
  else inr 0.

(** The two dates of a [rastro] or [med] block; a date that does not parse
    leaves the entry as it was. *)
Definition read_dates (block : ET.Element) (lote_data : LoteData) : LoteData :=
  let data_fab := ET.findtext_child "dFab" block in
  let data_val := ET.findtext_child "dVal" block in
  let fab :=
    if PyStr.truthy data_fab then
      match strptime_ymd lib (PyStr.or_empty data_fab) with
      | Some d => Some (to_date lib d)
      | None => ld_data_fabricacao lote_data
      end
    else ld_data_fabricacao lote_data in
  let val :=
    if PyStr.truthy data_val then
      match strptime_ymd lib (PyStr.or_empty data_val) with
      | Some d => Some (to_date lib d)
      | None => ld_data_validade lote_data
      end
    else ld_data_validade lote_data in
  {| ld_numero_lote := ld_numero_lote lote_data;
     ld_data_fabricacao := fab;
     ld_data_validade := val |}.

Definition read_block (block : ET.Element) (lote_data : LoteData) : LoteData :=
  read_dates block
    {| ld_numero_lote := ET.findtext_child "nLote" block;
       ld_data_fabricacao := ld_data_fabricacao lote_data;
       ld_data_validade := ld_data_validade lote_data |}.

Definition _extract_lote_data (det_element : ET.Element) : LoteData :=
  let lote_data :=
    {| ld_numero_lote := None; ld_data_fabricacao := None; ld_data_validade := None |} in
  let lote_data :=
    match ET.find "rastro" det_element with
    | Some rastro => read_block rastro lote_data
    | None => lote_data
    end in
  if negb (PyStr.truthy (ld_numero_lote lote_data)) then
    let lote_data :=
      match ET.find "med" det_element with
      | Some med => read_block med lote_data
      | None => lote_data
      end in
    if negb (PyStr.truthy (ld_numero_lote lote_data)) then
      let inf_ad_prod := PyStr.or_empty (ET.findtext "infAdProd" det_element) in
      scan_patterns lote_patterns inf_ad_prod lote_data
    else lote_data
  else lote_data.

(** The body of the loop of [_extract_itens_data]; [None] is [continue]. *)
Definition extract_item (det : ET.Element) : exc (option ItemData) :=
  match ET.find_child "prod" det with
  | None => inr None
  | Some prod =>
      let codigo := PyStr.or_empty (ET.findtext_child "cProd" prod) in
      let descricao := PyStr.or_empty (ET.findtext_child "xProd" prod) in
      quantidade <-! float_or_0 (ET.findtext_child "qCom" prod) ;;
      valor_unitario <-! float_or_0 (ET.findtext_child "vUnCom" prod) ;;
      valor_total <-! float_or_0 (ET.findtext_child "vProd" prod) ;;
      let lote_data := _extract_lote_data det in
      inr (Some {| it_codigo_produto := codigo;
                   it_descricao_produto := descricao;
                   it_quantidade := quantidade;
                   it_valor_unitario := valor_unitario;
                   it_valor_total := valor_total;
                   it_numero_lote := ld_numero_lote lote_data;
                   it_data_fabricacao := ld_data_fabricacao lote_data;
                   it_data_validade := ld_data_validade lote_data |})
  end.

Fixpoint extract_itens (dets : list ET.Element) : exc (list ItemData) :=
  match dets with
  | det :: dets' =>
      o <-! extract_item det ;;
      itens <-! extract_itens dets' ;;
      inr (match o with Some item => item :: itens | None => itens end)
  | [] => inr []
  end.

Definition _extract_itens_data (root : ET.Element) : exc (list ItemData) :=
  extract_itens (ET.findall "det" root).

Definition _extract_cfop (root : ET.Element) : string :=
  match ET.find "det" root with
  | Some det =>
      match ET.find "imposto" det with
      | Some imposto =>
          PyStr.or_empty
            (PyStr.or_else (ET.findtext "CFOP" imposto)
               (PyStr.or_else (ET.findtext "CFOP" det)
                  (ET.findtext_path2 "prod" "CFOP" det)))
      | None => ""
      end
  | None => ""
  end.

Definition _extract_destinatario_data (root : ET.Element) : string * string :=
  let dest :=
    match ET.find "dest" root with
    | Some d => Some d
    | None => ET.find "emit" root
    end in
  match dest with
  | None => ("", "")
  | Some dest =>
      let cnpj := PyStr.or_empty
        (PyStr.or_else (ET.findtext_child "CNPJ" dest) (ET.findtext_child "CPF" dest)) in
      let nome := PyStr.or_empty
        (PyStr.or_else (ET.findtext_child "xNome" dest) (ET.findtext_child "xFant" dest)) in
      (PyStr.only_digits cnpj, nome)
  end.

(** [(numero, serie, chave_acesso, data_emissao)] *)
Definition _extract_nf_data (root : ET.Element)
  : exc (option string * option string * string * option datetime) :=
  match ET.find "ide" root with
  | None => inl (ValueError "Tag 'ide' nao encontrada no XML")
  | Some ide =>
      let chave_acesso :=
        match ET.find "infNFe" root with
        | Some inf_nfe => PyStr.remove_NFe (ET.get "Id" "" (ET.attrib inf_nfe))
        | None => ""
        end in
      let data_emissao_str :=
        PyStr.or_else (ET.findtext_child "dhEmi" ide) (ET.findtext_child "dEmi" ide) in
      let data_emissao :=
        if PyStr.truthy data_emissao_str then
          let s := PyStr.or_empty data_emissao_str in
          if PyStr.contains "T" s
          then fromisoformat lib (PyStr.replace_Z s)
          else strptime_ymd lib s
        else None in
      inr (ET.findtext_child "nNF" ide, ET.findtext_child "serie" ide,
           chave_acesso, data_emissao)
  end.

(** Any exception inside is raised again as a [ValueError]. *)
Definition parse_xml (xml_content : string) : exc NFData :=
  match
    match fromstring lib xml_content with
    | None => inl (ValueError "ParseError")
    | Some root =>
        nf <-! _extract_nf_data root ;;
        let '(numero, serie, chave_acesso, data_emissao) := nf in
        let '(cnpj, nome) := _extract_destinatario_data root in
        itens <-! _extract_itens_data root ;;
        let cfop := _extract_cfop root in
        inr {| nd_numero := numero;
               nd_serie := serie;
               nd_chave_acesso := chave_acesso;
               nd_data_emissao := data_emissao;
               nd_cfop := cfop;
               nd_tipo_operacao := mapping_get CFOP_MAPPING cfop;
               nd_destinatario_cnpj := cnpj;
               nd_destinatario_nome := nome;
               nd_itens := itens |}
    end
  with
  | inl _ => inl (ValueError "Erro ao processar XML")
  | inr d => inr d
  end.

Definition validate_xml_structure (xml_content : string) : bool * string :=
  match fromstring lib xml_content with
  | None => (false, "Erro ao fazer parse do XML")
  | Some root =>
      match ET.find "infNFe" root with
      | None => (false, "XML nao e uma Nota Fiscal Eletronica valida")
      | Some _ =>
          match ET.find "ide" root with
          | None => (false, "Tag 'ide' nao encontrada no XML")
          | Some ide =>
              if negb (PyStr.truthy (ET.findtext_child "nNF" ide))
              then (false, "Numero da nota fiscal nao encontrado")
              else if negb (PyStr.truthy (ET.findtext_child "serie" ide))
              then (false, "Serie da nota fiscal nao encontrada")
              else match ET.findall "det" root with
                   | [] => (false, "Nenhum item encontrado na nota fiscal")
                   | _ :: _ => (true, "")
                   end
          end
      end
  end.

End WithLib.

End XMLParser.

(* ------------------------------------------------------------------ *)
(** ** The three tables ([src/models/nota_fiscal.py]) *)

Record NotaFiscal : Type := {
  nf_id : nat;
  nf_numero : string;
  nf_serie : string;
  nf_chave_acesso : string;
  nf_data_emissao : datetime;
  nf_cfop : string;
  nf_tipo_operacao : TipoOperacao;
  nf_destinatario_cnpj : string;
  nf_destinatario_nome : string;
  nf_xml_content : string;
  nf_created_at : datetime;
  nf_updated_at : datetime
}.

Record ItemNotaFiscal : Type := {
  inf_id : nat;
  inf_nota_fiscal_id : nat;
  inf_codigo_produto : string;
  inf_descricao_produto : string;
  inf_quantidade : decimal;
  inf_valor_unitario : decimal;
  inf_valor_total : decimal;
  inf_numero_lote : option string;
  inf_data_fabricacao : option date;
  inf_data_validade : option date;
  inf_created_at : datetime
}.

Record SaldoMaterial : Type := {
  id : nat;
  cliente_cnpj : string;
  cliente_nome : string;
  codigo_produto : string;
  descricao_produto : string;
  numero_lote : string;
  nf_saida_numero : string;
  nf_saida_serie : string;
  nf_saida_chave : string;
  quantidade_enviada : decimal;
  quantidade_retornada : decimal;
  quantidade_utilizada : decimal;
  quantidade_faturada : decimal;
  created_at : datetime;
  updated_at : datetime
}.

(** The row [r] with new counters; [updated_at] follows ([onupdate]). *)
Definition set_quantidades (r : SaldoMaterial) (env ret uti fat : decimal)
    (agora : datetime) : SaldoMaterial :=
  {| id := id r;
     cliente_cnpj := cliente_cnpj r;
     cliente_nome := cliente_nome r;
     codigo_produto := codigo_produto r;
     descricao_produto := descricao_produto r;
     numero_lote := numero_lote r;
     nf_saida_numero := nf_saida_numero r;
     nf_saida_serie := nf_saida_serie r;
     nf_saida_chave := nf_saida_chave r;
     quantidade_enviada := env;
     quantidade_retornada := ret;
     quantidade_utilizada := uti;
     quantidade_faturada := fat;
     created_at := created_at r;
     updated_at := agora |}.

(** The property [SaldoMaterial.saldo_disponivel]: each counter goes through
    [float(...)] and the subtractions are binary64. *)
Definition saldo_disponivel (r : SaldoMaterial) : float :=
  PrimFloat.sub
    (PrimFloat.sub (Decimal.to_float (quantidade_enviada r))
                   (Decimal.to_float (quantidade_retornada r)))
    (Decimal.to_float (quantidade_utilizada r)).

(** Shipped minus returned minus consumed, on the stored decimals. *)
Definition disponivel_exato (r : SaldoMaterial) : decimal :=
  quantidade_enviada r - quantidade_retornada r - quantidade_utilizada r.

Record Banco : Type := {
  notas_fiscais : list NotaFiscal;
  itens_nota_fiscal : list ItemNotaFiscal;
  saldos_materiais : list SaldoMaterial
}.

Inductive LogRecord : Type :=
  | Warning_saldo_nao_encontrado (tipo : TipoOperacao) (cliente produto : string)
                                 (lote : option string)
  | Error_ao_processar (e : Excecao).

(** What a call of the service runs in: the database as the session sees
    it, the log, and the clock that [datetime.utcnow] reads. *)
Record Sessao : Type := {
  banco : Banco;
  log : list LogRecord;
  utcnow : datetime
}.

(** Next value of an integer primary key. *)
Definition next_id (ids : list nat) : nat := S (list_max ids).

(* ------------------------------------------------------------------ *)
(** ** The session as a state monad *)

Definition M (A : Type) : Type := Sessao -> A * Sessao.

Definition ret {A} (a : A) : M A := fun s => (a, s).

Definition bind {A B} (m : M A) (k : A -> M B) : M B :=
  fun s => let (a, s') := m s in k a s'.

Notation "x <- m ;; k" := (bind m (fun x => k))
  (at level 61, m at next level, right associativity).
Notation "m ;;; k" := (bind m (fun _ => k))
  (at level 61, right associativity).

Definition set_saldos (f : list SaldoMaterial -> list SaldoMaterial) : M unit :=
  fun s =>
    (tt, {| banco := {| notas_fiscais := notas_fiscais (banco s);
                        itens_nota_fiscal := itens_nota_fiscal (banco s);
                        saldos_materiais := f (saldos_materiais (banco s)) |};
            log := log s;
            utcnow := utcnow s |}).

(** [SaldoMaterial.query] *)
Definition query_saldos : M (list SaldoMaterial) :=
  fun s => (saldos_materiais (banco s), s).

Definition now : M datetime := fun s => (utcnow s, s).

(** Assignment to the counters of the row with primary key [k]. *)
Fixpoint update_row (k : nat) (f : SaldoMaterial -> SaldoMaterial)
    (t : list SaldoMaterial) : list SaldoMaterial :=
  match t with
  | r :: t' => (if Nat.eqb (id r) k then f r else r) :: update_row k f t'
  | [] => []
  end.

Definition update_saldo (k : nat) (f : SaldoMaterial -> SaldoMaterial) : M unit :=
  set_saldos (update_row k f).

(** [db.session.add(saldo)] of a new row: the key is assigned on insertion. *)
Definition add_saldo (mk : nat -> SaldoMaterial) : M unit :=
  set_saldos (fun t => t ++ [mk (next_id (map id t))]).

Definition add_item (mk : nat -> ItemNotaFiscal) : M unit :=
  fun s =>
    let t := itens_nota_fiscal (banco s) in
    (tt, {| banco := {| notas_fiscais := notas_fiscais (banco s);
                        itens_nota_fiscal := t ++ [mk (next_id (map inf_id t))];
                        saldos_materiais := saldos_materiais (banco s) |};
            log := log s;
            utcnow := utcnow s |}).

Definition add_nota (n : NotaFiscal) : M unit :=
  fun s =>
    (tt, {| banco := {| notas_fiscais := notas_fiscais (banco s) ++ [n];
                        itens_nota_fiscal := itens_nota_fiscal (banco s);
                        saldos_materiais := saldos_materiais (banco s) |};
            log := log s;
            utcnow := utcnow s |}).

Definition logger (r : LogRecord) : M unit :=
  fun s => (tt, {| banco := banco s; log := log s ++ [r]; utcnow := utcnow s |}).

(** [db.session.rollback()]: the database as it was in [s0]. *)
Definition rollback (s0 : Sessao) : M unit :=
  fun s => (tt, {| banco := banco s0; log := log s; utcnow := utcnow s |}).

(* ------------------------------------------------------------------ *)
(** ** [SaldoService] *)

Inductive Erro : Type :=
  | Estrutural (error_msg : string)          (* from [validate_xml_structure] *)
  | Ja_processada (numero serie : option string)
  | Erro_interno (e : Excecao).

(** The dictionary [processar_nota_fiscal] returns. *)
Inductive Resultado : Type :=
  | Sucesso (nota_fiscal_id : nat) (numero serie : string)
            (tipo_operacao : TipoOperacao) (itens_processados : nat)
  | Falha (error : Erro).

Definition success (r : Resultado) : bool :=
  match r with Sucesso _ _ _ _ _ => true | Falha _ => false end.

(** The dictionary [validar_operacao] returns. *)
Inductive Validacao : Type :=
  | Valida
  | Sem_saldo (produto : string) (lote : option string) (cliente : string)
  | Quantidade_insuficiente (disponivel solicitado : float).


Module SaldoService.

(** [order_by(SaldoMaterial.created_at.asc())]; rows of equal [created_at]
    keep their table order. *)
Fixpoint insert_by_created_at (r : SaldoMaterial) (l : list SaldoMaterial)
  : list SaldoMaterial :=
  match l with
  | x :: l' =>
      if created_at r <=? created_at x then r :: l
      else x :: insert_by_created_at r l'
  | [] => [r]
  end.

Fixpoint order_by_created_at (l : list SaldoMaterial) : list SaldoMaterial :=
  match l with
  | r :: l' => insert_by_created_at r (order_by_created_at l')
  | [] => []
  end.

(** The filter of [_buscar_saldo_para_retorno]. *)
Definition elegivel (cliente_cnpj' codigo_produto' : string)
    (numero_lote' : option string) (r : SaldoMaterial) : bool :=
  String.eqb (cliente_cnpj r) cliente_cnpj'
  && String.eqb (codigo_produto r) codigo_produto'
  && match numero_lote' with
     | Some l => String.eqb (numero_lote r) l
     | None => false
     end
  && (quantidade_retornada r + quantidade_utilizada r <? quantidade_enviada r).

Definition _buscar_saldo_para_retorno (cliente_cnpj' codigo_produto' : string)
    (numero_lote' : option string) : M (option SaldoMaterial) :=
  t <- query_saldos ;;
  ret (hd_error (order_by_created_at
                   (filter (elegivel cliente_cnpj' codigo_produto' numero_lote') t))).

(** The [filter_by] of [_processar_saida_consignacao]. *)
Definition mesma_chave (nota_fiscal : NotaFiscal) (item_data : ItemData)
    (r : SaldoMaterial) : bool :=
  String.eqb (cliente_cnpj r) (nf_destinatario_cnpj nota_fiscal)
  && String.eqb (codigo_produto r) (it_codigo_produto item_data)
  && match it_numero_lote item_data with
     | Some l => String.eqb (numero_lote r) l
     | None => false
     end
  && String.eqb (nf_saida_chave r) (nf_chave_acesso nota_fiscal).

Definition add_enviada (q : decimal) (agora : datetime) (r : SaldoMaterial) :=
  set_quantidades r (quantidade_enviada r + q) (quantidade_retornada r)
    (quantidade_utilizada r) (quantidade_faturada r) agora.
Definition add_retornada (q : decimal) (agora : datetime) (r : SaldoMaterial) :=
  set_quantidades r (quantidade_enviada r) (quantidade_retornada r + q)
    (quantidade_utilizada r) (quantidade_faturada r) agora.
Definition add_utilizada (q : decimal) (agora : datetime) (r : SaldoMaterial) :=
  set_quantidades r (quantidade_enviada r) (quantidade_retornada r)
    (quantidade_utilizada r + q) (quantidade_faturada r) agora.
Definition add_faturada (q : decimal) (agora : datetime) (r : SaldoMaterial) :=
  set_quantidades r (quantidade_enviada r) (quantidade_retornada r)
    (quantidade_utilizada r) (quantidade_faturada r + q) agora.

(** The row a shipment creates.  It is only reached with a lot number that
    is a non-empty string (the guard of [processar_nota_fiscal]). *)
Definition novo_saldo (nota_fiscal : NotaFiscal) (item_data : ItemData)
    (agora : datetime) (k : nat) : SaldoMaterial :=
  {| id := k;
     cliente_cnpj := nf_destinatario_cnpj nota_fiscal;
     cliente_nome := nf_destinatario_nome nota_fiscal;
     codigo_produto := it_codigo_produto item_data;
     descricao_produto := it_descricao_produto item_data;
     numero_lote := PyStr.or_empty (it_numero_lote item_data);
     nf_saida_numero := nf_numero nota_fiscal;
     nf_saida_serie := nf_serie nota_fiscal;
     nf_saida_chave := nf_chave_acesso nota_fiscal;
     quantidade_enviada := it_quantidade item_data;
     quantidade_retornada := 0;
     quantidade_utilizada := 0;
     quantidade_faturada := 0;
     created_at := agora;
     updated_at := agora |}.

Definition _processar_saida_consignacao (nota_fiscal : NotaFiscal)
    (item_data : ItemData) : M unit :=
  t <- query_saldos ;;
  agora <- now ;;
  match hd_error (filter (mesma_chave nota_fiscal item_data) t) with
  | Some saldo => update_saldo (id saldo) (add_enviada (it_quantidade item_data) agora)
  | None => add_saldo (novo_saldo nota_fiscal item_data agora)
  end.

Definition _processar_retorno_consignacao (nota_fiscal : NotaFiscal)
    (item_data : ItemData) : M unit :=
  saldo <- _buscar_saldo_para_retorno (nf_destinatario_cnpj nota_fiscal)
             (it_codigo_produto item_data) (it_numero_lote item_data) ;;
  agora <- now ;;
  match saldo with
  | Some saldo =>
      update_saldo (id saldo) (add_retornada (it_quantidade item_data) agora)
  | None =>
      logger (Warning_saldo_nao_encontrado Retorno (nf_destinatario_cnpj nota_fiscal)
                (it_codigo_produto item_data) (it_numero_lote item_data))
  end.

Definition _processar_retorno_simbolico (nota_fiscal : NotaFiscal)
    (item_data : ItemData) : M unit :=
  saldo <- _buscar_saldo_para_retorno (nf_destinatario_cnpj nota_fiscal)
             (it_codigo_produto item_data) (it_numero_lote item_data) ;;
  agora <- now ;;
  match saldo with
  | Some saldo =>
      update_saldo (id saldo) (add_utilizada (it_quantidade item_data) agora)
  | None =>
      logger (Warning_saldo_nao_encontrado Simbolico (nf_destinatario_cnpj nota_fiscal)
                (it_codigo_produto item_data) (it_numero_lote item_data))
  end.

Definition _processar_faturamento (nota_fiscal : NotaFiscal)
    (item_data : ItemData) : M unit :=
  saldo <- _buscar_saldo_para_retorno (nf_destinatario_cnpj nota_fiscal)
             (it_codigo_produto item_data) (it_numero_lote item_data) ;;
  agora <- now ;;
  match saldo with
  | Some saldo =>
      update_saldo (id saldo) (add_faturada (it_quantidade item_data) agora)
  | None =>
      logger (Warning_saldo_nao_encontrado Faturamento (nf_destinatario_cnpj nota_fiscal)
                (it_codigo_produto item_data) (it_numero_lote item_data))
  end.

Definition _atualizar_saldo (nota_fiscal : NotaFiscal) (item_data : ItemData) : M unit :=
  match nf_tipo_operacao nota_fiscal with
  | Saida => _processar_saida_consignacao nota_fiscal item_data
  | Retorno => _processar_retorno_consignacao nota_fiscal item_data
  | Simbolico => _processar_retorno_simbolico nota_fiscal item_data
  | Faturamento => _processar_faturamento nota_fiscal item_data
  | Outros => ret tt
  end.

Definition validar_operacao (nota_fiscal : NotaFiscal) (item_data : ItemData)
  : M Validacao :=
  match nf_tipo_operacao nota_fiscal with
  | Retorno | Simbolico | Faturamento =>
      saldo <- _buscar_saldo_para_retorno (nf_destinatario_cnpj nota_fiscal)
                 (it_codigo_produto item_data) (it_numero_lote item_data) ;;
      match saldo with
      | None =>
          ret (Sem_saldo (it_codigo_produto item_data) (it_numero_lote item_data)
                 (nf_destinatario_cnpj nota_fiscal))
      | Some saldo =>
          let quantidade_disponivel := saldo_disponivel saldo in
          let solicitado := Decimal.to_float (it_quantidade item_data) in
          if PrimFloat.ltb quantidade_disponivel solicitado
          then ret (Quantidade_insuficiente quantidade_disponivel solicitado)
          else ret Valida
      end
  | Saida | Outros => ret Valida
  end.

(** The row of one line item. *)
Definition novo_item (nota_fiscal : NotaFiscal) (item_data : ItemData)
    (agora : datetime) (k : nat) : ItemNotaFiscal :=
  {| inf_id := k;
     inf_nota_fiscal_id := nf_id nota_fiscal;
     inf_codigo_produto := it_codigo_produto item_data;
     inf_descricao_produto := it_descricao_produto item_data;
     inf_quantidade := it_quantidade item_data;
     inf_valor_unitario := it_valor_unitario item_data;
     inf_valor_total := it_valor_total item_data;
     inf_numero_lote := it_numero_lote item_data;
     inf_data_fabricacao := it_data_fabricacao item_data;
     inf_data_validade := it_data_validade item_data;
     inf_created_at := agora |}.

(** The loop over [nf_data['itens']], from [itens_processados]. *)
Fixpoint processar_itens (nota_fiscal : NotaFiscal) (itens : list ItemData)
    (itens_processados : nat) : M nat :=
  match itens with
  | item_data :: itens' =>
      agora <- now ;;
      add_item (novo_item nota_fiscal item_data agora) ;;;
      if PyStr.truthy (it_numero_lote item_data) then
        _atualizar_saldo nota_fiscal item_data ;;;
        processar_itens nota_fiscal itens' (S itens_processados)
      else processar_itens nota_fiscal itens' itens_processados
  | [] => ret itens_processados
  end.

(** The [NotaFiscal] row of the document; the [nullable=False] columns refuse
    [None] when it is flushed. *)
Definition nova_nota (nf_data : NFData) (xml_content : string)
    (agora : datetime) (k : nat) : exc NotaFiscal :=
  match nd_numero nf_data, nd_serie nf_data, nd_data_emissao nf_data with
  | Some numero, Some serie, Some data_emissao =>
      inr {| nf_id := k;
             nf_numero := numero;
             nf_serie := serie;
             nf_chave_acesso := nd_chave_acesso nf_data;
             nf_data_emissao := data_emissao;
             nf_cfop := nd_cfop nf_data;
             nf_tipo_operacao := nd_tipo_operacao nf_data;
             nf_destinatario_cnpj := nd_destinatario_cnpj nf_data;
             nf_destinatario_nome := nd_destinatario_nome nf_data;
             nf_xml_content := xml_content;
             nf_created_at := agora;
             nf_updated_at := agora |}
  | _, _, _ => inl (IntegrityError "NOT NULL constraint failed")
  end.

(** The handler of [processar_nota_fiscal]. *)
Definition erro_interno (s0 : Sessao) (e : Excecao) : M Resultado :=
  rollback s0 ;;;
  logger (Error_ao_processar e) ;;;
  ret (Falha (Erro_interno e)).

Definition processar_nota_fiscal (lib : PyLib) (xml_content : string) : M Resultado :=
  fun s0 =>
  let (is_valid, error_msg) := XMLParser.validate_xml_structure lib xml_content in
  if negb is_valid then ret (Falha (Estrutural error_msg)) s0
  else
    match XMLParser.parse_xml lib xml_content with
    | inl e => erro_interno s0 e s0
    | inr nf_data =>
        let existing_nf :=
          hd_error (filter (fun n => String.eqb (nf_chave_acesso n) (nd_chave_acesso nf_data))
                           (notas_fiscais (banco s0))) in
        match existing_nf with
        | Some _ => ret (Falha (Ja_processada (nd_numero nf_data) (nd_serie nf_data))) s0
        | None =>
            match nova_nota nf_data xml_content (utcnow s0)
                    (next_id (map nf_id (notas_fiscais (banco s0)))) with
            | inl e => erro_interno s0 e s0
            | inr nota_fiscal =>
                (add_nota nota_fiscal ;;;
                 itens_processados <- processar_itens nota_fiscal (nd_itens nf_data) 0 ;;
                 ret (Sucesso (nf_id nota_fiscal) (nf_numero nota_fiscal)
                        (nf_serie nota_fiscal) (nd_tipo_operacao nf_data)
                        itens_processados)) s0
            end
        end
    end.

End SaldoService.

(* ------------------------------------------------------------------ *)
(** ** Vocabulary of the specification *)

(** A balance record is for this counterparty, product and lot. *)
Definition corresponde (cnpj produto : string) (lote : option string)
    (r : SaldoMaterial) : Prop :=
  cliente_cnpj r = cnpj /\ codigo_produto r = produto /\ lote = Some (numero_lote r).

(** A balance record is for this counterparty, product, lot and shipment. *)
Definition mesma_tupla (nota_fiscal : NotaFiscal) (item_data : ItemData)
    (r : SaldoMaterial) : Prop :=
  corresponde (nf_destinatario_cnpj nota_fiscal) (it_codigo_produto item_data)
    (it_numero_lote item_data) r
  /\ nf_saida_chave r = nf_chave_acesso nota_fiscal.

(** Return, symbolic return and billing. *)
Definition com_busca (tipo : TipoOperacao) : Prop :=
  tipo = Retorno \/ tipo = Simbolico \/ tipo = Faturamento.

(** The counter each of them adds to. *)
Definition soma (tipo : TipoOperacao)
  : decimal -> datetime -> SaldoMaterial -> SaldoMaterial :=
  match tipo with
  | Saida => SaldoService.add_enviada
  | Retorno => SaldoService.add_retornada
  | Simbolico => SaldoService.add_utilizada
  | Faturamento => SaldoService.add_faturada
  | Outros => fun _ _ r => r
  end.

Definition saldos (s : Sessao) : list SaldoMaterial := saldos_materiais (banco s).



(** The line carries a lot number. *)
Definition com_lote (item_data : ItemData) : bool :=
  PyStr.truthy (it_numero_lote item_data).

(** A session with the balance table [t] and nothing else. *)
Definition so_saldos (t : list SaldoMaterial) (agora : datetime) : Sessao :=
  {| banco := {| notas_fiscais := []; itens_nota_fiscal := []; saldos_materiais := t |};
     log := [];
     utcnow := agora |}.

(** The effect of one ledger step on the balance table [t] at time [agora]. *)
Definition efeito (nota_fiscal : NotaFiscal) (agora : datetime)
    (t : list SaldoMaterial) (item_data : ItemData) : list SaldoMaterial :=
  saldos (snd (SaldoService._atualizar_saldo nota_fiscal item_data (so_saldos t agora))).

(** The warning of an unmatched line. *)
Definition aviso (tipo : TipoOperacao) (cnpj : string) (item_data : ItemData) : LogRecord :=
  Warning_saldo_nao_encontrado tipo cnpj (it_codigo_produto item_data)
    (it_numero_lote item_data).


(** The access key is that of an invoice of the table. *)
Definition ja_ingerida (chave : string) (s : Sessao) : Prop :=
  exists n, In n (notas_fiscais (banco s)) /\ nf_chave_acesso n = chave.

(** [novos] are the rows of the lines [itens], in their order. *)
Definition linhas_de (nota : NotaFiscal) (agora : datetime) (itens : list ItemData)
    (novos : list ItemNotaFiscal) : Prop :=
  Forall2 (fun item row => row = SaldoService.novo_item nota item agora (inf_id row))
    itens novos.

(** [None] for a value that is [None] or the empty string. *)
Definition presente (o : option string) : option string :=
  if PyStr.truthy o then o else None.

(** Follows the specification: the lot number of a sub-block of the line,
    when the block is there and has one. *)
Definition lote_do_bloco (bloco : string) (det : ET.Element) : option string :=
  match ET.find bloco det with
  | Some b => presente (ET.findtext_child "nLote" b)
  | None => None
  end.

(** Follows the specification: the token found by the first pattern of the
    list that matches the text. *)
Fixpoint primeiro_padrao (ps : list Re.regex) (texto : string) : option string :=
  match ps with
  | p :: ps' =>
      match Re.search p texto with
      | Some g => Some g
      | None => primeiro_padrao ps' texto
      end
  | [] => None
  end.

(** Follows the specification: traceability block, else medicine block, else
    the additional product information. *)
Definition lote_especificado (det : ET.Element) : option string :=
  match lote_do_bloco "rastro" det with
  | Some l => Some l
  | None =>
      match lote_do_bloco "med" det with
      | Some l => Some l
      | None =>
          primeiro_padrao XMLParser.lote_patterns
            (PyStr.or_empty (ET.findtext "infAdProd" det))
      end
  end.

Fixpoint all_chars (f : ascii -> bool) (s : string) : bool :=
  match s with
  | String c s' => f c && all_chars f s'
  | EmptyString => true
  end.

(** A token: not empty, no white space, comma, semicolon or period in it. *)
Definition token_valido (g : string) : Prop :=
  g <> EmptyString /\
  all_chars (fun c => negb (PyStr.isspace c) && negb (Ascii.eqb c ",")
                      && negb (Ascii.eqb c ";") && negb (Ascii.eqb c ".")) g = true.

(** The group of the pattern is a token class, and the pattern cannot match
    without it. *)
Definition grupo_e_token (r : Re.regex) : bool :=
  forallb (fun p => implb (Re.grp p)
                      match Re.cl p with Re.Tok => true | _ => false end) r
  && existsb (fun p => Re.grp p
                       && match Re.qt p with Re.Estrela => false | _ => true end) r.

(** What a pattern matches, stated without the search: [Casa r w g] when the
    pattern [r] matches exactly the text [w] and group 1 is [g]. *)
Inductive Casa : Re.regex -> string -> string -> Prop :=
  | Casa_fim : Casa [] EmptyString EmptyString
  | Casa_um p r c w g :
      Re.qt p = Re.Um -> Re.aceita (Re.cl p) c = true -> Casa r w g ->
      Casa (p :: r) (String c w) (Re.keep p c g)
  | Casa_mais p r c w g :
      Re.qt p = Re.Mais -> Re.aceita (Re.cl p) c = true -> Repete p r w g ->
      Casa (p :: r) (String c w) (Re.keep p c g)
  | Casa_estrela p r w g :
      Re.qt p = Re.Estrela -> Repete p r w g -> Casa (p :: r) w g
with Repete : Re.peca -> Re.regex -> string -> string -> Prop :=
  | Repete_fim p r w g : Casa r w g -> Repete p r w g
  | Repete_mais p r c w g :
      Re.aceita (Re.cl p) c = true -> Repete p r w g ->
      Repete p r (String c w) (Re.keep p c g).

(** The two words are equal up to the case of the letters. *)
Fixpoint mesma_palavra (a b : string) : bool :=
  match a, b with
  | String x a', String y b' => Ascii.eqb (PyStr.lower x) (PyStr.lower y) && mesma_palavra a' b'
  | EmptyString, EmptyString => true
  | _, _ => false
  end.

(** Follows the specification: somewhere in [texto] stands the label, in any
    letter case, then at least one colon or white space, then the token. *)
Definition rotulo_e_token (rotulo texto g : string) : Prop :=
  exists antes r seps depois,
    texto = (antes ++ r ++ seps ++ g ++ depois)%string /\
    mesma_palavra rotulo r = true /\
    seps <> EmptyString /\ all_chars (Re.aceita Re.Sep) seps = true /\
    token_valido g.

(** The same with a label of two words, which colons and white space may
    separate. *)
Definition rotulo_duplo_e_token (rotulo1 rotulo2 texto g : string) : Prop :=
  exists antes r1 meio r2 seps depois,
    texto = (antes ++ r1 ++ meio ++ r2 ++ seps ++ g ++ depois)%string /\
    mesma_palavra rotulo1 r1 = true /\ all_chars (Re.aceita Re.Sep) meio = true /\
    mesma_palavra rotulo2 r2 = true /\
    seps <> EmptyString /\ all_chars (Re.aceita Re.Sep) seps = true /\
    token_valido g.

(* ------------------------------------------------------------------ *)
(** ** Sample data

    One hospital, one product, one lot; quantities in ten-thousandths. *)

Module Exemplos.

Definition hospital : string := "12345678000190".

(** A balance record of shipment [chave] with the four counters. *)
Definition saldo_ex (k : nat) (chave : string) (env ret uti fat : decimal)
    (criado : datetime) : SaldoMaterial :=
  {| id := k;
     cliente_cnpj := hospital;
     cliente_nome := "Hospital A";
     codigo_produto := "P1";
     descricao_produto := "Parafuso";
     numero_lote := "L1";
     nf_saida_numero := "100";
     nf_saida_serie := "1";
     nf_saida_chave := chave;
     quantidade_enviada := env;
     quantidade_retornada := ret;
     quantidade_utilizada := uti;
     quantidade_faturada := fat;
     created_at := criado;
     updated_at := criado |}.

Definition nota_ex (k : nat) (tipo : TipoOperacao) (chave : string) : NotaFiscal :=
  {| nf_id := k;
     nf_numero := "100";
     nf_serie := "1";
     nf_chave_acesso := chave;
     nf_data_emissao := 50;
     nf_cfop := "";
     nf_tipo_operacao := tipo;
     nf_destinatario_cnpj := hospital;
     nf_destinatario_nome := "Hospital A";
     nf_xml_content := "";
     nf_created_at := 300;
     nf_updated_at := 300 |}.

Definition item_ex (q : decimal) (lote : option string) : ItemData :=
  {| it_codigo_produto := "P1";
     it_descricao_produto := "Parafuso";
     it_quantidade := q;
     it_valor_unitario := 0;
     it_valor_total := 0;
     it_numero_lote := lote;
     it_data_fabricacao := None;
     it_data_validade := None |}.

Definition sessao_ex (notas : list NotaFiscal) (t : list SaldoMaterial) : Sessao :=
  {| banco := {| notas_fiscais := notas; itens_nota_fiscal := []; saldos_materiais := t |};
     log := [];
     utcnow := 300 |}.

(** Two shipments of ten units of the same lot, the first one older. *)
Definition dois_envios : list SaldoMaterial :=
  [ saldo_ex 1 "K1" 100000 0 0 0 100; saldo_ex 2 "K2" 100000 0 0 0 200 ].

Definition leaf (t x : string) : ET.Element := ET.Elem t [] (Some x) [].
Definition node (t : string) (cs : list ET.Element) : ET.Element := ET.Elem t [] None cs.

(** A [det] element: product P1 with quantity text [q], and what else the
    [prod] block and the [det] element hold. *)
Definition det_ex (cfop q : string) (in_prod in_det : list ET.Element) : ET.Element :=
  node "det"
    ([ node "prod" ([ leaf "cProd" "P1"; leaf "xProd" "Parafuso";
                      leaf "CFOP" cfop; leaf "qCom" q ] ++ in_prod);
       node "imposto" [] ] ++ in_det).

Definition rastro_ex (lote : string) : ET.Element := node "rastro" [ leaf "nLote" lote ].

(** A document for the hospital with access key [chave]. *)
Definition doc_ex (chave : string) (dets : list ET.Element) : ET.Element :=
  node "nfeProc"
    [ node "NFe"
        [ ET.Elem "infNFe" [("Id", ("NFe" ++ chave)%string)] None
            ([ node "ide" [ leaf "nNF" "100"; leaf "serie" "1";
                            leaf "dhEmi" "2024-01-10T10:00:00-03:00" ];
               node "dest" [ leaf "CNPJ" "12.345.678/0001-90";
                             leaf "xNome" "Hospital A" ] ] ++ dets) ] ].

(** A shipment of ten units of lot L1 together with a line without lot, and
    a return of four units of lot L1. *)
Definition doc_envio : ET.Element :=
  doc_ex "K1" [ det_ex "5917" "10.0000" [ rastro_ex "L1" ] [];
                det_ex "5917" "3" [] [] ].
Definition doc_retorno : ET.Element :=
  doc_ex "K7" [ det_ex "1918" "4" [ rastro_ex "L1" ] [] ].

(** A return whose quantity text is [-5]. *)
Definition doc_retorno_negativo : ET.Element :=
  doc_ex "K8" [ det_ex "1918" "-5" [ rastro_ex "L1" ] [] ].

(** The library calls on the sample documents: three texts are documents,
    every date reads as the instant 50. *)
Definition lib_ex : PyLib :=
  {| fromstring := fun x =>
       if String.eqb x "envio" then Some doc_envio
       else if String.eqb x "retorno" then Some doc_retorno
       else if String.eqb x "retorno negativo" then Some doc_retorno_negativo
       else None;
     fromisoformat := fun _ => Some 50;
     strptime_ymd := fun _ => Some 50;
     to_date := fun d => d |}.

(** Lines with a lot number in several places. *)
Definition det_rastro_e_texto : ET.Element :=
  det_ex "5917" "1" [ rastro_ex "R1" ] [ leaf "infAdProd" "LOTE: ABC123" ].

Definition det_so_texto (texto : string) : ET.Element :=
  det_ex "5917" "1" [] [ leaf "infAdProd" texto ].

Definition det_med : ET.Element :=
  det_ex "5917" "1"
    [ node "rastro" [ leaf "dFab" "2024-01-01" ]; node "med" [ leaf "nLote" "M7" ] ]
    [ leaf "infAdProd" "LOTE: ABC123" ].


End Exemplos.

(* ------------------------------------------------------------------ *)
(** ** [XMLParser._remove_namespaces] *)

(** The fragment of [re] the three substitutions use: sequences of
    quantified character classes, matched greedily with backtracking, without
    case folding. *)
Module ReSub.

Inductive classe : Type :=
  | Lit (c : ascii)          (* a literal *)
  | Espaco                   (* [\s] *)
  | Nao (c : ascii)          (* [[^c]] *)
  | Nome.                    (* [[a-zA-Z0-9_]] *)

Inductive quant : Type := Um | Opcional | Estrela | Mais.

Record peca : Type := { cl : classe; qt : quant; grp : bool }.
Definition regex := list peca.

Definition nome (c : ascii) : bool :=
  let n := N_of_ascii c in
  ((97 <=? n) && (n <=? 122) || (65 <=? n) && (n <=? 90)
   || (48 <=? n) && (n <=? 57) || (n =? 95))%N.

Definition aceita (k : classe) (c : ascii) : bool :=
  match k with
  | Lit l => Ascii.eqb c l
  | Espaco => PyStr.isspace c
  | Nao l => negb (Ascii.eqb c l)
  | Nome => nome c
  end.

(** A match: how many characters it takes and what group 1 holds. *)
Definition achado := (nat * string)%type.

Definition toma (p : peca) (c : ascii) (m : achado) : achado :=
  (S (fst m), if grp p then String c (snd m) else snd m).

Fixpoint rep (p : peca) (k : string -> option achado) (s : string) : option achado :=
  match s with
  | String c s' =>
      if aceita (cl p) c then
        match rep p k s' with
        | Some m => Some (toma p c m)
        | None => k s
        end
      else k s
  | EmptyString => k s
  end.

Definition one (p : peca) (k : string -> option achado) (s : string) : option achado :=
  match s with
  | String c s' => if aceita (cl p) c then option_map (toma p c) (k s') else None
  | EmptyString => None
  end.

Fixpoint match_here (r : regex) : string -> option achado :=
  match r with
  | [] => fun _ => Some (O, EmptyString)
  | p :: r' =>
      match qt p with
      | Um => one p (match_here r')
      | Opcional =>
          fun s => match one p (match_here r') s with
                   | Some m => Some m
                   | None => match_here r' s
                   end
      | Estrela => rep p (match_here r')
      | Mais => one p (rep p (match_here r'))
      end
  end.

(** [re.sub(r, repl, s)] for a pattern that matches no empty text: from the
    left, each match is replaced by [repl] of its group 1 and the scan goes
    on after it.  [skip] counts the characters of a match still to pass. *)
Fixpoint sub_from (r : regex) (repl : string -> string) (skip : nat) (s : string)
  : string :=
  match s with
  | String c s' =>
      match skip with
      | S k => sub_from r repl k s'
      | O =>
          match match_here r s with
          | Some (S n, g) => (repl g ++ sub_from r repl n s')%string
          | _ => String c (sub_from r repl 0 s')
          end
      end
  | EmptyString => EmptyString
  end.

Definition sub (r : regex) (repl : string -> string) (s : string) : string :=
  sub_from r repl 0 s.

Definition um (k : classe) : peca := {| cl := k; qt := Um; grp := false |}.

Fixpoint lit (s : string) : regex :=
  match s with
  | String c s' => um (Lit c) :: lit s'
  | EmptyString => []
  end.

End ReSub.

Module Namespaces.

(** The double quote. *)
Definition aspas : ascii := Eval cbv in ascii_of_N 34.

(** The pattern of a declaration: white space, [xmlns], characters other
    than [=], then [=] and a text between double quotes. *)
Definition declaracao : ReSub.regex :=
  [ {| ReSub.cl := ReSub.Espaco; ReSub.qt := ReSub.Estrela; ReSub.grp := false |} ]
  ++ ReSub.lit "xmlns"
  ++ [ {| ReSub.cl := ReSub.Nao "="; ReSub.qt := ReSub.Estrela; ReSub.grp := false |};
       ReSub.um (ReSub.Lit "="); ReSub.um (ReSub.Lit aspas);
       {| ReSub.cl := ReSub.Nao aspas; ReSub.qt := ReSub.Estrela; ReSub.grp := false |};
       ReSub.um (ReSub.Lit aspas) ].

(** [</?[a-zA-Z0-9_]*:] *)
Definition prefixo : ReSub.regex :=
  [ ReSub.um (ReSub.Lit "<");
    {| ReSub.cl := ReSub.Lit "/"; ReSub.qt := ReSub.Opcional; ReSub.grp := false |};
    {| ReSub.cl := ReSub.Nome; ReSub.qt := ReSub.Estrela; ReSub.grp := false |};
    ReSub.um (ReSub.Lit ":") ].

(** [<([a-zA-Z0-9_]+)\s] *)
Definition nome_e_espaco : ReSub.regex :=
  [ ReSub.um (ReSub.Lit "<");
    {| ReSub.cl := ReSub.Nome; ReSub.qt := ReSub.Mais; ReSub.grp := true |};
    ReSub.um ReSub.Espaco ].

(** The three substitutions, in their order. *)
Definition remove_declaracoes (xml_content : string) : string :=
  ReSub.sub declaracao (fun _ => EmptyString) xml_content.

Definition remove_prefixos (xml_content : string) : string :=
  ReSub.sub prefixo (fun _ => "<") xml_content.

Definition normaliza_espaco (xml_content : string) : string :=
  ReSub.sub nome_e_espaco (fun g => ("<" ++ g ++ " ")%string) xml_content.

Definition _remove_namespaces (xml_content : string) : string :=
  normaliza_espaco (remove_prefixos (remove_declaracoes xml_content)).

End Namespaces.

(* ------------------------------------------------------------------ *)
(** ** More Python text primitives *)

Module Py.

(** [str.isdigit] on one character: the decimal digits and the superscript
    digits one, two and three. *)
Definition isdigit (c : ascii) : bool :=
  PyStr.isdigit c
  || match N_of_ascii c with
     | 178%N | 179%N | 185%N => true
     | _ => false
     end.

(** [''.join(filter(str.isdigit, s))] *)
Fixpoint filter_isdigit (s : string) : string :=
  match s with
  | String c r => if isdigit c then String c (filter_isdigit r) else filter_isdigit r
  | EmptyString => EmptyString
  end.

Fixpoint zeros (n : nat) : string :=
  match n with
  | O => EmptyString
  | S n' => String "0" (zeros n')
  end.

(** [s.zfill(width)]: zeros on the left up to [width], after a leading
    sign. *)
Definition zfill (width : nat) (s : string) : string :=
  if (width <=? String.length s)%nat then s
  else
    let fill := zeros (width - String.length s) in
    match s with
    | String c r =>
        if Ascii.eqb c "+" || Ascii.eqb c "-" then String c (fill ++ r)%string
        else (fill ++ s)%string
    | EmptyString => fill
    end.

(** [s[a:b]] for [0 <= a <= b] *)
Definition slice (a b : nat) (s : string) : string := substring a (b - a) s.

(** [s[a:]] for [0 <= a] *)
Definition slice_from (a : nat) (s : string) : string :=
  substring a (String.length s - a) s.

(** [s[:n]]; a negative [n] counts from the end. *)
Definition slice_to (n : Z) (s : string) : string :=
  if 0 <=? n then substring 0 (Z.to_nat n) s
  else substring 0 (String.length s - Z.to_nat (- n)) s.

(** [str.lower] on one character. *)
Definition lower_char (c : ascii) : ascii :=
  let n := N_of_ascii c in
  if ((65 <=? n) && (n <=? 90)
      || (192 <=? n) && (n <=? 222) && negb (n =? 215))%N
  then ascii_of_N (n + 32)
  else c.

Fixpoint lower (s : string) : string :=
  match s with
  | String c r => String (lower_char c) (lower r)
  | EmptyString => EmptyString
  end.

(** [s.endswith(suffix)] *)
Definition endswith (s suffix : string) : bool :=
  (String.length suffix <=? String.length s)%nat
  && String.eqb (substring (String.length s - String.length suffix)
                   (String.length suffix) s) suffix.

End Py.

(* ------------------------------------------------------------------ *)
(** ** The text helpers of the reports ([src/routes/export.py]) *)

Module Relatorios.

Definition _format_cnpj (cnpj : string) : string :=
  if negb (PyStr.truthy (Some cnpj)) then ""
  else
    let cnpj :=
      if (11 <? String.length cnpj)%nat then Py.zfill 14 cnpj else Py.zfill 11 cnpj in
    if (String.length cnpj =? 14)%nat then
      (Py.slice 0 2 cnpj ++ "." ++ Py.slice 2 5 cnpj ++ "." ++ Py.slice 5 8 cnpj
       ++ "/" ++ Py.slice 8 12 cnpj ++ "-" ++ Py.slice_from 12 cnpj)%string
    else if (String.length cnpj =? 11)%nat then
      (Py.slice 0 3 cnpj ++ "." ++ Py.slice 3 6 cnpj ++ "." ++ Py.slice 6 9 cnpj
       ++ "-" ++ Py.slice_from 9 cnpj)%string
    else cnpj.

Definition _truncate_text (text : string) (max_length : Z) : string :=
  if negb (PyStr.truthy (Some text)) then ""
  else if max_length <? Z.of_nat (String.length text)
       then (Py.slice_to max_length text ++ "...")%string
       else text.

End Relatorios.

(* ------------------------------------------------------------------ *)
(** ** [SaldoService]: the summary *)

(** The dictionary [obter_resumo_saldos] returns. *)
Record Resumo : Type := {
  total_clientes : nat;
  total_produtos : nat;
  saldos_pendentes : nat;
  total_nfs_processadas : nat
}.

Module Consultas.

(** [db.session.query(coluna).distinct().count()] *)
Definition distinct_count (valores : list string) : nat :=
  List.length (nodup String.string_dec valores).

(** The filter of the pending balances. *)
Definition pendente (r : SaldoMaterial) : bool :=
  quantidade_retornada r + quantidade_utilizada r <? quantidade_enviada r.

Definition obter_resumo_saldos : M Resumo :=
  t <- query_saldos ;;
  fun s =>
    ({| total_clientes := distinct_count (map cliente_cnpj t);
        total_produtos := distinct_count (map codigo_produto t);
        saldos_pendentes := List.length (filter pendente t);
        total_nfs_processadas := List.length (notas_fiscais (banco s)) |}, s).

End Consultas.

(* ------------------------------------------------------------------ *)
(** ** The balances of one counterparty

    [SaldoService.consultar_saldos_cliente] and the route of the same name in
    [src/routes/saldos.py]. *)

(** What the database engine and the library decide: whether a text matches
    an [ILIKE] pattern, the order of two texts of a column, and the ISO text
    of an instant. *)
Record Motor : Type := {
  ilike : string -> string -> bool;
  texto_leb : string -> string -> bool;
  isoformat : datetime -> string
}.

(** The dictionary [SaldoMaterial.to_dict] returns. *)
Record SaldoDict : Type := {
  sd_id : nat;
  sd_cliente_cnpj : string;
  sd_cliente_nome : string;
  sd_codigo_produto : string;
  sd_descricao_produto : string;
  sd_numero_lote : string;
  sd_nf_saida_numero : string;
  sd_nf_saida_serie : string;
  sd_nf_saida_chave : string;
  sd_quantidade_enviada : float;
  sd_quantidade_retornada : float;
  sd_quantidade_utilizada : float;
  sd_quantidade_faturada : float;
  sd_saldo_disponivel : float;
  sd_created_at : option string;
  sd_updated_at : option string
}.

(** An entry of [nfs_saida]. *)
Record NfSaida : Type := {
  ns_nf_numero : string;
  ns_nf_serie : string;
  ns_nf_chave : string;
  ns_quantidade_enviada : float;
  ns_quantidade_retornada : float;
  ns_quantidade_utilizada : float;
  ns_quantidade_faturada : float;
  ns_saldo_disponivel : float
}.

(** A value of the dictionary [produtos]. *)
Record Produto : Type := {
  pr_codigo_produto : string;
  pr_descricao_produto : string;
  pr_numero_lote : string;
  pr_nfs_saida : list NfSaida;
  pr_total_enviado : float;
  pr_total_retornado : float;
  pr_total_utilizado : float;
  pr_total_faturado : float;
  pr_saldo_total : float
}.

Module Saldos.

Section WithMotor.

Variable motor : Motor.

Definition to_dict (r : SaldoMaterial) : SaldoDict :=
  {| sd_id := id r;
     sd_cliente_cnpj := cliente_cnpj r;
     sd_cliente_nome := cliente_nome r;
     sd_codigo_produto := codigo_produto r;
     sd_descricao_produto := descricao_produto r;
     sd_numero_lote := numero_lote r;
     sd_nf_saida_numero := nf_saida_numero r;
     sd_nf_saida_serie := nf_saida_serie r;
     sd_nf_saida_chave := nf_saida_chave r;
     sd_quantidade_enviada := Decimal.to_float (quantidade_enviada r);
     sd_quantidade_retornada := Decimal.to_float (quantidade_retornada r);
     sd_quantidade_utilizada := Decimal.to_float (quantidade_utilizada r);
     sd_quantidade_faturada := Decimal.to_float (quantidade_faturada r);
     sd_saldo_disponivel := saldo_disponivel r;
     sd_created_at := Some (isoformat motor (created_at r));
     sd_updated_at := Some (isoformat motor (updated_at r)) |}.

Definition texto_ltb (a b : string) : bool :=
  texto_leb motor a b && negb (texto_leb motor b a).

(** [r] does not come after [x] in the order by [cliente_nome],
    [codigo_produto] and [created_at] descending. *)
Definition nao_depois (r x : SaldoMaterial) : bool :=
  if texto_ltb (cliente_nome r) (cliente_nome x) then true
  else if texto_ltb (cliente_nome x) (cliente_nome r) then false
  else if texto_ltb (codigo_produto r) (codigo_produto x) then true
  else if texto_ltb (codigo_produto x) (codigo_produto r) then false
  else created_at x <=? created_at r.

Fixpoint insert_by (r : SaldoMaterial) (l : list SaldoMaterial) : list SaldoMaterial :=
  match l with
  | x :: l' => if nao_depois r x then r :: l else x :: insert_by r l'
  | [] => [r]
  end.

(** The [order_by] of the query; rows the order does not tell apart keep
    their table order. *)
Fixpoint order_by (l : list SaldoMaterial) : list SaldoMaterial :=
  match l with
  | r :: l' => insert_by r (order_by l')
  | [] => []
  end.

Definition consultar_saldos_cliente (cliente_cnpj' cliente_nome' : option string)
  : M (list SaldoDict) :=
  query <- query_saldos ;;
  let query :=
    if PyStr.truthy cliente_cnpj' then
      let cliente_cnpj' := Py.filter_isdigit (PyStr.or_empty cliente_cnpj') in
      filter (fun r => String.eqb (cliente_cnpj r) cliente_cnpj') query
    else query in
  let query :=
    if PyStr.truthy cliente_nome' then
      filter (fun r => ilike motor ("%" ++ PyStr.or_empty cliente_nome' ++ "%")%string
                         (cliente_nome r)) query
    else query in
  ret (map to_dict (order_by query)).

(** The entry a record adds to its product. *)
Definition nf_saida (saldo : SaldoDict) : NfSaida :=
  {| ns_nf_numero := sd_nf_saida_numero saldo;
     ns_nf_serie := sd_nf_saida_serie saldo;
     ns_nf_chave := sd_nf_saida_chave saldo;
     ns_quantidade_enviada := sd_quantidade_enviada saldo;
     ns_quantidade_retornada := sd_quantidade_retornada saldo;
     ns_quantidade_utilizada := sd_quantidade_utilizada saldo;
     ns_quantidade_faturada := sd_quantidade_faturada saldo;
     ns_saldo_disponivel := sd_saldo_disponivel saldo |}.

(** The value a new key gets, before anything is added to it. *)
Definition produto_novo (saldo : SaldoDict) : Produto :=
  {| pr_codigo_produto := sd_codigo_produto saldo;
     pr_descricao_produto := sd_descricao_produto saldo;
     pr_numero_lote := sd_numero_lote saldo;
     pr_nfs_saida := [];
     pr_total_enviado := PrimFloat.zero;
     pr_total_retornado := PrimFloat.zero;
     pr_total_utilizado := PrimFloat.zero;
     pr_total_faturado := PrimFloat.zero;
     pr_saldo_total := PrimFloat.zero |}.

Definition acrescenta (saldo : SaldoDict) (p : Produto) : Produto :=
  {| pr_codigo_produto := pr_codigo_produto p;
     pr_descricao_produto := pr_descricao_produto p;
     pr_numero_lote := pr_numero_lote p;
     pr_nfs_saida := pr_nfs_saida p ++ [nf_saida saldo];
     pr_total_enviado := PrimFloat.add (pr_total_enviado p) (sd_quantidade_enviada saldo);
     pr_total_retornado :=
       PrimFloat.add (pr_total_retornado p) (sd_quantidade_retornada saldo);
     pr_total_utilizado :=
       PrimFloat.add (pr_total_utilizado p) (sd_quantidade_utilizada saldo);
     pr_total_faturado :=
       PrimFloat.add (pr_total_faturado p) (sd_quantidade_faturada saldo);
     pr_saldo_total := PrimFloat.add (pr_saldo_total p) (sd_saldo_disponivel saldo) |}.

(** One turn of the loop on the dictionary [produtos], kept in insertion
    order. *)
Fixpoint agrupa (key : string) (saldo : SaldoDict) (produtos : list (string * Produto))
  : list (string * Produto) :=
  match produtos with
  | (k, p) :: produtos' =>
      if String.eqb k key then (k, acrescenta saldo p) :: produtos'
      else (k, p) :: agrupa key saldo produtos'
  | [] => [(key, acrescenta saldo (produto_novo saldo))]
  end.

Definition chave_do_produto (saldo : SaldoDict) : string :=
  (sd_codigo_produto saldo ++ "_" ++ sd_numero_lote saldo)%string.

Definition agrupa_todos (saldos : list SaldoDict) : list (string * Produto) :=
  fold_left (fun produtos saldo => agrupa (chave_do_produto saldo) saldo produtos)
    saldos [].

End WithMotor.

End Saldos.

(* ------------------------------------------------------------------ *)
(** ** The ingestion routes ([src/routes/notas_fiscais.py]) *)

(** An uploaded file: its name and its bytes. *)
Record FileStorage : Type := {
  filename : string;
  conteudo : list Byte.byte
}.

(** What the request holds: a body that cannot be read, no part named
    [file], or the file. *)
Inductive Pedido : Type :=
  | Pedido_ilegivel
  | Pedido_sem_arquivo
  | Pedido_com_arquivo (file : FileStorage).

(** A value that comes out of a JSON document, as far as the routes look at
    it: [None], a text, or a value of another type with its truth value. *)
Inductive PyVal : Type :=
  | PNone
  | PStr (s : string)
  | POutro (verdadeiro : bool).

Definition py_truthy (v : PyVal) : bool :=
  match v with
  | PNone => false
  | PStr s => PyStr.truthy (Some s)
  | POutro b => b
  end.

(** A note of the list [sync_notas_fiscais] returns: what [nota.get] gives
    for the three keys the route reads. *)
Record NotaMaino : Type := {
  nm_chave_acesso : PyVal;
  nm_numero : PyVal;
  nm_xml_content : PyVal
}.

(** An entry of [detalhes]. *)
Record Detalhe : Type := {
  dt_chave_acesso : PyVal;
  dt_numero : PyVal;
  dt_resultado : Resultado
}.

(** The JSON body of a synchronisation request: one that cannot be read as
    an object, or the two dates [data.get] gives. *)
Inductive PedidoSync : Type :=
  | Sync_ilegivel
  | Sync_datas (data_inicio data_fim : PyVal).

(** [MainoAPIService] as the route sees it: the answer of [test_connection]
    and the list [sync_notas_fiscais] returns, [None] when it raises. *)
Record MainoAPIService : Type := {
  test_connection : bool;
  sync_notas_fiscais : PyVal -> PyVal -> option (list NotaMaino)
}.

(** The JSON bodies of the answers. *)
Inductive Corpo : Type :=
  | Corpo_sucesso (nota_fiscal_id : nat) (numero serie : string)
                  (tipo_operacao : TipoOperacao) (itens_processados : nat)
  | Corpo_falha (error : Erro)
  | Corpo_erro (error : string)
  | Corpo_sincronizacao (total_notas sucessos erros : nat) (detalhes : list Detalhe)
  | Corpo_cliente (cliente : option (string * string)) (produtos : list Produto)
                  (total_produtos total_nfs produtos_com_saldo : nat).

Record Resposta : Type := {
  corpo : Corpo;
  status : nat
}.

Inductive LogRota : Type :=
  | Erro_no_upload_de_XML
  | Erro_na_sincronizacao.

(** The session of the service and the log of the routes. *)
Record Servidor : Type := {
  sessao : Sessao;
  log_rotas : list LogRota
}.

Module Rotas.

Section WithLib.

Variable lib : PyLib.

(** [bytes.decode('utf-8')]; [None] is [UnicodeDecodeError]. *)
Variable decode : list Byte.byte -> option string.

Definition erro_interno_do_servidor (sv : Servidor) : Resposta * Servidor :=
  ({| corpo := Corpo_erro "Erro interno do servidor"; status := 500 |},
   {| sessao := sessao sv; log_rotas := log_rotas sv ++ [Erro_no_upload_de_XML] |}).

Definition upload_xml (pedido : Pedido) (sv : Servidor) : Resposta * Servidor :=
  match pedido with
  | Pedido_ilegivel => erro_interno_do_servidor sv
  | Pedido_sem_arquivo =>
      ({| corpo := Corpo_erro "Nenhum arquivo enviado"; status := 400 |}, sv)
  | Pedido_com_arquivo file =>
      if String.eqb (filename file) "" then
        ({| corpo := Corpo_erro "Nenhum arquivo selecionado"; status := 400 |}, sv)
      else if negb (Py.endswith (Py.lower (filename file)) ".xml") then
        ({| corpo := Corpo_erro "Apenas arquivos XML sao aceitos"; status := 400 |}, sv)
      else
        match decode (conteudo file) with
        | None => erro_interno_do_servidor sv
        | Some xml_content =>
            let (resultado, s') :=
              SaldoService.processar_nota_fiscal lib xml_content (sessao sv) in
            let sv' := {| sessao := s'; log_rotas := log_rotas sv |} in
            match resultado with
            | Sucesso nota_fiscal_id numero serie tipo_operacao itens_processados =>
                ({| corpo := Corpo_sucesso nota_fiscal_id numero serie tipo_operacao
                               itens_processados;
                    status := 200 |}, sv')
            | Falha error => ({| corpo := Corpo_falha error; status := 400 |}, sv')
            end
        end
  end.

(** [datetime.strptime(s, '%d/%m/%Y')]; [None] is [ValueError]. *)
Variable strptime_dmy : string -> option datetime.

(** [_validar_formato_data]; [None] is the [TypeError] of a value that is
    not a text, which the function does not catch. *)
Definition _validar_formato_data (data_str : PyVal) : option bool :=
  match data_str with
  | PStr s => Some (match strptime_dmy s with Some _ => true | None => false end)
  | _ => None
  end.

(** [SaldoService.processar_nota_fiscal] on a value that need not be a
    text: for another value [_remove_namespaces] raises inside
    [validate_xml_structure], which answers that the document is not valid. *)
Definition processar_valor (xml_content : PyVal) : M Resultado :=
  match xml_content with
  | PStr s => SaldoService.processar_nota_fiscal lib s
  | _ => ret (Falha (Estrutural "Erro na validacao"))
  end.

(** The loop over the notes, from the three accumulators. *)
Fixpoint processar_notas (notas : list NotaMaino) (resultados : list Detalhe)
    (sucessos erros : nat) : M (list Detalhe * nat * nat) :=
  match notas with
  | nota :: notas' =>
      let xml_content := nm_xml_content nota in
      if py_truthy xml_content then
        resultado <- processar_valor xml_content ;;
        let detalhe := {| dt_chave_acesso := nm_chave_acesso nota;
                          dt_numero := nm_numero nota;
                          dt_resultado := resultado |} in
        if success resultado
        then processar_notas notas' (resultados ++ [detalhe]) (S sucessos) erros
        else processar_notas notas' (resultados ++ [detalhe]) sucessos (S erros)
      else processar_notas notas' resultados sucessos erros
  | [] => ret (resultados, sucessos, erros)
  end.

Definition erro_na_sincronizacao (sv : Servidor) : Resposta * Servidor :=
  ({| corpo := Corpo_erro "Erro interno do servidor"; status := 500 |},
   {| sessao := sessao sv; log_rotas := log_rotas sv ++ [Erro_na_sincronizacao] |}).

(** The check of one date of the request: [inl] leaves the route with that
    answer. *)
Definition checa_data (campo : string) (data : PyVal) (sv : Servidor)
  : (Resposta * Servidor) + unit :=
  if py_truthy data then
    match _validar_formato_data data with
    | None => inl (erro_na_sincronizacao sv)
    | Some false => inl ({| corpo := Corpo_erro campo; status := 400 |}, sv)
    | Some true => inr tt
    end
  else inr tt.

Definition sync_maino (maino_service : MainoAPIService) (pedido : PedidoSync)
    (sv : Servidor) : Resposta * Servidor :=
  match pedido with
  | Sync_ilegivel => erro_na_sincronizacao sv
  | Sync_datas data_inicio data_fim =>
      match checa_data "Formato de data_inicio invalido. Use DD/MM/YYYY"
              data_inicio sv with
      | inl resposta => resposta
      | inr _ =>
          match checa_data "Formato de data_fim invalido. Use DD/MM/YYYY"
                  data_fim sv with
          | inl resposta => resposta
          | inr _ =>
              if negb (test_connection maino_service) then
                ({| corpo := Corpo_erro "Falha na conexao com a API do Maino";
                    status := 500 |}, sv)
              else
                match sync_notas_fiscais maino_service data_inicio data_fim with
                | None => erro_na_sincronizacao sv
                | Some notas =>
                    let '(resultados, sucessos, erros, s') :=
                      processar_notas notas [] 0 0 (sessao sv) in
                    ({| corpo := Corpo_sincronizacao (List.length notas) sucessos erros
                                   resultados;
                        status := 200 |},
                     {| sessao := s'; log_rotas := log_rotas sv |})
                end
          end
      end
  end.

End WithLib.

(** The route [consultar_saldos_cliente] of [src/routes/saldos.py]. *)
Definition consultar_saldos_cliente (motor : Motor) (cliente_cnpj' : string)
    (sv : Servidor) : Resposta * Servidor :=
  let cliente_cnpj' := Py.filter_isdigit cliente_cnpj' in
  if negb ((String.length cliente_cnpj' =? 11)%nat || (String.length cliente_cnpj' =? 14)%nat)
  then ({| corpo := Corpo_erro "CNPJ/CPF invalido"; status := 400 |}, sv)
  else
    let (saldos, s') :=
      Saldos.consultar_saldos_cliente motor (Some cliente_cnpj') None (sessao sv) in
    let produtos := Saldos.agrupa_todos saldos in
    let cliente_info :=
      match saldos with
      | saldo :: _ => Some (sd_cliente_cnpj saldo, sd_cliente_nome saldo)
      | [] => None
      end in
    ({| corpo :=
          Corpo_cliente cliente_info (map snd produtos)
            (List.length produtos) (List.length saldos)
            (List.length (filter (fun p => PrimFloat.ltb PrimFloat.zero (pr_saldo_total p))
                            (map snd produtos)));
        status := 200 |},
     {| sessao := s'; log_rotas := log_rotas sv |}).

End Rotas.

(* ------------------------------------------------------------------ *)
(** ** Table constraints and totals *)

(** The columns of the unique constraint [_cliente_produto_lote_nf_uc]. *)
Definition tupla (r : SaldoMaterial) : string * string * string * string :=
  (cliente_cnpj r, codigo_produto r, numero_lote r, nf_saida_chave r).



(** Every character of the text is a digit. *)
Definition so_digitos (s : string) : bool := all_chars PyStr.isdigit s.



(** The line has a product block. *)
Definition tem_prod (det : ET.Element) : bool :=
  match ET.find_child "prod" det with Some _ => true | None => false end.

(** The item read from the line [det]: code, description and quantity of
    its product block, and the lot number the specification gives the line. *)
Definition item_da_linha (det : ET.Element) (item : ItemData) : Prop :=
  exists prod,
    ET.find_child "prod" det = Some prod /\
    it_codigo_produto item = PyStr.or_empty (ET.findtext_child "cProd" prod) /\
    it_descricao_produto item = PyStr.or_empty (ET.findtext_child "xProd" prod) /\
    XMLParser.float_or_0 (ET.findtext_child "qCom" prod) = inr (it_quantidade item) /\
    presente (it_numero_lote item) = lote_especificado det.

(** The session after the documents [xmls] are ingested one after the
    other. *)
Definition ingerir_todos (lib : PyLib) (xmls : list string) (s : Sessao) : Sessao :=
  fold_left (fun s xml => snd (SaldoService.processar_nota_fiscal lib xml s)) xmls s.

(** Further sample documents: a sale, whose fiscal code is not in the table,
    a shipment whose quantity is not a number, and one without issue date. *)
Module Casos.

Definition doc_venda : ET.Element :=
  Exemplos.doc_ex "K5" [ Exemplos.det_ex "5102" "2" [ Exemplos.rastro_ex "L1" ] [] ].

Definition doc_quantidade_invalida : ET.Element :=
  Exemplos.doc_ex "K6" [ Exemplos.det_ex "5917" "dez" [ Exemplos.rastro_ex "L1" ] [] ].

(** A shipment whose [ide] block has no issue date. *)
Definition doc_sem_data : ET.Element :=
  Exemplos.node "nfeProc"
    [ Exemplos.node "NFe"
        [ ET.Elem "infNFe" [("Id", "NFeK4")] None
            [ Exemplos.node "ide" [ Exemplos.leaf "nNF" "100"; Exemplos.leaf "serie" "1" ];
              Exemplos.node "dest" [ Exemplos.leaf "CNPJ" "12345678000190";
                                     Exemplos.leaf "xNome" "Hospital A" ];
              Exemplos.det_ex "5917" "1" [ Exemplos.rastro_ex "L1" ] [] ] ] ].

Definition lib_casos : PyLib :=
  {| fromstring := fun x =>
       if String.eqb x "venda" then Some doc_venda
       else if String.eqb x "quantidade invalida" then Some doc_quantidade_invalida
       else if String.eqb x "sem data" then Some doc_sem_data
       else fromstring Exemplos.lib_ex x;
     fromisoformat := fromisoformat Exemplos.lib_ex;
     strptime_ymd := strptime_ymd Exemplos.lib_ex;
     to_date := to_date Exemplos.lib_ex |}.

End Casos.

(* ================================================================== *)
(** * Properties *)

Import SaldoService.

(** ** Lookups *)

Lemma elegivel_spec cnpj produto lote r :
  elegivel cnpj produto lote r = true <->
  corresponde cnpj produto lote r /\ 0 < disponivel_exato r.
Proof.
  unfold elegivel, corresponde, disponivel_exato.
  rewrite !andb_true_iff, !String.eqb_eq, Z.ltb_lt.
  destruct lote as [l|].
  - rewrite String.eqb_eq. split.
    + intros [[[-> ->] ->] H]. repeat split; auto. lia.
    + intros [(-> & -> & E) H]. inversion E; subst. repeat split; auto. lia.
  - split.
    + intros [[_ F] _]. discriminate.
    + intros [(_ & _ & F) _]. discriminate.
Qed.

Lemma mesma_chave_spec nota item r :
  mesma_chave nota item r = true <-> mesma_tupla nota item r.
Proof.
  unfold mesma_chave, mesma_tupla, corresponde.
  rewrite !andb_true_iff, !String.eqb_eq.
  destruct (it_numero_lote item) as [l|].
  - rewrite String.eqb_eq. split.
    + intros [[[-> ->] ->] ->]. repeat split; auto.
    + intros [(-> & -> & E) ->]. inversion E; subst. repeat split; auto.
  - split.
    + intros [[_ F] _]. discriminate.
    + intros [(_ & _ & F) _]. discriminate.
Qed.

Lemma hd_error_filter_Some {A} (f : A -> bool) l x :
  hd_error (filter f l) = Some x -> In x l /\ f x = true.
Proof.
  intros H. apply filter_In.
  destruct (filter f l) as [|y l']; [discriminate|].
  injection H as ->. now left.
Qed.

Lemma hd_error_filter_None {A} (f : A -> bool) l :
  hd_error (filter f l) = None -> forall x, In x l -> f x = false.
Proof.
  intros H x Hx. destruct (f x) eqn:E; [|reflexivity].
  assert (Hin : In x (filter f l)) by (apply filter_In; auto).
  destruct (filter f l); [destruct Hin | discriminate].
Qed.

Lemma insert_by_created_at_In r l x :
  In x (insert_by_created_at r l) <-> x = r \/ In x l.
Proof.
  induction l as [|y l IH]; simpl.
  - intuition.
  - destruct (created_at r <=? created_at y); simpl; rewrite ?IH; intuition.
Qed.

Lemma order_by_created_at_In l x :
  In x (order_by_created_at l) <-> In x l.
Proof.
  induction l as [|y l IH]; simpl; [tauto|].
  rewrite insert_by_created_at_In, IH. intuition.
Qed.

Lemma hd_insert_by_created_at r l :
  exists m, hd_error (insert_by_created_at r l) = Some m /\
            created_at m <= created_at r /\
            (m = r \/ hd_error l = Some m).
Proof.
  destruct l as [|y l]; simpl.
  - exists r. split; [reflexivity|]. split; [lia | now left].
  - destruct (created_at r <=? created_at y) eqn:E; simpl.
    + exists r. split; [reflexivity|]. split; [lia | now left].
    + apply Z.leb_gt in E. exists y. split; [reflexivity|]. split; [lia | now right].
Qed.

(** The first row of the ordered list is a row of the list, and no row of the
    list was created before it. *)
Lemma hd_order_by_created_at l m :
  hd_error (order_by_created_at l) = Some m ->
  In m l /\ forall x, In x l -> created_at m <= created_at x.
Proof.
  revert m. induction l as [|y l IH]; simpl; intros m H; [discriminate|].
  destruct (hd_insert_by_created_at y (order_by_created_at l)) as (m' & E & Hle & Hm).
  rewrite E in H. injection H as <-.
  destruct Hm as [-> | Hm].
  - split; [now left|]. intros x [<- | Hx]; [lia|].
    destruct (order_by_created_at l) as [|z l'] eqn:El.
    + apply order_by_created_at_In in Hx. rewrite El in Hx. destruct Hx.
    + destruct (IH z eq_refl) as [_ Hz].
      simpl in E. destruct (created_at y <=? created_at z) eqn:Ez.
      * apply Z.leb_le in Ez. specialize (Hz x Hx). lia.
      * simpl in E. injection E as E. subst z. apply Hz, Hx.
  - destruct (IH m' Hm) as [Hin Hmin]. split; [now right|].
    intros x [<- | Hx]; [lia | auto].
Qed.

Lemma hd_order_by_created_at_None l :
  hd_error (order_by_created_at l) = None -> l = [].
Proof.
  destruct l as [|y l]; [reflexivity|]. simpl.
  destruct (hd_insert_by_created_at y (order_by_created_at l)) as (m & E & _).
  rewrite E. discriminate.
Qed.

(** What [_buscar_saldo_para_retorno] returns. *)
Lemma buscar_Some cnpj produto lote s r :
  fst (_buscar_saldo_para_retorno cnpj produto lote s) = Some r ->
  In r (saldos s) /\ corresponde cnpj produto lote r /\ 0 < disponivel_exato r /\
  forall x, In x (saldos s) -> corresponde cnpj produto lote x ->
            0 < disponivel_exato x -> created_at r <= created_at x.
Proof.
  unfold _buscar_saldo_para_retorno, bind, query_saldos, ret, saldos. simpl.
  intros H. apply hd_order_by_created_at in H. destruct H as [Hin Hmin].
  apply filter_In in Hin. destruct Hin as [Hin He].
  apply elegivel_spec in He. destruct He as [Hc Hd].
  split; [exact Hin|]. split; [exact Hc|]. split; [exact Hd|].
  intros x Hx Hcx Hdx. apply Hmin, filter_In. split; [exact Hx|].
  apply elegivel_spec. auto.
Qed.

Lemma buscar_None cnpj produto lote s :
  fst (_buscar_saldo_para_retorno cnpj produto lote s) = None ->
  forall x, In x (saldos s) -> corresponde cnpj produto lote x ->
            ~ 0 < disponivel_exato x.
Proof.
  unfold _buscar_saldo_para_retorno, bind, query_saldos, ret, saldos. simpl.
  intros H x Hx Hc Hd. apply hd_order_by_created_at_None in H.
  assert (Hin : In x (filter (elegivel cnpj produto lote) (saldos_materiais (banco s)))).
  { apply filter_In. split; [exact Hx|]. apply elegivel_spec. auto. }
  rewrite H in Hin. destruct Hin.
Qed.

Lemma buscar_state cnpj produto lote s :
  snd (_buscar_saldo_para_retorno cnpj produto lote s) = s.
Proof. reflexivity. Qed.

(** ** One ledger step *)

Lemma atualizar_saldo_com_busca nota item s :
  com_busca (nf_tipo_operacao nota) ->
  _atualizar_saldo nota item s =
  match fst (_buscar_saldo_para_retorno (nf_destinatario_cnpj nota)
               (it_codigo_produto item) (it_numero_lote item) s) with
  | Some r =>
      update_saldo (id r)
        (soma (nf_tipo_operacao nota) (it_quantidade item) (utcnow s)) s
  | None =>
      logger (Warning_saldo_nao_encontrado (nf_tipo_operacao nota)
                (nf_destinatario_cnpj nota) (it_codigo_produto item)
                (it_numero_lote item)) s
  end.
Proof.
  intros [H | [H | H]]; unfold _atualizar_saldo; rewrite H;
    unfold _processar_retorno_consignacao, _processar_retorno_simbolico,
           _processar_faturamento, bind, now;
    simpl;
    destruct (hd_error _); reflexivity.
Qed.





Lemma update_saldo_saldos k f s :
  saldos (snd (update_saldo k f s)) = update_row k f (saldos s).
Proof. reflexivity. Qed.




Example retorno_no_envio_mais_antigo :
  saldos (snd (_atualizar_saldo (Exemplos.nota_ex 3 Retorno "K3")
                 (Exemplos.item_ex 40000 (Some "L1"))
                 (Exemplos.sessao_ex [] Exemplos.dois_envios)))
  = [ set_quantidades (Exemplos.saldo_ex 1 "K1" 100000 0 0 0 100) 100000 40000 0 0 300;
      Exemplos.saldo_ex 2 "K2" 100000 0 0 0 200 ].
Proof. reflexivity. Qed.

(** ** Shipments *)

Lemma atualizar_saldo_saida nota item s :
  nf_tipo_operacao nota = Saida ->
  saldos (snd (_atualizar_saldo nota item s)) =
  match hd_error (filter (mesma_chave nota item) (saldos s)) with
  | Some r => update_row (id r) (add_enviada (it_quantidade item) (utcnow s)) (saldos s)
  | None => saldos s ++ [novo_saldo nota item (utcnow s) (next_id (map id (saldos s)))]
  end.
Proof.
  intros H. unfold _atualizar_saldo. rewrite H.
  unfold _processar_saida_consignacao, bind, query_saldos, now, saldos. simpl.
  destruct (hd_error _); reflexivity.
Qed.

Lemma update_row_ids k f t :
  (forall r, id (f r) = id r) -> map id (update_row k f t) = map id t.
Proof.
  intros Hf. induction t as [|y t IH]; simpl; [reflexivity|].
  rewrite IH. destruct (Nat.eqb (id y) k); now rewrite ?Hf.
Qed.

Lemma soma_id tipo q agora r : id (soma tipo q agora r) = id r.
Proof. destruct tipo; reflexivity. Qed.




Example segundo_envio_da_mesma_nota_soma :
  saldos (snd (_atualizar_saldo (Exemplos.nota_ex 3 Saida "K2")
                 (Exemplos.item_ex 25000 (Some "L1"))
                 (Exemplos.sessao_ex [] Exemplos.dois_envios)))
  = [ Exemplos.saldo_ex 1 "K1" 100000 0 0 0 100;
      set_quantidades (Exemplos.saldo_ex 2 "K2" 100000 0 0 0 200) 125000 0 0 0 300 ].
Proof. reflexivity. Qed.

(** ** Counters *)












(** ** The loop over the lines *)

Lemma atualizar_saldo_efeito nota item s :
  saldos (snd (_atualizar_saldo nota item s)) = efeito nota (utcnow s) (saldos s) item.
Proof.
  unfold efeito.
  destruct (nf_tipo_operacao nota) eqn:Et.
  - rewrite !(atualizar_saldo_saida nota item) by assumption. reflexivity.
  - rewrite !(atualizar_saldo_com_busca nota item)
      by (unfold com_busca; rewrite Et; auto).
    unfold _buscar_saldo_para_retorno, bind, query_saldos, ret. simpl.
    fold (saldos s). destruct (hd_error _); reflexivity.
  - rewrite !(atualizar_saldo_com_busca nota item)
      by (unfold com_busca; rewrite Et; auto).
    unfold _buscar_saldo_para_retorno, bind, query_saldos, ret. simpl.
    fold (saldos s). destruct (hd_error _); reflexivity.
  - rewrite !(atualizar_saldo_com_busca nota item)
      by (unfold com_busca; rewrite Et; auto).
    unfold _buscar_saldo_para_retorno, bind, query_saldos, ret. simpl.
    fold (saldos s). destruct (hd_error _); reflexivity.
  - unfold _atualizar_saldo. rewrite Et. reflexivity.
Qed.

(** A ledger step writes to the balance table and the log only. *)
Lemma atualizar_saldo_frame nota item s :
  let s' := snd (_atualizar_saldo nota item s) in
  notas_fiscais (banco s') = notas_fiscais (banco s) /\
  itens_nota_fiscal (banco s') = itens_nota_fiscal (banco s) /\
  utcnow s' = utcnow s.
Proof.
  unfold _atualizar_saldo, _processar_saida_consignacao,
    _processar_retorno_consignacao, _processar_retorno_simbolico,
    _processar_faturamento, _buscar_saldo_para_retorno,
    bind, query_saldos, now, ret.
  destruct (nf_tipo_operacao nota); simpl;
    repeat match goal with |- context [hd_error ?l] => destruct (hd_error l) end;
    simpl; auto.
Qed.

Lemma processar_itens_cons nota item itens n s :
  processar_itens nota (item :: itens) n s =
  let s1 := snd (add_item (novo_item nota item (utcnow s)) s) in
  if com_lote item
  then processar_itens nota itens (S n) (snd (_atualizar_saldo nota item s1))
  else processar_itens nota itens n s1.
Proof.
  simpl. unfold bind, now, com_lote. simpl.
  destruct (PyStr.truthy (it_numero_lote item)); [|reflexivity].
  destruct (_atualizar_saldo nota item _); reflexivity.
Qed.

Lemma processar_itens_spec nota itens : forall n s,
  let r := processar_itens nota itens n s in
  fst r = (n + List.length (filter com_lote itens))%nat /\
  saldos (snd r) = fold_left (efeito nota (utcnow s)) (filter com_lote itens) (saldos s) /\
  notas_fiscais (banco (snd r)) = notas_fiscais (banco s) /\
  utcnow (snd r) = utcnow s /\
  exists novos,
    itens_nota_fiscal (banco (snd r)) = itens_nota_fiscal (banco s) ++ novos /\
    linhas_de nota (utcnow s) itens novos.
Proof.
  induction itens as [|item itens IH]; intros n s.
  - simpl. repeat split; auto. exists []. rewrite app_nil_r.
    split; [reflexivity|constructor].
  - cbv zeta. rewrite processar_itens_cons. cbv zeta.
    set (row := novo_item nota item (utcnow s)
                  (next_id (map inf_id (itens_nota_fiscal (banco s))))).
    set (s1 := snd (add_item (novo_item nota item (utcnow s)) s)).
    assert (Hi1 : itens_nota_fiscal (banco s1) = itens_nota_fiscal (banco s) ++ [row])
      by reflexivity.
    simpl filter. destruct (com_lote item) eqn:El.
    + set (s2 := snd (_atualizar_saldo nota item s1)).
      destruct (atualizar_saldo_frame nota item s1) as (Hn & Hi & Hu).
      fold s2 in Hn, Hi, Hu.
      destruct (IH (S n) s2) as (Hc & Hsal & Hnot & Hut & novos & Hit & Hl).
      split; [rewrite Hc; simpl; lia|].
      split.
      { rewrite Hsal, Hu. unfold s2. rewrite atualizar_saldo_efeito. reflexivity. }
      split; [rewrite Hnot, Hn; reflexivity|].
      split; [rewrite Hut, Hu; reflexivity|].
      exists (row :: novos). split.
      * rewrite Hit, Hi, Hi1, <- app_assoc. reflexivity.
      * constructor; [reflexivity|]. rewrite Hu in Hl. exact Hl.
    + destruct (IH n s1) as (Hc & Hsal & Hnot & Hut & novos & Hit & Hl).
      split; [exact Hc|]. split; [exact Hsal|]. split; [exact Hnot|].
      split; [exact Hut|].
      exists (row :: novos). split.
      * rewrite Hit, Hi1, <- app_assoc. reflexivity.
      * constructor; [reflexivity|]. exact Hl.
Qed.

(** ** Ingestion of one document *)

Lemma ja_ingerida_filter chave s :
  ja_ingerida chave s <->
  hd_error (filter (fun n => String.eqb (nf_chave_acesso n) chave)
              (notas_fiscais (banco s))) <> None.
Proof.
  unfold ja_ingerida. split.
  - intros (n & Hin & Hk) H.
    apply (hd_error_filter_None _ _ H) in Hin.
    rewrite Hk, String.eqb_refl in Hin. discriminate.
  - intros H. destruct (hd_error _) as [n|] eqn:E; [|congruence].
    apply hd_error_filter_Some in E. destruct E as [Hin Hk].
    apply String.eqb_eq in Hk. eauto.
Qed.

(** A document that passes the validation has a number and a series. *)
Lemma validado_tem_numero_e_serie lib xml nf :
  fst (XMLParser.validate_xml_structure lib xml) = true ->
  XMLParser.parse_xml lib xml = inr nf ->
  exists numero serie, nd_numero nf = Some numero /\ nd_serie nf = Some serie.
Proof.
  unfold XMLParser.validate_xml_structure, XMLParser.parse_xml,
    XMLParser._extract_nf_data, exc_bind.
  destruct (fromstring lib xml) as [root|]; [|discriminate].
  destruct (ET.find "infNFe" root); [|discriminate].
  destruct (ET.find "ide" root) as [ide|]; [|discriminate].
  destruct (ET.findtext_child "nNF" ide) as [[|c n]|] eqn:En; try discriminate.
  destruct (ET.findtext_child "serie" ide) as [[|c' se]|] eqn:Es; try discriminate.
  simpl. intros _.
  destruct (XMLParser._extract_destinatario_data root) as [cnpj nome].
  destruct (XMLParser._extract_itens_data lib root); [discriminate|].
  intros H. injection H as <-. simpl. eauto.
Qed.

(** What a call that succeeds has done. *)
Lemma processar_nota_fiscal_sucesso lib xml s nf emissao :
  fst (XMLParser.validate_xml_structure lib xml) = true ->
  XMLParser.parse_xml lib xml = inr nf ->
  ~ ja_ingerida (nd_chave_acesso nf) s ->
  nd_data_emissao nf = Some emissao ->
  exists nota,
    nova_nota nf xml (utcnow s) (next_id (map nf_id (notas_fiscais (banco s))))
      = inr nota /\
    processar_nota_fiscal lib xml s =
      (Sucesso (nf_id nota) (nf_numero nota) (nf_serie nota) (nd_tipo_operacao nf)
         (fst (processar_itens nota (nd_itens nf) 0 (snd (add_nota nota s)))),
       snd (processar_itens nota (nd_itens nf) 0 (snd (add_nota nota s)))).
Proof.
  intros Hv Hp Hnew Hd.
  destruct (validado_tem_numero_e_serie lib xml nf Hv Hp) as (numero & serie & Hn & Hs).
  unfold processar_nota_fiscal.
  destruct (XMLParser.validate_xml_structure lib xml) as [v msg]. simpl in Hv. subst v.
  simpl. rewrite Hp.
  rewrite ja_ingerida_filter in Hnew.
  destruct (hd_error _) as [n|]; [exfalso; apply Hnew; discriminate|].
  unfold nova_nota. rewrite Hn, Hs, Hd.
  eexists. split; [reflexivity|].
  unfold bind, add_nota, ret. simpl.
  match goal with
  | |- context [processar_itens ?a ?b ?c ?d] => destruct (processar_itens a b c d)
  end.
  reflexivity.
Qed.

Lemma processar_nota_fiscal_sucesso_inv lib xml s k numero serie tipo cnt s' :
  processar_nota_fiscal lib xml s = (Sucesso k numero serie tipo cnt, s') ->
  exists nf nota,
    fst (XMLParser.validate_xml_structure lib xml) = true /\
    XMLParser.parse_xml lib xml = inr nf /\
    ~ ja_ingerida (nd_chave_acesso nf) s /\
    nova_nota nf xml (utcnow s) (next_id (map nf_id (notas_fiscais (banco s))))
      = inr nota /\
    tipo = nd_tipo_operacao nf /\ k = nf_id nota /\
    cnt = fst (processar_itens nota (nd_itens nf) 0 (snd (add_nota nota s))) /\
    s' = snd (processar_itens nota (nd_itens nf) 0 (snd (add_nota nota s))).
Proof.
  unfold processar_nota_fiscal.
  destruct (XMLParser.validate_xml_structure lib xml) as [[|] msg]; simpl;
    [|discriminate].
  destruct (XMLParser.parse_xml lib xml) as [e|nf]; [discriminate|].
  destruct (hd_error _) as [n|] eqn:Ex; [discriminate|].
  destruct (nova_nota _ _ _ _) as [e|nota] eqn:En; [discriminate|].
  unfold bind, ret. change (add_nota nota s) with (tt, snd (add_nota nota s)).
  cbv iota.
  destruct (processar_itens nota (nd_itens nf) 0 (snd (add_nota nota s)))
    as [c s2] eqn:Ep.
  intros H. injection H as <- <- <- <- <- <-.
  exists nf, nota. repeat split; auto.
  - rewrite ja_ingerida_filter. rewrite Ex. auto.
  - change (c = fst (processar_itens nota (nd_itens nf) 0 (snd (add_nota nota s)))).
    now rewrite Ep.
  - change (s2 = snd (processar_itens nota (nd_itens nf) 0 (snd (add_nota nota s)))).
    now rewrite Ep.
Qed.

(** A call that fails leaves the database as it was. *)
Lemma processar_nota_fiscal_falha lib xml s :
  success (fst (processar_nota_fiscal lib xml s)) = false ->
  banco (snd (processar_nota_fiscal lib xml s)) = banco s.
Proof.
  unfold processar_nota_fiscal.
  destruct (XMLParser.validate_xml_structure lib xml) as [[|] msg]; simpl;
    [|reflexivity].
  destruct (XMLParser.parse_xml lib xml) as [e|nf]; [reflexivity|].
  destruct (hd_error _) as [n|]; [reflexivity|].
  destruct (nova_nota _ _ _ _) as [e|nota]; [reflexivity|].
  unfold bind, ret. change (add_nota nota s) with (tt, snd (add_nota nota s)).
  cbv iota.
  destruct (processar_itens nota (nd_itens nf) 0 (snd (add_nota nota s))) as [c s2].
  simpl. discriminate.
Qed.

Lemma nova_nota_chave nf xml agora k nota :
  nova_nota nf xml agora k = inr nota ->
  nf_chave_acesso nota = nd_chave_acesso nf /\ nf_id nota = k /\
  nf_tipo_operacao nota = nd_tipo_operacao nf /\
  nf_destinatario_cnpj nota = nd_destinatario_cnpj nf.
Proof.
  unfold nova_nota.
  destruct (nd_numero nf), (nd_serie nf), (nd_data_emissao nf); try discriminate.
  intros H. injection H as <-. repeat split.
Qed.

(** C3.  When a document passes the validation and parses, and an invoice
    with its access key is already in the table, [processar_nota_fiscal]
    answers with the duplicate rejection, which is neither a success nor an
    internal failure, and leaves the whole session as it was: no invoice, no
    line and no balance record is created or changed.  In particular, after a
    document was ingested with success, ingesting it again is rejected so. *)
Theorem nota_duplicada_rejeitada (lib : PyLib) (xml : string) :
  (forall s nf,
      fst (XMLParser.validate_xml_structure lib xml) = true ->
      XMLParser.parse_xml lib xml = inr nf ->
      ja_ingerida (nd_chave_acesso nf) s ->
      processar_nota_fiscal lib xml s
      = (Falha (Ja_processada (nd_numero nf) (nd_serie nf)), s)) /\
  (forall s k numero serie tipo cnt s',
      processar_nota_fiscal lib xml s = (Sucesso k numero serie tipo cnt, s') ->
      exists nf,
        XMLParser.parse_xml lib xml = inr nf /\
        processar_nota_fiscal lib xml s'
        = (Falha (Ja_processada (nd_numero nf) (nd_serie nf)), s')).
Proof.
  assert (Hdup : forall s nf,
      fst (XMLParser.validate_xml_structure lib xml) = true ->
      XMLParser.parse_xml lib xml = inr nf ->
      ja_ingerida (nd_chave_acesso nf) s ->
      processar_nota_fiscal lib xml s
      = (Falha (Ja_processada (nd_numero nf) (nd_serie nf)), s)).
  { intros s nf Hv Hp Hex. unfold processar_nota_fiscal.
    destruct (XMLParser.validate_xml_structure lib xml) as [v msg].
    simpl in Hv. subst v. simpl. rewrite Hp.
    apply ja_ingerida_filter in Hex.
    destruct (hd_error _); [reflexivity | congruence]. }
  split; [exact Hdup|].
  intros s k numero serie tipo cnt s' H.
  destruct (processar_nota_fiscal_sucesso_inv _ _ _ _ _ _ _ _ _ H)
    as (nf & nota & Hv & Hp & _ & Hn & _ & _ & _ & Hs').
  exists nf. split; [exact Hp|].
  apply Hdup; auto.
  exists nota. split; [|apply (nova_nota_chave _ _ _ _ _ Hn)].
  destruct (processar_itens_spec nota (nd_itens nf) 0 (snd (add_nota nota s)))
    as (_ & _ & Hnot & _).
  rewrite Hs', Hnot. simpl. apply in_or_app. right. now left.
Qed.

(** C9.  After an ingestion that succeeds, every line of the document has
    its row, in order and with its fields, and the count reported is the
    number of lines with a lot number; the balance table is what the ledger
    steps of the lines with a lot number alone make of it, so a line without
    lot creates and changes no balance record, and a document without any
    lot leaves the table as it was and reports zero.  The count can be
    smaller than the number of lines. *)
Theorem linhas_sem_lote_fora_do_saldo :
  (forall lib xml s k numero serie tipo cnt s',
      processar_nota_fiscal lib xml s = (Sucesso k numero serie tipo cnt, s') ->
      exists nf nota,
        XMLParser.parse_xml lib xml = inr nf /\
        In nota (notas_fiscais (banco s')) /\ nf_id nota = k /\
        cnt = List.length (filter com_lote (nd_itens nf)) /\
        (cnt <= List.length (nd_itens nf))%nat /\
        (exists novos,
            itens_nota_fiscal (banco s') = itens_nota_fiscal (banco s) ++ novos /\
            linhas_de nota (utcnow s) (nd_itens nf) novos) /\
        saldos s' =
          fold_left (efeito nota (utcnow s)) (filter com_lote (nd_itens nf)) (saldos s) /\
        ((forall item, In item (nd_itens nf) -> com_lote item = false) ->
           saldos s' = saldos s /\ cnt = 0%nat)) /\
  (exists lib xml s nf,
      XMLParser.parse_xml lib xml = inr nf /\
      exists k numero serie tipo cnt,
        fst (processar_nota_fiscal lib xml s) = Sucesso k numero serie tipo cnt /\
        (cnt < List.length (nd_itens nf))%nat).
Proof.
  split.
  - intros lib xml s k numero serie tipo cnt s' H.
    destruct (processar_nota_fiscal_sucesso_inv _ _ _ _ _ _ _ _ _ H)
      as (nf & nota & Hv & Hp & _ & Hn & _ & Hk & Hc & Hs').
    destruct (processar_itens_spec nota (nd_itens nf) 0 (snd (add_nota nota s)))
      as (Hcnt & Hsal & Hnot & _ & novos & Hit & Hl).
    rewrite <- Hs' in Hsal, Hnot, Hit. rewrite <- Hc in Hcnt. simpl in Hcnt.
    exists nf, nota.
    split; [exact Hp|].
    split; [rewrite Hnot; simpl; apply in_or_app; right; now left|].
    split; [symmetry; exact Hk|].
    split; [exact Hcnt|].
    split; [rewrite Hcnt; apply filter_length_le|].
    split; [exists novos; split; [exact Hit | exact Hl]|].
    split; [exact Hsal|].
    intros Hnone.
    assert (Hf : filter com_lote (nd_itens nf) = []).
    { clear - Hnone. induction (nd_itens nf) as [|i l IH]; [reflexivity|].
      simpl. rewrite (Hnone i (or_introl eq_refl)). apply IH.
      intros j Hj. apply Hnone. now right. }
    rewrite Hsal, Hcnt, Hf. split; reflexivity.
  - exists Exemplos.lib_ex, "envio", (Exemplos.sessao_ex [] []).
    eexists. split; [vm_compute; reflexivity|].
    do 5 eexists. split; [vm_compute; reflexivity|].
    simpl. lia.
Qed.

Lemma linhas_sem_lote_fora_do_saldo_witness :
  exists nf nota,
    XMLParser.parse_xml Exemplos.lib_ex "envio" = inr nf /\
    In nota (notas_fiscais
               (banco (snd (processar_nota_fiscal Exemplos.lib_ex "envio"
                              (Exemplos.sessao_ex [] []))))) /\
    1%nat = List.length (filter com_lote (nd_itens nf)).
Proof.
  destruct linhas_sem_lote_fora_do_saldo as [H _].
  assert (E : processar_nota_fiscal Exemplos.lib_ex "envio" (Exemplos.sessao_ex [] [])
              = (Sucesso 1 "100" "1" Saida 1,
                 snd (processar_nota_fiscal Exemplos.lib_ex "envio"
                        (Exemplos.sessao_ex [] []))))
    by (vm_compute; reflexivity).
  destruct (H _ _ _ _ _ _ _ _ _ E) as (nf & nota & Hp & Hin & _ & Hc & _).
  exists nf, nota. split; [exact Hp|]. split; [exact Hin | exact Hc].
Defined.

Lemma nota_duplicada_rejeitada_witness :
  let s := Exemplos.sessao_ex [Exemplos.nota_ex 1 Retorno "K7"] Exemplos.dois_envios in
  processar_nota_fiscal Exemplos.lib_ex "retorno" s
  = (Falha (Ja_processada (Some "100") (Some "1")), s).
Proof.
  intros s.
  destruct (XMLParser.parse_xml Exemplos.lib_ex "retorno") as [e|nf] eqn:Hp.
  - vm_compute in Hp. discriminate Hp.
  - assert (Hk : nd_chave_acesso nf = "K7" /\
                 nd_numero nf = Some "100" /\ nd_serie nf = Some "1").
    { vm_compute in Hp. injection Hp as <-. repeat split. }
    destruct Hk as (Hk & Hn & Hs).
    destruct (nota_duplicada_rejeitada Exemplos.lib_ex "retorno") as [H _].
    rewrite <- Hn, <- Hs. apply H.
    + vm_compute. reflexivity.
    + exact Hp.
    + exists (Exemplos.nota_ex 1 Retorno "K7"). split; [now left|].
      symmetry. exact Hk.
Defined.

(** ** Lines that find no balance *)







Example retorno_sem_saldo_so_avisa :
  let r := processar_nota_fiscal Exemplos.lib_ex "retorno" (Exemplos.sessao_ex [] []) in
  fst r = Sucesso 1 "100" "1" Retorno 1 /\
  saldos (snd r) = [] /\
  log (snd r) = [ aviso Retorno Exemplos.hospital (Exemplos.item_ex 40000 (Some "L1")) ].
Proof. vm_compute. repeat split. Qed.

(** ** Primary keys stay unique *)

Lemma next_id_fresh l : ~ In (next_id l) l.
Proof.
  intros H.
  assert (Hall : Forall (fun k => (k <= list_max l)%nat) l)
    by (apply list_max_le; lia).
  rewrite Forall_forall in Hall. specialize (Hall _ H).
  unfold next_id in Hall. lia.
Qed.

Lemma NoDup_snoc {A} (l : list A) x : NoDup l -> ~ In x l -> NoDup (l ++ [x]).
Proof.
  induction l as [|y l IH]; simpl; intros Hnd Hx.
  - constructor; [tauto | constructor].
  - inversion Hnd as [|? ? Hy Hl]; subst. constructor.
    + rewrite in_app_iff. simpl. intros [H | [H | []]]; [tauto|].
      apply Hx. left. symmetry. exact H.
    + apply IH; [exact Hl | tauto].
Qed.

Lemma ids_unicos_atualizar_saldo nota item s :
  NoDup (map id (saldos s)) ->
  NoDup (map id (saldos (snd (_atualizar_saldo nota item s)))).
Proof.
  intros Hnd. destruct (nf_tipo_operacao nota) eqn:Et.
  - rewrite (atualizar_saldo_saida nota item s Et).
    destruct (hd_error _).
    + rewrite update_row_ids; [exact Hnd | reflexivity].
    + rewrite map_app. simpl. apply NoDup_snoc; [exact Hnd | apply next_id_fresh].
  - rewrite (atualizar_saldo_com_busca nota item s)
      by (unfold com_busca; rewrite Et; auto).
    destruct (fst _); [|exact Hnd].
    rewrite update_saldo_saldos, update_row_ids; [exact Hnd | intros; apply soma_id].
  - rewrite (atualizar_saldo_com_busca nota item s)
      by (unfold com_busca; rewrite Et; auto).
    destruct (fst _); [|exact Hnd].
    rewrite update_saldo_saldos, update_row_ids; [exact Hnd | intros; apply soma_id].
  - rewrite (atualizar_saldo_com_busca nota item s)
      by (unfold com_busca; rewrite Et; auto).
    destruct (fst _); [|exact Hnd].
    rewrite update_saldo_saldos, update_row_ids; [exact Hnd | intros; apply soma_id].
  - unfold _atualizar_saldo. rewrite Et. exact Hnd.
Qed.

Lemma ids_unicos_efeito nota agora itens : forall t,
  NoDup (map id t) -> NoDup (map id (fold_left (efeito nota agora) itens t)).
Proof.
  induction itens as [|item l IH]; intros t Ht; [exact Ht|].
  simpl. apply IH. unfold efeito.
  apply (ids_unicos_atualizar_saldo nota item (so_saldos t agora)). exact Ht.
Qed.

(** Ingestion keeps the primary keys of the balance table unique. *)
Lemma ids_unicos_processar_nota_fiscal lib xml s :
  NoDup (map id (saldos s)) ->
  NoDup (map id (saldos (snd (processar_nota_fiscal lib xml s)))).
Proof.
  intros Hnd.
  destruct (fst (processar_nota_fiscal lib xml s)) as [k numero serie tipo cnt|e] eqn:E.
  - destruct (processar_nota_fiscal_sucesso_inv lib xml s k numero serie tipo cnt
                (snd (processar_nota_fiscal lib xml s)))
      as (nf & nota & _ & _ & _ & _ & _ & _ & _ & Hs').
    { rewrite <- E. apply surjective_pairing. }
    destruct (processar_itens_spec nota (nd_itens nf) 0 (snd (add_nota nota s)))
      as (_ & Hsal & _).
    rewrite Hs', Hsal. apply ids_unicos_efeito. exact Hnd.
  - unfold saldos. rewrite processar_nota_fiscal_falha; [exact Hnd|].
    rewrite E. reflexivity.
Qed.

(** ** The validation of an operation *)



(** Eleven units asked of a record that has ten: refused, with both
    amounts.  Four units: accepted. *)
Example validar_quantidade_insuficiente :
  fst (validar_operacao (Exemplos.nota_ex 3 Retorno "K3")
         (Exemplos.item_ex 110000 (Some "L1"))
         (Exemplos.sessao_ex [] Exemplos.dois_envios))
  = Quantidade_insuficiente 10%float 11%float.
Proof. vm_compute. reflexivity. Qed.

Example validar_quantidade_suficiente :
  fst (validar_operacao (Exemplos.nota_ex 3 Faturamento "K3")
         (Exemplos.item_ex 40000 (Some "L1"))
         (Exemplos.sessao_ex [] Exemplos.dois_envios))
  = Valida.
Proof. vm_compute. reflexivity. Qed.

(** C10.  When the kind of the invoice is not return, symbolic return or
    billing, that is for a shipment and for the kind of an unknown fiscal
    code, [validar_operacao] answers valid and leaves the session as it was,
    whatever the balances and the quantity are. *)
Theorem validar_operacao_sem_busca (nota : NotaFiscal) (item : ItemData) (s : Sessao) :
  ~ com_busca (nf_tipo_operacao nota) ->
  (nf_tipo_operacao nota = Saida \/ nf_tipo_operacao nota = Outros) /\
  validar_operacao nota item s = (Valida, s).
Proof.
  intros H. unfold validar_operacao, com_busca in *.
  destruct (nf_tipo_operacao nota); try (exfalso; apply H; auto; fail); auto.
Qed.

Lemma validar_operacao_sem_busca_witness :
  validar_operacao (Exemplos.nota_ex 3 Outros "K3")
    (Exemplos.item_ex 990000 (Some "L1"))
    (Exemplos.sessao_ex [] Exemplos.dois_envios)
  = (Valida, Exemplos.sessao_ex [] Exemplos.dois_envios).
Proof.
  apply validar_operacao_sem_busca.
  intros [H | [H | H]]; discriminate H.
Defined.

(** A fiscal code outside the table is of the kind [Outros]. *)
Lemma cfop_desconhecido cfop :
  ~ In cfop (map fst XMLParser.CFOP_MAPPING) ->
  XMLParser.mapping_get XMLParser.CFOP_MAPPING cfop = Outros.
Proof.
  intros H. induction XMLParser.CFOP_MAPPING as [|[k v] m IH]; [reflexivity|].
  simpl. destruct (String.eqb cfop k) eqn:E.
  - apply String.eqb_eq in E. exfalso. apply H. left. symmetry. exact E.
  - apply IH. intros Hin. apply H. right. exact Hin.
Qed.

(** ** The lot number of a line *)

Lemma aceita_tok c :
  Re.aceita Re.Tok c =
  negb (PyStr.isspace c) && negb (Ascii.eqb c ",")
  && negb (Ascii.eqb c ";") && negb (Ascii.eqb c ".").
Proof.
  unfold Re.aceita. rewrite !negb_orb. reflexivity.
Qed.

Lemma keep_token_valido p c g :
  (Re.grp p = true -> Re.cl p = Re.Tok) -> Re.aceita (Re.cl p) c = true ->
  all_chars (Re.aceita Re.Tok) g = true ->
  all_chars (Re.aceita Re.Tok) (Re.keep p c g) = true.
Proof.
  intros Hp Hc Hg. unfold Re.keep. destruct (Re.grp p); [|exact Hg].
  rewrite (Hp eq_refl) in Hc. cbn [all_chars]. rewrite Hc. exact Hg.
Qed.

Section Continuation.

Variable p : Re.peca.
Variable k : string -> option string.

(** What the rest of the pattern returns has the property [P], and [P]
    survives a character kept by [p]. *)
Variable P : string -> Prop.
Hypothesis k_P : forall s g, k s = Some g -> P g.
Hypothesis keep_P : forall c g, Re.aceita (Re.cl p) c = true -> P g -> P (Re.keep p c g).

Lemma rep_P s g : Re.rep p k s = Some g -> P g.
Proof.
  revert g. induction s as [|c s IH]; simpl; intros g H; [eauto|].
  destruct (Re.aceita (Re.cl p) c) eqn:Hc; [|eauto].
  destruct (Re.rep p k s) as [g'|]; [|eauto].
  injection H as <-. auto.
Qed.

Lemma one_P s g : Re.one p k s = Some g -> P g.
Proof.
  destruct s as [|c s]; simpl; [discriminate|].
  destruct (Re.aceita (Re.cl p) c) eqn:Hc; [|discriminate].
  destruct (k s) as [g'|] eqn:Hk; [|discriminate].
  simpl. intros H. injection H as <-. eauto.
Qed.

End Continuation.

Lemma one_keeps p k s g :
  Re.grp p = true -> Re.one p k s = Some g -> g <> EmptyString.
Proof.
  intros Hg. destruct s as [|c s]; simpl; [discriminate|].
  destruct (Re.aceita (Re.cl p) c); [|discriminate].
  destruct (k s); [|discriminate].
  simpl. unfold Re.keep. rewrite Hg. intros H. injection H as <-. discriminate.
Qed.

Lemma keep_nonempty p c g : g <> EmptyString -> Re.keep p c g <> EmptyString.
Proof. unfold Re.keep. destruct (Re.grp p); [discriminate | auto]. Qed.

Lemma match_here_all_tok r : forall s g,
  forallb (fun p => implb (Re.grp p)
                      match Re.cl p with Re.Tok => true | _ => false end) r = true ->
  Re.match_here r s = Some g -> all_chars (Re.aceita Re.Tok) g = true.
Proof.
  induction r as [|p r IH]; simpl; intros s g Hr H.
  - injection H as <-. reflexivity.
  - apply andb_true_iff in Hr. destruct Hr as [Hp Hr].
    assert (Hp' : Re.grp p = true -> Re.cl p = Re.Tok).
    { intros Hg. rewrite Hg in Hp. simpl in Hp. destruct (Re.cl p); try discriminate.
      reflexivity. }
    assert (Hk : forall s g, Re.match_here r s = Some g ->
                   all_chars (Re.aceita Re.Tok) g = true) by (intros; eapply IH; eauto).
    assert (Hkeep : forall c g, Re.aceita (Re.cl p) c = true ->
                      all_chars (Re.aceita Re.Tok) g = true ->
                      all_chars (Re.aceita Re.Tok) (Re.keep p c g) = true)
      by (intros; now apply keep_token_valido).
    set (Q := fun g => all_chars (Re.aceita Re.Tok) g = true) in *.
    destruct (Re.qt p).
    + exact (one_P p _ Q Hk Hkeep s g H).
    + exact (one_P p _ Q (rep_P p _ Q Hk Hkeep) Hkeep s g H).
    + exact (rep_P p _ Q Hk Hkeep s g H).
Qed.

Lemma match_here_nonempty r : forall s g,
  existsb (fun p => Re.grp p
                    && match Re.qt p with Re.Estrela => false | _ => true end) r = true ->
  Re.match_here r s = Some g -> g <> EmptyString.
Proof.
  induction r as [|p r IH]; simpl; intros s g Hr H; [discriminate|].
  apply orb_true_iff in Hr. destruct Hr as [Hp | Hr].
  - apply andb_true_iff in Hp. destruct Hp as [Hg Hq].
    destruct (Re.qt p); try discriminate; eapply one_keeps; eauto.
  - assert (Hk : forall s g, Re.match_here r s = Some g -> g <> EmptyString)
      by (intros; eapply IH; eauto).
    assert (Hkeep : forall c g, Re.aceita (Re.cl p) c = true ->
                      g <> EmptyString -> Re.keep p c g <> EmptyString)
      by (intros; now apply keep_nonempty).
    set (Q := fun g => g <> EmptyString) in *.
    destruct (Re.qt p).
    + exact (one_P p _ Q Hk Hkeep s g H).
    + exact (one_P p _ Q (rep_P p _ Q Hk Hkeep) Hkeep s g H).
    + exact (rep_P p _ Q Hk Hkeep s g H).
Qed.

Lemma search_match_here r s g :
  Re.search r s = Some g -> exists s', Re.match_here r s' = Some g.
Proof.
  induction s as [|c s IH]; simpl.
  - destruct (Re.match_here r "") eqn:E; [|discriminate].
    intros H. injection H as <-. eauto.
  - destruct (Re.match_here r (String c s)) eqn:E.
    + intros H. injection H as <-. eauto.
    + exact IH.
Qed.

(** What a pattern whose group is a token finds is a token. *)
Lemma search_token r s g :
  grupo_e_token r = true -> Re.search r s = Some g -> token_valido g.
Proof.
  unfold grupo_e_token. rewrite andb_true_iff. intros [Ha He] H.
  apply search_match_here in H. destruct H as [s' H]. split.
  - eapply match_here_nonempty; eauto.
  - apply match_here_all_tok in H; [|exact Ha].
    clear - H. induction g as [|c g IH]; [reflexivity|].
    cbn [all_chars] in *. apply andb_true_iff in H. destruct H as [Hc Hg].
    rewrite <- aceita_tok, Hc. auto.
Qed.

Lemma lote_patterns_tokens :
  forallb grupo_e_token XMLParser.lote_patterns = true.
Proof. reflexivity. Qed.

Lemma lstrip_token g :
  all_chars (fun c => negb (PyStr.isspace c) && negb (Ascii.eqb c ",")
                      && negb (Ascii.eqb c ";") && negb (Ascii.eqb c ".")) g = true ->
  PyStr.lstrip g = g /\ PyStr.rstrip g = g.
Proof.
  induction g as [|c g IH]; simpl; [auto|].
  rewrite !andb_true_iff, !negb_true_iff. intros [[[[Hs _] _] _] Hg].
  rewrite Hs. split; [reflexivity|].
  destruct (IH Hg) as [_ Hr]. rewrite Hr. destruct g; reflexivity.
Qed.

Lemma strip_token g : token_valido g -> PyStr.strip g = g.
Proof.
  intros [_ H]. unfold PyStr.strip.
  destruct (lstrip_token g H) as [-> ->]. reflexivity.
Qed.

(** ** What the patterns match *)

Lemma append_assoc3 (a b c : string) : ((a ++ b) ++ c = a ++ (b ++ c))%string.
Proof. induction a as [|x a IH]; simpl; [reflexivity | now rewrite IH]. Qed.

Lemma rep_Repete p r (k := Re.match_here r) :
  (forall s g, k s = Some g -> exists w d, s = (w ++ d)%string /\ Casa r w g) ->
  forall s g, Re.rep p k s = Some g ->
  exists w d, s = (w ++ d)%string /\ Repete p r w g.
Proof.
  intros Hk s. induction s as [|c s IH]; simpl; intros g H.
  - destruct (Hk _ _ H) as (w & d & E & Hc). exists w, d. split; [exact E|].
    now constructor.
  - assert (Hfim : k (String c s) = Some g ->
              exists w d, String c s = (w ++ d)%string /\ Repete p r w g).
    { intros H'. destruct (Hk _ _ H') as (w & d & E & Hc). exists w, d.
      split; [exact E | now constructor]. }
    destruct (Re.aceita (Re.cl p) c) eqn:Hc; [|auto].
    destruct (Re.rep p k s) as [g'|] eqn:Hr; [|auto].
    injection H as <-.
    destruct (IH g' eq_refl) as (w & d & E & Hw).
    exists (String c w), d. split; [simpl; now rewrite E|].
    now constructor.
Qed.

Lemma match_here_Casa r : forall s g,
  Re.match_here r s = Some g -> exists w d, s = (w ++ d)%string /\ Casa r w g.
Proof.
  induction r as [|p r IH]; simpl; intros s g H.
  - injection H as <-. exists EmptyString, s. split; [reflexivity | constructor].
  - destruct (Re.qt p) eqn:Hq.
    + destruct s as [|c s]; simpl in H; [discriminate|].
      destruct (Re.aceita (Re.cl p) c) eqn:Hc; [|discriminate].
      destruct (Re.match_here r s) as [g'|] eqn:Hm; [|discriminate].
      simpl in H. injection H as <-.
      destruct (IH _ _ Hm) as (w & d & E & Hw).
      exists (String c w), d. split; [simpl; now rewrite E|].
      now apply Casa_um.
    + destruct s as [|c s]; simpl in H; [discriminate|].
      destruct (Re.aceita (Re.cl p) c) eqn:Hc; [|discriminate].
      destruct (Re.rep p (Re.match_here r) s) as [g'|] eqn:Hm; [|discriminate].
      simpl in H. injection H as <-.
      destruct (rep_Repete p r IH _ _ Hm) as (w & d & E & Hw).
      exists (String c w), d. split; [simpl; now rewrite E|].
      now apply Casa_mais.
    + destruct (rep_Repete p r IH _ _ H) as (w & d & E & Hw).
      exists w, d. split; [exact E|]. now apply Casa_estrela.
Qed.

Lemma search_Casa r s g :
  Re.search r s = Some g ->
  exists a w d, s = (a ++ w ++ d)%string /\ Casa r w g.
Proof.
  induction s as [|c s IH]; simpl.
  - destruct (Re.match_here r "") as [g'|] eqn:E; [|discriminate].
    intros H. injection H as <-.
    destruct (match_here_Casa _ _ _ E) as (w & d & Ew & Hw).
    exists EmptyString, w, d. auto.
  - destruct (Re.match_here r (String c s)) as [g'|] eqn:E.
    + intros H. injection H as <-.
      destruct (match_here_Casa _ _ _ E) as (w & d & Ew & Hw).
      exists EmptyString, w, d. auto.
    + intros H. destruct (IH H) as (a & w & d & Es & Hw).
      exists (String c a), w, d. split; [simpl; now rewrite Es | exact Hw].
Qed.

Lemma Casa_lit l r : forall w g,
  Casa (Re.lit l ++ r) w g ->
  exists l' w', w = (l' ++ w')%string /\ mesma_palavra l l' = true /\ Casa r w' g.
Proof.
  induction l as [|x l IH]; simpl; intros w g H.
  - exists EmptyString, w. auto.
  - inversion H as [|p r0 c w0 g0 Hq Hc Hr| |]; subst; try discriminate.
    simpl in *. destruct (IH _ _ Hr) as (l' & w' & E & Hl & Hw).
    exists (String c l'), w'. split; [simpl; now rewrite E|].
    split; [|exact Hw]. simpl. rewrite Hl, andb_true_r.
    rewrite Ascii.eqb_sym. exact Hc.
Qed.

Lemma Repete_Sep p r w g :
  Re.cl p = Re.Sep -> Re.grp p = false -> Repete p r w g ->
  exists seps w', w = (seps ++ w')%string /\
                  all_chars (Re.aceita Re.Sep) seps = true /\ Casa r w' g.
Proof.
  intros Hcl Hg H. induction H as [p r w g Hc | p r c w g Hc Hrep IH].
  - exists EmptyString, w. auto.
  - destruct (IH Hcl Hg) as (seps & w' & E & Ha & Hw).
    exists (String c seps), w'. split; [simpl; now rewrite E|].
    split; [|unfold Re.keep; rewrite Hg; exact Hw].
    cbn [all_chars]. rewrite Hcl in Hc. now rewrite Hc.
Qed.

Lemma Casa_sep_plus r w g :
  Casa (Re.sep_plus ++ r) w g ->
  exists seps w', w = (seps ++ w')%string /\ seps <> EmptyString /\
                  all_chars (Re.aceita Re.Sep) seps = true /\ Casa r w' g.
Proof.
  simpl. intros H.
  inversion H as [| |p r0 c w0 g0 Hq Hc Hrep|]; subst; try discriminate.
  apply Repete_Sep in Hrep; [|reflexivity|reflexivity].
  destruct Hrep as (seps & w' & E & Ha & Hw).
  exists (String c seps), w'. split; [simpl; now rewrite E|].
  split; [discriminate|]. split; [|exact Hw].
  cbn [all_chars]. change (Re.aceita Re.Sep c = true) in Hc. now rewrite Hc.
Qed.

Lemma Casa_sep_star r w g :
  Casa (Re.sep_star ++ r) w g ->
  exists seps w', w = (seps ++ w')%string /\
                  all_chars (Re.aceita Re.Sep) seps = true /\ Casa r w' g.
Proof.
  simpl. intros H.
  inversion H as [| | |p r0 w0 g0 Hq Hrep]; subst; try discriminate.
  apply Repete_Sep in Hrep; [exact Hrep|reflexivity|reflexivity].
Qed.

Lemma Repete_token w g :
  Repete {| Re.cl := Re.Tok; Re.qt := Re.Mais; Re.grp := true |} [] w g -> w = g.
Proof.
  intros H.
  remember {| Re.cl := Re.Tok; Re.qt := Re.Mais; Re.grp := true |} as p eqn:Ep.
  remember (@nil Re.peca) as r eqn:Er.
  induction H as [p r w g Hc | p r c w g Hc Hrep IH]; subst.
  - inversion Hc. reflexivity.
  - unfold Re.keep. simpl. now rewrite (IH eq_refl eq_refl).
Qed.

Lemma Casa_token w g : Casa Re.token w g -> w = g.
Proof.
  intros H.
  inversion H as [| |p r0 c w0 g0 Hq Hc Hrep|]; subst; try discriminate.
  unfold Re.keep. simpl. now rewrite (Repete_token _ _ Hrep).
Qed.

(** A pattern of a label, separators and the token finds the token after the
    label. *)
Lemma search_rotulo rotulo texto g :
  Re.search (Re.lit rotulo ++ Re.sep_plus ++ Re.token) texto = Some g ->
  rotulo_e_token rotulo texto g.
Proof.
  intros H.
  assert (Hg : token_valido g).
  { apply (search_token _ _ _) in H; [exact H|].
    unfold grupo_e_token. rewrite andb_true_iff. split.
    - rewrite forallb_app. apply andb_true_iff. split; [|reflexivity].
      clear. induction rotulo; simpl; auto.
    - rewrite existsb_app. apply orb_true_iff. right. reflexivity. }
  destruct (search_Casa _ _ _ H) as (a & w & d & Es & Hw).
  destruct (Casa_lit _ _ _ _ Hw) as (r & w1 & E1 & Hr & Hw1).
  destruct (Casa_sep_plus _ _ _ Hw1) as (seps & w2 & E2 & Hne & Hs & Hw2).
  apply Casa_token in Hw2. subst w2 w1 w.
  exists a, r, seps, d. split; [|auto].
  rewrite Es, !append_assoc3. reflexivity.
Qed.

Lemma search_rotulo_duplo rotulo1 rotulo2 texto g :
  Re.search (Re.lit rotulo1 ++ Re.sep_star ++ Re.lit rotulo2 ++ Re.sep_plus ++ Re.token)
    texto = Some g ->
  rotulo_duplo_e_token rotulo1 rotulo2 texto g.
Proof.
  intros H.
  assert (Hg : token_valido g).
  { apply (search_token _ _ _) in H; [exact H|].
    unfold grupo_e_token. rewrite andb_true_iff. split.
    - rewrite !forallb_app. rewrite !andb_true_iff.
      repeat split; try reflexivity.
      + clear. induction rotulo1; simpl; auto.
      + clear. induction rotulo2; simpl; auto.
    - rewrite !existsb_app. rewrite !orb_true_iff. do 4 right. reflexivity. }
  destruct (search_Casa _ _ _ H) as (a & w & d & Es & Hw).
  destruct (Casa_lit _ _ _ _ Hw) as (r1 & w1 & E1 & Hr1 & Hw1).
  destruct (Casa_sep_star _ _ _ Hw1) as (meio & w2 & E2 & Hm & Hw2).
  destruct (Casa_lit _ _ _ _ Hw2) as (r2 & w3 & E3 & Hr2 & Hw3).
  destruct (Casa_sep_plus _ _ _ Hw3) as (seps & w4 & E4 & Hne & Hs & Hw4).
  apply Casa_token in Hw4. subst w4 w3 w2 w1 w.
  exists a, r1, meio, r2, seps, d. split; [|repeat split; auto; apply Hg].
  rewrite Es, !append_assoc3. reflexivity.
Qed.

(** The six patterns of the parser, by what they find. *)
Lemma lote_patterns_rotulos texto g :
  (exists p, In p XMLParser.lote_patterns /\ Re.search p texto = Some g) ->
  rotulo_e_token "lote" texto g \/ rotulo_e_token "l" texto g \/
  rotulo_e_token "lot" texto g \/ rotulo_e_token "batch" texto g \/
  rotulo_duplo_e_token "nr" "lote" texto g \/
  rotulo_duplo_e_token "numero" "lote" texto g.
Proof.
  intros (p & Hp & Hs). unfold XMLParser.lote_patterns in Hp.
  destruct Hp as [<- | [<- | [<- | [<- | [<- | [<- | []]]]]]].
  - left. now apply search_rotulo.
  - right. left. now apply search_rotulo.
  - do 2 right. left. now apply search_rotulo.
  - do 3 right. left. now apply search_rotulo.
  - do 4 right. left. now apply search_rotulo_duplo.
  - do 5 right. now apply search_rotulo_duplo.
Qed.

(** ** The lot number, by priority *)

Lemma read_block_numero_lote lib b ld :
  ld_numero_lote (XMLParser.read_block lib b ld) = ET.findtext_child "nLote" b.
Proof. reflexivity. Qed.

Lemma scan_patterns_numero_lote ps texto ld :
  ld_numero_lote (XMLParser.scan_patterns ps texto ld) =
  match primeiro_padrao ps texto with
  | Some g => Some (PyStr.strip g)
  | None => ld_numero_lote ld
  end.
Proof.
  induction ps as [|p ps IH]; simpl; [reflexivity|].
  destruct (Re.search p texto); [reflexivity | exact IH].
Qed.

Lemma primeiro_padrao_In ps texto g :
  primeiro_padrao ps texto = Some g ->
  exists p, In p ps /\ Re.search p texto = Some g.
Proof.
  induction ps as [|p ps IH]; simpl; [discriminate|].
  destruct (Re.search p texto) as [g'|] eqn:E.
  - intros H. injection H as <-. eauto.
  - intros H. destruct (IH H) as (q & Hq & Hs). eauto.
Qed.

(** The first pattern that matches decides, whatever follows it. *)
Lemma primeiro_padrao_app antes p depois texto g :
  (forall q, In q antes -> Re.search q texto = None) ->
  Re.search p texto = Some g ->
  primeiro_padrao (antes ++ p :: depois) texto = Some g.
Proof.
  intros Hantes Hp. induction antes as [|q antes IH]; simpl.
  - now rewrite Hp.
  - rewrite (Hantes q (or_introl eq_refl)). apply IH.
    intros q' Hq'. apply Hantes. now right.
Qed.

Lemma primeiro_padrao_None ps texto :
  (forall p, In p ps -> Re.search p texto = None) -> primeiro_padrao ps texto = None.
Proof.
  induction ps as [|p ps IH]; simpl; intros H; [reflexivity|].
  rewrite (H p (or_introl eq_refl)). apply IH. intros q Hq. apply H. now right.
Qed.

Lemma presente_Some o l : presente o = Some l -> o = Some l /\ PyStr.truthy o = true.
Proof.
  unfold presente. destruct (PyStr.truthy o) eqn:E; [|discriminate].
  intros ->. auto.
Qed.

Lemma presente_None o : presente o = None -> PyStr.truthy o = false.
Proof.
  unfold presente. destruct (PyStr.truthy o) eqn:E; [|reflexivity].
  intros ->. discriminate.
Qed.

Lemma lote_patterns_token texto g :
  primeiro_padrao XMLParser.lote_patterns texto = Some g -> token_valido g.
Proof.
  intros H. apply primeiro_padrao_In in H. destruct H as (p & Hp & Hs).
  apply (search_token p texto g); [|exact Hs].
  pose proof lote_patterns_tokens as Hall.
  rewrite forallb_forall in Hall. auto.
Qed.

(** The lot number the code extracts, by the case the line is in. *)
Lemma extract_lote_data_casos lib det :
  ld_numero_lote (XMLParser._extract_lote_data lib det) =
  match lote_do_bloco "rastro" det with
  | Some l => Some l
  | None =>
      match lote_do_bloco "med" det with
      | Some l => Some l
      | None =>
          match primeiro_padrao XMLParser.lote_patterns
                  (PyStr.or_empty (ET.findtext "infAdProd" det)) with
          | Some g => Some (PyStr.strip g)
          | None =>
              match ET.find "med" det, ET.find "rastro" det with
              | Some med, _ => ET.findtext_child "nLote" med
              | None, Some rastro => ET.findtext_child "nLote" rastro
              | None, None => None
              end
          end
      end
  end.
Proof.
  unfold XMLParser._extract_lote_data, lote_do_bloco, presente. cbv zeta.
  destruct (ET.find "rastro" det) as [rastro|];
    destruct (ET.find "med" det) as [med|];
    rewrite ?read_block_numero_lote;
    repeat match goal with
           | |- context [ET.findtext_child "nLote" ?b] =>
               destruct (ET.findtext_child "nLote" b) as [[|? ?]|] eqn:?
           end;
    cbn [PyStr.truthy negb ld_numero_lote];
    rewrite ?read_block_numero_lote, ?scan_patterns_numero_lote,
      ?read_block_numero_lote;
    cbn [ld_numero_lote];
    repeat match goal with
           | H : ET.findtext_child "nLote" _ = _ |- _ => rewrite H
           end;
    reflexivity.
Qed.

(** C6.  The lot number of a line is, in this order, the one of the
    traceability block when that block has one, else the one of the medicine
    block, else the token of the first pattern of the list that matches the
    additional product information, whatever the later patterns would find.
    Such a token is not empty, has no white space, comma, semicolon or period,
    and stands in the text after one of the labels lote, l, lot, batch,
    nr lote, numero lote in any letter case and at least one colon or white
    space.  A line with none of them has no lot number, and the extraction
    still returns. *)
Theorem extracao_de_lote (lib : PyLib) (det : ET.Element) :
  let lote := ld_numero_lote (XMLParser._extract_lote_data lib det) in
  let texto := PyStr.or_empty (ET.findtext "infAdProd" det) in
  presente lote = lote_especificado det /\
  (forall l, lote_do_bloco "rastro" det = Some l -> lote = Some l) /\
  (lote_do_bloco "rastro" det = None ->
     forall l, lote_do_bloco "med" det = Some l -> lote = Some l) /\
  (lote_do_bloco "rastro" det = None -> lote_do_bloco "med" det = None ->
     forall antes p depois g,
       XMLParser.lote_patterns = antes ++ p :: depois ->
       (forall q, In q antes -> Re.search q texto = None) ->
       Re.search p texto = Some g ->
       lote = Some g /\ token_valido g /\
       (rotulo_e_token "lote" texto g \/ rotulo_e_token "l" texto g \/
        rotulo_e_token "lot" texto g \/ rotulo_e_token "batch" texto g \/
        rotulo_duplo_e_token "nr" "lote" texto g \/
        rotulo_duplo_e_token "numero" "lote" texto g)) /\
  (lote_do_bloco "rastro" det = None -> lote_do_bloco "med" det = None ->
     (forall p, In p XMLParser.lote_patterns -> Re.search p texto = None) ->
     PyStr.truthy lote = false).
Proof.
  intros lote texto. subst lote. rewrite extract_lote_data_casos. fold texto.
  unfold lote_especificado. fold texto.
  split.
  { destruct (lote_do_bloco "rastro" det) as [l|] eqn:Er.
    - unfold lote_do_bloco in Er. destruct (ET.find "rastro" det); [|discriminate].
      apply presente_Some in Er. destruct Er as [Er Ht].
      unfold presente. simpl. destruct l; [rewrite Er in Ht; discriminate|reflexivity].
    - destruct (lote_do_bloco "med" det) as [l|] eqn:Em.
      + unfold lote_do_bloco in Em. destruct (ET.find "med" det); [|discriminate].
        apply presente_Some in Em. destruct Em as [Em Ht].
        unfold presente. simpl. destruct l; [rewrite Em in Ht; discriminate|reflexivity].
      + destruct (primeiro_padrao XMLParser.lote_patterns texto) as [g|] eqn:Ep.
        * pose proof (lote_patterns_token texto g Ep) as Hg.
          rewrite (strip_token g Hg). destruct Hg as [Hne _].
          unfold presente. destruct g; [congruence | reflexivity].
        * unfold lote_do_bloco in Er, Em.
          destruct (ET.find "med" det) as [med|].
          -- apply presente_None in Em. unfold presente. now rewrite Em.
          -- destruct (ET.find "rastro" det) as [rastro|]; [|reflexivity].
             apply presente_None in Er. unfold presente. now rewrite Er. }
  split; [intros l ->; reflexivity|].
  split; [intros -> l ->; reflexivity|].
  split.
  { intros -> -> antes p depois g Hps Hantes Hp.
    assert (Ep : primeiro_padrao XMLParser.lote_patterns texto = Some g).
    { rewrite Hps. now apply primeiro_padrao_app. }
    rewrite Ep. pose proof (lote_patterns_token texto g Ep) as Hg.
    rewrite (strip_token g Hg). split; [reflexivity|]. split; [exact Hg|].
    apply lote_patterns_rotulos. exists p. split; [|exact Hp].
    rewrite Hps. apply in_or_app. right. now left. }
  intros Er Em Hnone. rewrite Er, Em.
  rewrite (primeiro_padrao_None _ _ Hnone).
  unfold lote_do_bloco in Er, Em.
  destruct (ET.find "med" det) as [med|].
  - now apply presente_None in Em.
  - destruct (ET.find "rastro" det) as [rastro|]; [|reflexivity].
    now apply presente_None in Er.
Qed.

Lemma extracao_de_lote_witness :
  ld_numero_lote (XMLParser._extract_lote_data Exemplos.lib_ex
                    Exemplos.det_rastro_e_texto) = Some "R1".
Proof.
  destruct (extracao_de_lote Exemplos.lib_ex Exemplos.det_rastro_e_texto)
    as (_ & H & _).
  apply H. reflexivity.
Defined.

Example lote_no_texto_livre :
  ld_numero_lote (XMLParser._extract_lote_data Exemplos.lib_ex
                    (Exemplos.det_so_texto "LOTE: ABC123")) = Some "ABC123".
Proof. reflexivity. Qed.

Example lote_do_bloco_med :
  ld_numero_lote (XMLParser._extract_lote_data Exemplos.lib_ex Exemplos.det_med)
  = Some "M7".
Proof. reflexivity. Qed.

Example linha_sem_lote :
  ld_numero_lote (XMLParser._extract_lote_data Exemplos.lib_ex
                    (Exemplos.det_so_texto "sem rastreio")) = None.
Proof. reflexivity. Qed.

(** The six labels, each found by its pattern. *)
Example rotulos_dos_padroes :
  map (fun pt => Re.search (fst pt) (snd pt))
      (combine XMLParser.lote_patterns
         [ "Lote: A1"; "L: A2"; "LOT A3"; "Batch: A4,"; "NR LOTE: A5."; "numero lote:A6;" ])
  = [ Some "A1"; Some "A2"; Some "A3"; Some "A4"; Some "A5"; Some "A6" ].
Proof. reflexivity. Qed.

(** The second pattern needs only the letter, also at the end of a word. *)
Example padrao_l_em_outra_palavra :
  ld_numero_lote (XMLParser._extract_lote_data Exemplos.lib_ex
                    (Exemplos.det_so_texto "material esteril")) = Some "esteril".
Proof. reflexivity. Qed.

(** ** Decimal storage and binary64 computation *)




(* ------------------------------------------------------------------ *)
(** ** All or nothing *)

Lemma nova_nota_campos nf xml agora k nota :
  nova_nota nf xml agora k = inr nota ->
  nf_id nota = k /\ nd_numero nf = Some (nf_numero nota) /\
  nd_serie nf = Some (nf_serie nota) /\
  nf_chave_acesso nota = nd_chave_acesso nf /\
  nf_tipo_operacao nota = nd_tipo_operacao nf /\
  nf_destinatario_cnpj nota = nd_destinatario_cnpj nf /\
  nf_xml_content nota = xml.
Proof.
  unfold nova_nota.
  destruct (nd_numero nf), (nd_serie nf), (nd_data_emissao nf); try discriminate.
  intros H. injection H as <-. repeat split.
Qed.


(* ------------------------------------------------------------------ *)
(** ** Documents of another kind *)

Lemma parse_xml_tipo lib xml nf :
  XMLParser.parse_xml lib xml = inr nf ->
  nd_tipo_operacao nf = XMLParser.mapping_get XMLParser.CFOP_MAPPING (nd_cfop nf).
Proof.
  unfold XMLParser.parse_xml, exc_bind.
  destruct (fromstring lib xml) as [root|]; [|discriminate].
  destruct (XMLParser._extract_nf_data lib root) as [e|[[[numero serie] chave] emissao]];
    [discriminate|].
  destruct (XMLParser._extract_destinatario_data root) as [cnpj nome].
  destruct (XMLParser._extract_itens_data lib root); [discriminate|].
  intros H. injection H as <-. reflexivity.
Qed.

Lemma processar_itens_outros nota itens :
  nf_tipo_operacao nota = Outros ->
  forall n s,
    saldos (snd (processar_itens nota itens n s)) = saldos s /\
    log (snd (processar_itens nota itens n s)) = log s.
Proof.
  intros Ht. induction itens as [|item itens IH]; intros n s; [auto|].
  rewrite processar_itens_cons. cbv zeta.
  set (s1 := snd (add_item (novo_item nota item (utcnow s)) s)).
  destruct (com_lote item).
  - unfold _atualizar_saldo. rewrite Ht. cbn [ret snd].
    destruct (IH (S n) s1) as [Hs Hl]. split; [rewrite Hs | rewrite Hl]; reflexivity.
  - destruct (IH n s1) as [Hs Hl]. split; [rewrite Hs | rewrite Hl]; reflexivity.
Qed.

(** X2.  A document whose fiscal code is not one of the eight of the table
    is ingested like any other: when it passes the validation, parses, is no
    duplicate and has an issue date, the call succeeds with the kind
    [Outros], the invoice is written, and the lines with a lot number are
    counted as processed; yet no balance record is created or changed and
    nothing is logged. *)
Theorem cfop_fora_da_tabela (lib : PyLib) (xml : string) (s : Sessao)
    (nf : NFData) (emissao : datetime) :
  fst (XMLParser.validate_xml_structure lib xml) = true ->
  XMLParser.parse_xml lib xml = inr nf ->
  ~ ja_ingerida (nd_chave_acesso nf) s ->
  nd_data_emissao nf = Some emissao ->
  ~ In (nd_cfop nf) (map fst XMLParser.CFOP_MAPPING) ->
  let r := processar_nota_fiscal lib xml s in
  (exists k numero serie,
      fst r = Sucesso k numero serie Outros
                (List.length (filter com_lote (nd_itens nf)))) /\
  List.length (notas_fiscais (banco (snd r)))
    = S (List.length (notas_fiscais (banco s))) /\
  saldos (snd r) = saldos s /\
  log (snd r) = log s.
Proof.
  intros Hv Hp Hnew Hd Hcfop r.
  destruct (processar_nota_fiscal_sucesso lib xml s nf emissao Hv Hp Hnew Hd)
    as (nota & Hn & Hr).
  subst r. rewrite Hr. cbn [fst snd].
  destruct (nova_nota_campos _ _ _ _ _ Hn) as (_ & _ & _ & _ & Ht & _).
  assert (Ho : nd_tipo_operacao nf = Outros).
  { rewrite (parse_xml_tipo lib xml nf Hp). now apply cfop_desconhecido. }
  rewrite Ho in *.
  destruct (processar_itens_spec nota (nd_itens nf) 0 (snd (add_nota nota s)))
    as (Hc & _ & Hnot & _).
  destruct (processar_itens_outros nota (nd_itens nf) Ht 0 (snd (add_nota nota s)))
    as [Hsal Hlog].
  split; [do 3 eexists; rewrite Hc; reflexivity|].
  split; [rewrite Hnot; simpl; rewrite length_app; simpl; lia|].
  split; [rewrite Hsal; reflexivity | rewrite Hlog; reflexivity].
Qed.

Lemma cfop_fora_da_tabela_witness :
  let r := processar_nota_fiscal Casos.lib_casos "venda"
             (Exemplos.sessao_ex [] Exemplos.dois_envios) in
  (exists k numero serie, fst r = Sucesso k numero serie Outros 1) /\
  saldos (snd r) = Exemplos.dois_envios.
Proof.
  destruct (XMLParser.parse_xml Casos.lib_casos "venda") as [e|nf] eqn:Hp.
  - vm_compute in Hp. discriminate Hp.
  - assert (Hnf : nd_data_emissao nf = Some 50 /\ nd_cfop nf = "5102" /\
                  List.length (filter com_lote (nd_itens nf)) = 1%nat).
    { vm_compute in Hp. injection Hp as <-. repeat split. }
    destruct Hnf as (Hd & Hc & Hl).
    destruct (cfop_fora_da_tabela Casos.lib_casos "venda"
                (Exemplos.sessao_ex [] Exemplos.dois_envios) nf 50)
      as (Hs & _ & Hsal & _).
    + vm_compute. reflexivity.
    + exact Hp.
    + intros (n & [] & _).
    + exact Hd.
    + rewrite Hc. simpl. intuition discriminate.
    + rewrite Hl in Hs. split; [exact Hs | exact Hsal].
Defined.

(* ------------------------------------------------------------------ *)
(** ** The unique constraints *)

Lemma update_row_map {B} (g : SaldoMaterial -> B) k f t :
  (forall r, g (f r) = g r) -> map g (update_row k f t) = map g t.
Proof.
  intros Hf. induction t as [|y t IH]; simpl; [reflexivity|].
  rewrite IH. destruct (Nat.eqb (id y) k); now rewrite ?Hf.
Qed.

Lemma soma_tupla tipo q agora r : tupla (soma tipo q agora r) = tupla r.
Proof. destruct tipo; reflexivity. Qed.

Lemma novo_saldo_tupla_nova nota item agora k t :
  PyStr.truthy (it_numero_lote item) = true ->
  hd_error (filter (mesma_chave nota item) t) = None ->
  ~ In (tupla (novo_saldo nota item agora k)) (map tupla t).
Proof.
  intros Hl Hnone Hin. apply in_map_iff in Hin. destruct Hin as (x & Hx & Hin).
  pose proof (hd_error_filter_None _ _ Hnone x Hin) as Hf.
  assert (Ht : mesma_chave nota item x = true); [|congruence].
  apply mesma_chave_spec. unfold tupla in Hx. simpl in Hx.
  destruct (it_numero_lote item) as [[|c l]|] eqn:El; try discriminate.
  injection Hx as H1 H2 H3 H4. unfold mesma_tupla, corresponde.
  rewrite El. change (numero_lote x = String c l) in H3.
  rewrite H3. repeat split; auto.
Qed.

Lemma tupla_unica_atualizar_saldo nota item s :
  PyStr.truthy (it_numero_lote item) = true ->
  NoDup (map tupla (saldos s)) ->
  NoDup (map tupla (saldos (snd (_atualizar_saldo nota item s)))).
Proof.
  intros Hl Hnd. destruct (nf_tipo_operacao nota) eqn:Et.
  - rewrite (atualizar_saldo_saida nota item s Et).
    destruct (hd_error _) eqn:E.
    + rewrite update_row_map; [exact Hnd | reflexivity].
    + rewrite map_app. simpl. apply NoDup_snoc; [exact Hnd|].
      now apply novo_saldo_tupla_nova.
  - rewrite (atualizar_saldo_com_busca nota item s)
      by (unfold com_busca; rewrite Et; auto).
    destruct (fst _); [|exact Hnd].
    rewrite update_saldo_saldos, update_row_map; [exact Hnd | intros; apply soma_tupla].
  - rewrite (atualizar_saldo_com_busca nota item s)
      by (unfold com_busca; rewrite Et; auto).
    destruct (fst _); [|exact Hnd].
    rewrite update_saldo_saldos, update_row_map; [exact Hnd | intros; apply soma_tupla].
  - rewrite (atualizar_saldo_com_busca nota item s)
      by (unfold com_busca; rewrite Et; auto).
    destruct (fst _); [|exact Hnd].
    rewrite update_saldo_saldos, update_row_map; [exact Hnd | intros; apply soma_tupla].
  - unfold _atualizar_saldo. rewrite Et. exact Hnd.
Qed.

Lemma tupla_unica_efeito nota agora itens : forall t,
  Forall (fun item => com_lote item = true) itens ->
  NoDup (map tupla t) -> NoDup (map tupla (fold_left (efeito nota agora) itens t)).
Proof.
  induction itens as [|item l IH]; intros t Hall Ht; [exact Ht|].
  inversion Hall as [|? ? Hitem Hl]; subst.
  simpl. apply IH; [exact Hl|]. unfold efeito.
  apply (tupla_unica_atualizar_saldo nota item (so_saldos t agora)); assumption.
Qed.

Lemma Forall_filter_true {A} (f : A -> bool) l : Forall (fun x => f x = true) (filter f l).
Proof. apply Forall_forall. intros x Hx. apply filter_In in Hx. tauto. Qed.

(** X3.  Ingestion never breaks the unique constraint of the balance table:
    when no two records share counterparty, product, lot and shipment key
    before a call of [processar_nota_fiscal], none do after it, whatever the
    document and whether the call succeeds or fails. *)
Theorem tupla_unica_processar_nota_fiscal (lib : PyLib) (xml : string) (s : Sessao) :
  NoDup (map tupla (saldos s)) ->
  NoDup (map tupla (saldos (snd (processar_nota_fiscal lib xml s)))).
Proof.
  intros Hnd.
  destruct (fst (processar_nota_fiscal lib xml s)) as [k numero serie tipo cnt|e] eqn:E.
  - destruct (processar_nota_fiscal_sucesso_inv lib xml s k numero serie tipo cnt
                (snd (processar_nota_fiscal lib xml s)))
      as (nf & nota & _ & _ & _ & _ & _ & _ & _ & Hs').
    { rewrite <- E. apply surjective_pairing. }
    destruct (processar_itens_spec nota (nd_itens nf) 0 (snd (add_nota nota s)))
      as (_ & Hsal & _).
    rewrite Hs', Hsal. apply tupla_unica_efeito; [apply Forall_filter_true | exact Hnd].
  - unfold saldos. rewrite processar_nota_fiscal_falha; [exact Hnd|].
    rewrite E. reflexivity.
Qed.

Lemma tupla_unica_processar_nota_fiscal_witness :
  NoDup (map tupla
           (saldos (snd (processar_nota_fiscal Exemplos.lib_ex "envio"
                           (Exemplos.sessao_ex [] Exemplos.dois_envios))))).
Proof.
  apply (tupla_unica_processar_nota_fiscal Exemplos.lib_ex "envio"
           (Exemplos.sessao_ex [] Exemplos.dois_envios)).
  simpl. repeat constructor; simpl; intuition discriminate.
Defined.

(** The invoice table after a call: as it was, or with one row more whose
    keys are new. *)
Lemma processar_nota_fiscal_notas lib xml s :
  let t := notas_fiscais (banco s) in
  let t' := notas_fiscais (banco (snd (processar_nota_fiscal lib xml s))) in
  t' = t \/
  exists nota, t' = t ++ [nota] /\ ~ In (nf_id nota) (map nf_id t) /\
               ~ In (nf_chave_acesso nota) (map nf_chave_acesso t).
Proof.
  intros t t'. subst t t'.
  destruct (fst (processar_nota_fiscal lib xml s)) as [k numero serie tipo cnt|e] eqn:E.
  - right.
    destruct (processar_nota_fiscal_sucesso_inv lib xml s k numero serie tipo cnt
                (snd (processar_nota_fiscal lib xml s)))
      as (nf & nota & _ & _ & Hnew & Hn & _ & _ & _ & Hs').
    { rewrite <- E. apply surjective_pairing. }
    destruct (processar_itens_spec nota (nd_itens nf) 0 (snd (add_nota nota s)))
      as (_ & _ & Hnot & _).
    destruct (nova_nota_campos _ _ _ _ _ Hn) as (Hk & _ & _ & Hch & _).
    exists nota. rewrite Hs', Hnot. split; [reflexivity|]. split.
    + rewrite Hk. apply next_id_fresh.
    + rewrite Hch. intros Hin. apply Hnew. apply in_map_iff in Hin.
      destruct Hin as (n & Hk' & Hin). exists n. auto.
  - left. rewrite processar_nota_fiscal_falha; [reflexivity|].
    rewrite E. reflexivity.
Qed.

(** X4.  Ingestion never breaks the unique constraint of the access key nor
    the primary key of the invoice table: when the rows have pairwise
    different access keys and primary keys before a call, they have after
    it. *)
Theorem chave_de_acesso_unica (lib : PyLib) (xml : string) (s : Sessao) :
  NoDup (map nf_chave_acesso (notas_fiscais (banco s))) ->
  NoDup (map nf_id (notas_fiscais (banco s))) ->
  let s' := snd (processar_nota_fiscal lib xml s) in
  NoDup (map nf_chave_acesso (notas_fiscais (banco s'))) /\
  NoDup (map nf_id (notas_fiscais (banco s'))).
Proof.
  intros Hch Hid s'. subst s'.
  destruct (processar_nota_fiscal_notas lib xml s) as [-> | (nota & -> & Hk & Hc)].
  - auto.
  - rewrite !map_app. simpl. split; apply NoDup_snoc; assumption.
Qed.

Lemma chave_de_acesso_unica_witness :
  let s := Exemplos.sessao_ex [Exemplos.nota_ex 1 Saida "K2"] Exemplos.dois_envios in
  NoDup (map nf_chave_acesso
           (notas_fiscais (banco (snd (processar_nota_fiscal Exemplos.lib_ex "retorno" s))))).
Proof.
  intros s.
  apply (chave_de_acesso_unica Exemplos.lib_ex "retorno" s).
  - simpl. repeat constructor. simpl. tauto.
  - simpl. repeat constructor. simpl. tauto.
Defined.

(* ------------------------------------------------------------------ *)
(** ** Totals of the counters *)







(* ------------------------------------------------------------------ *)
(** ** A record that is used up *)




(* ------------------------------------------------------------------ *)
(** ** When a validated document does not parse *)






(* ------------------------------------------------------------------ *)
(** ** The counterparty number *)

Lemma only_digits_so_digitos s : so_digitos (PyStr.only_digits s) = true.
Proof.
  unfold so_digitos. induction s as [|c s IH]; simpl; [reflexivity|].
  destruct (PyStr.isdigit c) eqn:E; [|exact IH].
  cbn [all_chars]. now rewrite E.
Qed.

Lemma only_digits_id s : so_digitos s = true -> PyStr.only_digits s = s.
Proof.
  unfold so_digitos. induction s as [|c s IH]; simpl; [reflexivity|].
  intros H. apply andb_true_iff in H. destruct H as [Hc Hs].
  rewrite Hc, IH by exact Hs. reflexivity.
Qed.

Lemma extract_destinatario_so_digitos root :
  so_digitos (fst (XMLParser._extract_destinatario_data root)) = true.
Proof.
  unfold XMLParser._extract_destinatario_data.
  destruct (ET.find "dest" root) as [d|]; [apply only_digits_so_digitos|].
  destruct (ET.find "emit" root) as [d|]; [apply only_digits_so_digitos | reflexivity].
Qed.

Lemma parse_xml_cnpj lib xml nf :
  XMLParser.parse_xml lib xml = inr nf -> so_digitos (nd_destinatario_cnpj nf) = true.
Proof.
  unfold XMLParser.parse_xml, exc_bind.
  destruct (fromstring lib xml) as [root|]; [|discriminate].
  destruct (XMLParser._extract_nf_data lib root) as [e|[[[numero serie] chave] emissao]];
    [discriminate|].
  pose proof (extract_destinatario_so_digitos root) as Hd.
  destruct (XMLParser._extract_destinatario_data root) as [cnpj nome].
  destruct (XMLParser._extract_itens_data lib root); [discriminate|].
  intros H. injection H as <-. exact Hd.
Qed.

Lemma soma_cliente_cnpj tipo q agora r : cliente_cnpj (soma tipo q agora r) = cliente_cnpj r.
Proof. destruct tipo; reflexivity. Qed.

Lemma cnpj_atualizar_saldo (P : string -> Prop) nota item s :
  P (nf_destinatario_cnpj nota) ->
  Forall P (map cliente_cnpj (saldos s)) ->
  Forall P (map cliente_cnpj (saldos (snd (_atualizar_saldo nota item s)))).
Proof.
  intros Hn Hall. destruct (nf_tipo_operacao nota) eqn:Et.
  - rewrite (atualizar_saldo_saida nota item s Et).
    destruct (hd_error _).
    + rewrite update_row_map; [exact Hall | reflexivity].
    + rewrite map_app. apply Forall_app. split; [exact Hall|].
      constructor; [exact Hn | constructor].
  - rewrite (atualizar_saldo_com_busca nota item s)
      by (unfold com_busca; rewrite Et; auto).
    destruct (fst _); [|exact Hall].
    rewrite update_saldo_saldos, update_row_map;
      [exact Hall | intros; apply soma_cliente_cnpj].
  - rewrite (atualizar_saldo_com_busca nota item s)
      by (unfold com_busca; rewrite Et; auto).
    destruct (fst _); [|exact Hall].
    rewrite update_saldo_saldos, update_row_map;
      [exact Hall | intros; apply soma_cliente_cnpj].
  - rewrite (atualizar_saldo_com_busca nota item s)
      by (unfold com_busca; rewrite Et; auto).
    destruct (fst _); [|exact Hall].
    rewrite update_saldo_saldos, update_row_map;
      [exact Hall | intros; apply soma_cliente_cnpj].
  - unfold _atualizar_saldo. rewrite Et. exact Hall.
Qed.

Lemma cnpj_efeito (P : string -> Prop) nota agora itens : forall t,
  P (nf_destinatario_cnpj nota) ->
  Forall P (map cliente_cnpj t) ->
  Forall P (map cliente_cnpj (fold_left (efeito nota agora) itens t)).
Proof.
  induction itens as [|item l IH]; intros t Hn Ht; [exact Ht|].
  simpl. apply IH; [exact Hn|]. unfold efeito.
  apply (cnpj_atualizar_saldo P nota item (so_saldos t agora)); assumption.
Qed.

(** X8.  The counterparty number is kept as digits only.  [parse_xml]
    returns it stripped of every other character, and when the numbers of
    the balance records and of the invoices are digits only before a call of
    [processar_nota_fiscal], they are after it. *)
Theorem cnpj_so_digitos (lib : PyLib) (xml : string) (s : Sessao) :
  Forall (fun c => so_digitos c = true) (map cliente_cnpj (saldos s)) ->
  Forall (fun c => so_digitos c = true)
    (map nf_destinatario_cnpj (notas_fiscais (banco s))) ->
  let s' := snd (processar_nota_fiscal lib xml s) in
  (forall nf, XMLParser.parse_xml lib xml = inr nf ->
     so_digitos (nd_destinatario_cnpj nf) = true /\
     PyStr.only_digits (nd_destinatario_cnpj nf) = nd_destinatario_cnpj nf) /\
  Forall (fun c => so_digitos c = true) (map cliente_cnpj (saldos s')) /\
  Forall (fun c => so_digitos c = true)
    (map nf_destinatario_cnpj (notas_fiscais (banco s'))).
Proof.
  intros Hs Hn s'. subst s'. split.
  { intros nf Hp. pose proof (parse_xml_cnpj lib xml nf Hp) as H.
    split; [exact H | now apply only_digits_id]. }
  destruct (fst (processar_nota_fiscal lib xml s)) as [k numero serie tipo cnt|e] eqn:E.
  - destruct (processar_nota_fiscal_sucesso_inv lib xml s k numero serie tipo cnt
                (snd (processar_nota_fiscal lib xml s)))
      as (nf & nota & _ & Hp & _ & Hnova & _ & _ & _ & Hs').
    { rewrite <- E. apply surjective_pairing. }
    destruct (processar_itens_spec nota (nd_itens nf) 0 (snd (add_nota nota s)))
      as (_ & Hsal & Hnot & _).
    destruct (nova_nota_campos _ _ _ _ _ Hnova) as (_ & _ & _ & _ & _ & Hc & _).
    assert (Hd : so_digitos (nf_destinatario_cnpj nota) = true).
    { rewrite Hc. exact (parse_xml_cnpj lib xml nf Hp). }
    rewrite Hs', Hsal, Hnot. split.
    + apply cnpj_efeito; assumption.
    + simpl. rewrite map_app. apply Forall_app. split; [exact Hn|].
      constructor; [exact Hd | constructor].
  - unfold saldos. rewrite processar_nota_fiscal_falha; [auto|].
    rewrite E. reflexivity.
Qed.

Lemma cnpj_so_digitos_witness :
  Forall (fun c => so_digitos c = true)
    (map cliente_cnpj
       (saldos (snd (processar_nota_fiscal Exemplos.lib_ex "envio"
                       (Exemplos.sessao_ex [] Exemplos.dois_envios))))).
Proof.
  apply (cnpj_so_digitos Exemplos.lib_ex "envio"
           (Exemplos.sessao_ex [] Exemplos.dois_envios)).
  - simpl. repeat constructor.
  - simpl. constructor.
Defined.

(* ------------------------------------------------------------------ *)
(** ** The items of a document *)

Lemma lote_presente_especificado lib det :
  presente (ld_numero_lote (XMLParser._extract_lote_data lib det)) = lote_especificado det.
Proof.
  rewrite extract_lote_data_casos. unfold lote_especificado.
  destruct (lote_do_bloco "rastro" det) as [l|] eqn:Er.
  - unfold lote_do_bloco in Er. destruct (ET.find "rastro" det); [|discriminate].
    apply presente_Some in Er. destruct Er as [Er Ht].
    unfold presente. simpl. destruct l; [rewrite Er in Ht; discriminate|reflexivity].
  - destruct (lote_do_bloco "med" det) as [l|] eqn:Em.
    + unfold lote_do_bloco in Em. destruct (ET.find "med" det); [|discriminate].
      apply presente_Some in Em. destruct Em as [Em Ht].
      unfold presente. simpl. destruct l; [rewrite Em in Ht; discriminate|reflexivity].
    + destruct (primeiro_padrao XMLParser.lote_patterns
                  (PyStr.or_empty (ET.findtext "infAdProd" det))) as [g|] eqn:Ep.
      * pose proof (lote_patterns_token _ g Ep) as Hg.
        rewrite (strip_token g Hg). destruct Hg as [Hne _].
        unfold presente. destruct g; [congruence | reflexivity].
      * unfold lote_do_bloco in Er, Em.
        destruct (ET.find "med" det) as [med|].
        -- apply presente_None in Em. unfold presente. now rewrite Em.
        -- destruct (ET.find "rastro" det) as [rastro|]; [|reflexivity].
           apply presente_None in Er. unfold presente. now rewrite Er.
Qed.

Lemma extract_item_da_linha lib det o :
  XMLParser.extract_item lib det = inr o ->
  match o with
  | Some item => tem_prod det = true /\ item_da_linha det item
  | None => tem_prod det = false
  end.
Proof.
  unfold XMLParser.extract_item, tem_prod, item_da_linha.
  destruct (ET.find_child "prod" det) as [prod|].
  - destruct (XMLParser.float_or_0 (ET.findtext_child "qCom" prod)) as [e|q] eqn:Eq;
      [discriminate|].
    destruct (XMLParser.float_or_0 (ET.findtext_child "vUnCom" prod)) as [e|u];
      [discriminate|].
    destruct (XMLParser.float_or_0 (ET.findtext_child "vProd" prod)) as [e|v];
      [discriminate|].
    simpl. intros H. injection H as <-. split; [reflexivity|].
    exists prod. simpl. repeat split; auto. apply lote_presente_especificado.
  - intros H. injection H as <-. reflexivity.
Qed.

(** X9.  The items [parse_xml] returns are those of the lines that have a
    product block, one each and in document order; a line without product
    block gives no item.  Each item has the code, the description and the
    quantity of its product block, and its lot number is the one the
    priority rule gives its line. *)
Theorem itens_na_ordem_das_linhas (lib : PyLib) (root : ET.Element)
    (itens : list ItemData) :
  XMLParser._extract_itens_data lib root = inr itens ->
  Forall2 item_da_linha (filter tem_prod (ET.findall "det" root)) itens /\
  (List.length itens <= List.length (ET.findall "det" root))%nat.
Proof.
  unfold XMLParser._extract_itens_data. intros H.
  assert (HF : Forall2 item_da_linha (filter tem_prod (ET.findall "det" root)) itens).
  { revert itens H. induction (ET.findall "det" root) as [|det dets IH];
      simpl; intros itens H.
    - injection H as <-. constructor.
    - destruct (XMLParser.extract_item lib det) as [e|o] eqn:Eo; [discriminate|].
      destruct (XMLParser.extract_itens lib dets) as [e|l]; [discriminate|].
      simpl in H. injection H as <-.
      pose proof (extract_item_da_linha lib det o Eo) as Ho.
      destruct o as [item|].
      + destruct Ho as [-> Hi]. constructor; [exact Hi | now apply IH].
      + rewrite Ho. now apply IH. }
  split; [exact HF|].
  rewrite <- (Forall2_length HF). apply filter_length_le.
Qed.

Lemma itens_na_ordem_das_linhas_witness :
  exists itens,
    XMLParser._extract_itens_data Exemplos.lib_ex Exemplos.doc_envio = inr itens /\
    Forall2 item_da_linha (filter tem_prod (ET.findall "det" Exemplos.doc_envio)) itens.
Proof.
  destruct (XMLParser._extract_itens_data Exemplos.lib_ex Exemplos.doc_envio)
    as [e|itens] eqn:E.
  - vm_compute in E. discriminate E.
  - exists itens. split; [reflexivity|].
    apply (itens_na_ordem_das_linhas Exemplos.lib_ex Exemplos.doc_envio itens E).
Defined.

(* ------------------------------------------------------------------ *)
(** ** What the patterns do not miss *)

Lemma rep_k p k s : k s <> None -> Re.rep p k s <> None.
Proof.
  destruct s as [|c s]; simpl; [auto|]. intros H.
  destruct (Re.aceita (Re.cl p) c); [|exact H].
  destruct (Re.rep p k s); [discriminate | exact H].
Qed.

Lemma rep_Repete_completo p r w g :
  (forall w g, Casa r w g -> forall d, Re.match_here r (w ++ d) <> None) ->
  Repete p r w g -> forall d, Re.rep p (Re.match_here r) (w ++ d) <> None.
Proof.
  intros Hr H. induction H as [p r w g Hc | p r c w g Hc Hrep IH]; intros d.
  - apply rep_k. eapply Hr; eauto.
  - simpl. rewrite Hc.
    destruct (Re.rep p (Re.match_here r) (w ++ d)) eqn:E; [discriminate|].
    exfalso. exact (IH Hr d E).
Qed.

(** Where a pattern matches a text, the matcher finds a match at its
    start. *)
Lemma match_here_completo r : forall w g,
  Casa r w g -> forall d, Re.match_here r (w ++ d) <> None.
Proof.
  induction r as [|p r IH]; intros w g H d.
  - simpl. discriminate.
  - inversion H as [|p0 r0 c w0 g0 Hq Hc Hw|p0 r0 c w0 g0 Hq Hc Hrep|p0 r0 w0 g0 Hq Hrep];
      subst; simpl; rewrite Hq.
    + simpl. rewrite Hc.
      destruct (Re.match_here r (w0 ++ d)) eqn:E; [discriminate|].
      exfalso. exact (IH _ _ Hw d E).
    + simpl. rewrite Hc.
      pose proof (rep_Repete_completo p r _ _ IH Hrep d) as Hd.
      destruct (Re.rep p (Re.match_here r) (w0 ++ d)); [discriminate | congruence].
    + exact (rep_Repete_completo p r _ _ IH Hrep d).
Qed.

Lemma search_unfold r s :
  Re.search r s =
  match Re.match_here r s with
  | Some g => Some g
  | None => match s with String _ s' => Re.search r s' | EmptyString => None end
  end.
Proof. destruct s; reflexivity. Qed.

Lemma search_completo r a w d g :
  Casa r w g -> Re.search r (a ++ w ++ d) <> None.
Proof.
  intros H. induction a as [|c a IH].
  - simpl. rewrite search_unfold.
    pose proof (match_here_completo r w g H d) as Hm.
    destruct (Re.match_here r (w ++ d)); [discriminate | congruence].
  - simpl. destruct (Re.match_here r (String c (a ++ w ++ d))); [discriminate | exact IH].
Qed.

Lemma Casa_lit_intro l : forall l' r w g,
  mesma_palavra l l' = true -> Casa r w g -> Casa (Re.lit l ++ r) (l' ++ w) g.
Proof.
  induction l as [|x l IH]; intros [|y l'] r w g Hm Hc; simpl in Hm;
    try discriminate; [exact Hc|].
  apply andb_true_iff in Hm. destruct Hm as [Hxy Hm].
  refine (Casa_um {| Re.cl := Re.Lit x; Re.qt := Re.Um; Re.grp := false |}
            _ y _ g eq_refl _ (IH l' r w g Hm Hc)).
  simpl. rewrite Ascii.eqb_sym. exact Hxy.
Qed.

Lemma Repete_sep_intro q r seps : forall w g,
  all_chars (Re.aceita Re.Sep) seps = true -> Casa r w g ->
  Repete {| Re.cl := Re.Sep; Re.qt := q; Re.grp := false |} r (seps ++ w) g.
Proof.
  induction seps as [|c seps IH]; intros w g Hs Hc.
  - now constructor.
  - cbn [all_chars] in Hs. apply andb_true_iff in Hs. destruct Hs as [Hc0 Hs].
    exact (Repete_mais {| Re.cl := Re.Sep; Re.qt := q; Re.grp := false |}
             r c _ g Hc0 (IH w g Hs Hc)).
Qed.

Lemma Casa_sep_plus_intro r seps w g :
  seps <> EmptyString -> all_chars (Re.aceita Re.Sep) seps = true ->
  Casa r w g -> Casa (Re.sep_plus ++ r) (seps ++ w) g.
Proof.
  intros Hne Hs Hc. destruct seps as [|c seps]; [congruence|].
  cbn [all_chars] in Hs. apply andb_true_iff in Hs. destruct Hs as [Hc0 Hs].
  exact (Casa_mais {| Re.cl := Re.Sep; Re.qt := Re.Mais; Re.grp := false |}
           r c _ g eq_refl Hc0 (Repete_sep_intro Re.Mais r seps w g Hs Hc)).
Qed.

Lemma Casa_sep_star_intro r seps w g :
  all_chars (Re.aceita Re.Sep) seps = true ->
  Casa r w g -> Casa (Re.sep_star ++ r) (seps ++ w) g.
Proof.
  intros Hs Hc.
  exact (Casa_estrela {| Re.cl := Re.Sep; Re.qt := Re.Estrela; Re.grp := false |}
           r _ g eq_refl (Repete_sep_intro Re.Estrela r seps w g Hs Hc)).
Qed.

Lemma Repete_token_intro g :
  all_chars (Re.aceita Re.Tok) g = true ->
  Repete {| Re.cl := Re.Tok; Re.qt := Re.Mais; Re.grp := true |} [] g g.
Proof.
  induction g as [|c g IH]; intros H.
  - constructor. constructor.
  - cbn [all_chars] in H. apply andb_true_iff in H. destruct H as [Hc Hg].
    exact (Repete_mais {| Re.cl := Re.Tok; Re.qt := Re.Mais; Re.grp := true |}
             [] c g g Hc (IH Hg)).
Qed.

Lemma token_valido_aceita g :
  token_valido g -> g <> EmptyString /\ all_chars (Re.aceita Re.Tok) g = true.
Proof.
  intros [Hne H]. split; [exact Hne|]. clear Hne.
  induction g as [|c g IH]; [reflexivity|].
  cbn [all_chars] in *. apply andb_true_iff in H. destruct H as [Hc Hg].
  rewrite aceita_tok, Hc. auto.
Qed.

Lemma Casa_token_intro g : token_valido g -> Casa Re.token g g.
Proof.
  intros H. apply token_valido_aceita in H. destruct H as [Hne H].
  destruct g as [|c g]; [congruence|].
  cbn [all_chars] in H. apply andb_true_iff in H. destruct H as [Hc Hg].
  exact (Casa_mais {| Re.cl := Re.Tok; Re.qt := Re.Mais; Re.grp := true |}
           [] c g g eq_refl Hc (Repete_token_intro g Hg)).
Qed.

Lemma append_nil_r (s : string) : (s ++ "")%string = s.
Proof. induction s as [|c s IH]; simpl; [reflexivity | now rewrite IH]. Qed.

(** A text with the label, separators and a token is matched by the
    pattern of the label. *)
Lemma rotulo_search rotulo texto g :
  rotulo_e_token rotulo texto g ->
  Re.search (Re.lit rotulo ++ Re.sep_plus ++ Re.token) texto <> None.
Proof.
  intros (antes & r & seps & depois & -> & Hr & Hne & Hs & Hg).
  assert (Hc : Casa (Re.lit rotulo ++ Re.sep_plus ++ Re.token)
                 (r ++ seps ++ g ++ "") g).
  { apply Casa_lit_intro; [exact Hr|]. apply Casa_sep_plus_intro; auto.
    rewrite append_nil_r. now apply Casa_token_intro. }
  pose proof (search_completo _ antes _ depois g Hc) as H.
  rewrite append_nil_r in H. rewrite !append_assoc3 in H. exact H.
Qed.

Lemma rotulo_duplo_search rotulo1 rotulo2 texto g :
  rotulo_duplo_e_token rotulo1 rotulo2 texto g ->
  Re.search (Re.lit rotulo1 ++ Re.sep_star ++ Re.lit rotulo2 ++ Re.sep_plus ++ Re.token)
    texto <> None.
Proof.
  intros (antes & r1 & meio & r2 & seps & depois & -> & Hr1 & Hm & Hr2 & Hne & Hs & Hg).
  assert (Hc : Casa (Re.lit rotulo1 ++ Re.sep_star ++ Re.lit rotulo2
                     ++ Re.sep_plus ++ Re.token)
                 (r1 ++ meio ++ r2 ++ seps ++ g ++ "") g).
  { apply Casa_lit_intro; [exact Hr1|]. apply Casa_sep_star_intro; [exact Hm|].
    apply Casa_lit_intro; [exact Hr2|]. apply Casa_sep_plus_intro; auto.
    rewrite append_nil_r. now apply Casa_token_intro. }
  pose proof (search_completo _ antes _ depois g Hc) as H.
  rewrite append_nil_r in H. rewrite !append_assoc3 in H. exact H.
Qed.

(** A label of two words ends in the label [lote]. *)
Lemma rotulo_duplo_e_rotulo rotulo1 texto g :
  rotulo_duplo_e_token rotulo1 "lote" texto g -> rotulo_e_token "lote" texto g.
Proof.
  intros (antes & r1 & meio & r2 & seps & depois & -> & Hr1 & Hm & Hr2 & Hne & Hs & Hg).
  exists (antes ++ r1 ++ meio)%string, r2, seps, depois.
  split; [|auto]. rewrite !append_assoc3. reflexivity.
Qed.

Lemma primeiro_padrao_algum ps texto p :
  In p ps -> Re.search p texto <> None -> primeiro_padrao ps texto <> None.
Proof.
  induction ps as [|q ps IH]; simpl; [tauto|].
  intros [-> | Hin] Hs.
  - destruct (Re.search p texto); [discriminate | congruence].
  - destruct (Re.search q texto); [discriminate | auto].
Qed.

(** X10.  For a line without a lot number in a traceability or medicine
    block, the extraction finds a lot number exactly when the additional
    product information holds, somewhere, one of the labels lote, l, lot,
    batch, nr lote or numero lote in any letter case, at least one colon or
    white space, and a token.  So the patterns miss no such text, and a text
    without any of them gives no lot. *)
Theorem lote_no_texto_livre_sse (lib : PyLib) (det : ET.Element) :
  let lote := ld_numero_lote (XMLParser._extract_lote_data lib det) in
  let texto := PyStr.or_empty (ET.findtext "infAdProd" det) in
  lote_do_bloco "rastro" det = None -> lote_do_bloco "med" det = None ->
  (PyStr.truthy lote = true <->
   exists g, rotulo_e_token "lote" texto g \/ rotulo_e_token "l" texto g \/
             rotulo_e_token "lot" texto g \/ rotulo_e_token "batch" texto g \/
             rotulo_duplo_e_token "nr" "lote" texto g \/
             rotulo_duplo_e_token "numero" "lote" texto g).
Proof.
  intros lote texto Er Em. subst lote.
  rewrite extract_lote_data_casos, Er, Em. fold texto.
  split.
  - intros H.
    destruct (primeiro_padrao XMLParser.lote_patterns texto) as [g|] eqn:Ep.
    + exists g. apply lote_patterns_rotulos. now apply primeiro_padrao_In.
    + exfalso. unfold lote_do_bloco in Er, Em.
      destruct (ET.find "med" det) as [med|].
      * apply presente_None in Em. congruence.
      * destruct (ET.find "rastro" det) as [rastro|]; [|discriminate].
        apply presente_None in Er. congruence.
  - intros (g & H).
    assert (Hp : primeiro_padrao XMLParser.lote_patterns texto <> None).
    { unfold XMLParser.lote_patterns.
      destruct H as [H | [H | [H | [H | [H | H]]]]].
      - eapply primeiro_padrao_algum; [|exact (rotulo_search _ _ _ H)]. now left.
      - eapply primeiro_padrao_algum; [|exact (rotulo_search _ _ _ H)].
        right. now left.
      - eapply primeiro_padrao_algum; [|exact (rotulo_search _ _ _ H)].
        do 2 right. now left.
      - eapply primeiro_padrao_algum; [|exact (rotulo_search _ _ _ H)].
        do 3 right. now left.
      - eapply primeiro_padrao_algum; [|exact (rotulo_duplo_search _ _ _ _ H)].
        do 4 right. now left.
      - eapply primeiro_padrao_algum; [|exact (rotulo_duplo_search _ _ _ _ H)].
        do 5 right. now left. }
    destruct (primeiro_padrao XMLParser.lote_patterns texto) as [g'|] eqn:Ep;
      [|congruence].
    pose proof (lote_patterns_token texto g' Ep) as Hg.
    rewrite (strip_token g' Hg). destruct Hg as [Hne _].
    destruct g'; [congruence | reflexivity].
Qed.

Lemma lote_no_texto_livre_sse_witness :
  PyStr.truthy (ld_numero_lote
                  (XMLParser._extract_lote_data Exemplos.lib_ex
                     (Exemplos.det_so_texto "Ref 7; Batch:  B-77, cx 2"))) = true.
Proof.
  apply (lote_no_texto_livre_sse Exemplos.lib_ex
           (Exemplos.det_so_texto "Ref 7; Batch:  B-77, cx 2")).
  - reflexivity.
  - reflexivity.
  - exists "B-77". do 3 right. left.
    exists "Ref 7; ", "Batch", ":  ", ", cx 2".
    split; [reflexivity|]. split; [reflexivity|]. split; [discriminate|].
    split; [reflexivity|]. split; [discriminate | reflexivity].
Defined.

(** X11.  The two patterns with a label of two words never decide: a text
    they match is matched by the first pattern, which is tried before them.
    The scan over the six patterns gives what the scan over the first four
    gives. *)
Theorem padroes_de_rotulo_duplo_nao_decidem (texto : string) (lote_data : LoteData) :
  (forall p, In p (skipn 4 XMLParser.lote_patterns) -> Re.search p texto <> None ->
     Re.search (Re.lit "lote" ++ Re.sep_plus ++ Re.token) texto <> None) /\
  XMLParser.scan_patterns XMLParser.lote_patterns texto lote_data
  = XMLParser.scan_patterns (firstn 4 XMLParser.lote_patterns) texto lote_data.
Proof.
  assert (H5 : forall rotulo1,
            Re.search (Re.lit rotulo1 ++ Re.sep_star ++ Re.lit "lote"
                       ++ Re.sep_plus ++ Re.token) texto <> None ->
            Re.search (Re.lit "lote" ++ Re.sep_plus ++ Re.token) texto <> None).
  { intros rotulo1 H.
    destruct (Re.search (Re.lit rotulo1 ++ Re.sep_star ++ Re.lit "lote"
                         ++ Re.sep_plus ++ Re.token) texto) as [g|] eqn:E;
      [|congruence].
    apply rotulo_search with (g := g).
    apply (rotulo_duplo_e_rotulo rotulo1). now apply search_rotulo_duplo. }
  split.
  - unfold XMLParser.lote_patterns. cbn [skipn].
    intros p [<- | [<- | []]]; apply H5.
  - unfold XMLParser.lote_patterns. cbn [firstn XMLParser.scan_patterns].
    destruct (Re.search (Re.lit "lote" ++ Re.sep_plus ++ Re.token) texto) eqn:E1;
      [reflexivity|].
    destruct (Re.search (Re.lit "l" ++ Re.sep_plus ++ Re.token) texto); [reflexivity|].
    destruct (Re.search (Re.lit "lot" ++ Re.sep_plus ++ Re.token) texto); [reflexivity|].
    destruct (Re.search (Re.lit "batch" ++ Re.sep_plus ++ Re.token) texto);
      [reflexivity|].
    destruct (Re.search (Re.lit "nr" ++ Re.sep_star ++ Re.lit "lote"
                         ++ Re.sep_plus ++ Re.token) texto) eqn:E5.
    { exfalso. apply (H5 "nr"); [rewrite E5; discriminate | reflexivity]. }
    destruct (Re.search (Re.lit "numero" ++ Re.sep_star ++ Re.lit "lote"
                         ++ Re.sep_plus ++ Re.token) texto) eqn:E6.
    { exfalso. apply (H5 "numero"); [rewrite E6; discriminate | reflexivity]. }
    reflexivity.
Qed.

(* ------------------------------------------------------------------ *)
(** ** The fiscal code of a document *)

Lemma Element_ind_filhos (P : ET.Element -> Prop) :
  (forall t a x cs, Forall P cs -> P (ET.Elem t a x cs)) -> forall e, P e.
Proof.
  intros H. fix IH 1. intros [t a x cs]. apply H.
  revert cs. fix IHcs 1. intros [|c cs]; constructor; [apply IH | apply IHcs].
Qed.

Lemma iter_self e : In e (ET.iter e).
Proof. destruct e. now left. Qed.

Lemma iter_trans e : forall x y, In x (ET.iter e) -> In y (ET.iter x) -> In y (ET.iter e).
Proof.
  induction e as [t a tx cs IH] using Element_ind_filhos.
  intros x y Hx Hy. simpl in Hx. destruct Hx as [<- | Hx]; [exact Hy|].
  simpl. right. apply in_flat_map in Hx. destruct Hx as (c & Hc & Hx).
  apply in_flat_map. exists c. split; [exact Hc|].
  rewrite Forall_forall in IH. exact (IH c Hc x y Hx Hy).
Qed.

Lemma descendants_iter e x : In x (ET.descendants e) -> In x (ET.iter e).
Proof. destruct e. simpl. auto. Qed.

Lemma descendants_trans e x y :
  In x (ET.descendants e) -> In y (ET.descendants x) -> In y (ET.descendants e).
Proof.
  unfold ET.descendants at 1 3. intros Hx Hy.
  apply in_flat_map in Hx. destruct Hx as (c & Hc & Hx).
  apply in_flat_map. exists c. split; [exact Hc|].
  apply (iter_trans c x y Hx). now apply descendants_iter.
Qed.

Lemma children_descendants e c : In c (ET.children e) -> In c (ET.descendants e).
Proof.
  intros H. unfold ET.descendants. apply in_flat_map. exists c.
  split; [exact H | apply iter_self].
Qed.

Lemma find_descendants t e x :
  ET.find t e = Some x -> In x (ET.descendants e) /\ ET.tag x = t.
Proof.
  unfold ET.find, ET.findall. intros H. apply hd_error_filter_Some in H.
  destruct H as [Hin Ht]. split; [exact Hin|]. now apply String.eqb_eq.
Qed.

Lemma text_of_truthy o s :
  ET.text_of o = Some s -> PyStr.truthy (Some s) = true ->
  exists e, o = Some e /\ ET.text e = Some s.
Proof.
  destruct o as [e|]; [|discriminate]. simpl. intros H Ht. exists e.
  split; [reflexivity|]. destruct (ET.text e) as [x|]; [congruence|].
  injection H as <-. discriminate.
Qed.

Lemma or_empty_or_else_casos a b :
  PyStr.or_empty (PyStr.or_else a b) = EmptyString \/
  (PyStr.truthy a = true /\ a = Some (PyStr.or_empty (PyStr.or_else a b))) \/
  (PyStr.truthy a = false /\ PyStr.truthy b = true /\
   b = Some (PyStr.or_empty (PyStr.or_else a b))).
Proof.
  unfold PyStr.or_empty, PyStr.or_else.
  destruct a as [[|c a]|]; simpl; destruct b as [[|d b]|]; simpl; auto.
Qed.

(** X12.  The fiscal code of a document is read from its first line only:
    it is the text of a [CFOP] element below the first [det], or the empty
    text.  It is empty when the document has no line, when the first line
    has no tax block, whatever the product block holds, and when no [CFOP]
    element is below the first line, whatever the other lines hold; the
    document is then of the kind [Outros]. *)
Theorem cfop_da_primeira_linha (root : ET.Element) :
  let cfop := XMLParser._extract_cfop root in
  (cfop = EmptyString ->
     XMLParser.mapping_get XMLParser.CFOP_MAPPING cfop = Outros) /\
  match ET.find "det" root with
  | None => cfop = EmptyString
  | Some det =>
      (ET.find "imposto" det = None -> cfop = EmptyString) /\
      (ET.findall "CFOP" det = [] -> cfop = EmptyString) /\
      (cfop <> EmptyString ->
         exists e, In e (ET.descendants det) /\ ET.tag e = "CFOP" /\
                   ET.text e = Some cfop)
  end.
Proof.
  intros cfop. split; [intros ->; reflexivity|].
  subst cfop. unfold XMLParser._extract_cfop.
  destruct (ET.find "det" root) as [det|]; [|reflexivity].
  split; [intros ->; reflexivity|].
  destruct (ET.find "imposto" det) as [imposto|] eqn:Ei; [|split; [reflexivity|congruence]].
  apply find_descendants in Ei. destruct Ei as [Hi _].
  set (a := ET.findtext "CFOP" imposto).
  set (b := ET.findtext "CFOP" det).
  set (c := ET.findtext_path2 "prod" "CFOP" det).
  assert (Ha : forall s, a = Some s -> PyStr.truthy (Some s) = true ->
             exists e, In e (ET.descendants det) /\ ET.tag e = "CFOP" /\
                       ET.text e = Some s).
  { intros s Hs Ht. destruct (text_of_truthy _ _ Hs Ht) as (e & He & Hx).
    apply find_descendants in He. destruct He as [Hin Htag].
    exists e. split; [|auto]. exact (descendants_trans det imposto e Hi Hin). }
  assert (Hb : forall s, b = Some s -> PyStr.truthy (Some s) = true ->
             exists e, In e (ET.descendants det) /\ ET.tag e = "CFOP" /\
                       ET.text e = Some s).
  { intros s Hs Ht. destruct (text_of_truthy _ _ Hs Ht) as (e & He & Hx).
    apply find_descendants in He. destruct He as [Hin Htag]. eauto. }
  assert (Hc : forall s, c = Some s -> PyStr.truthy (Some s) = true ->
             exists e, In e (ET.descendants det) /\ ET.tag e = "CFOP" /\
                       ET.text e = Some s).
  { intros s Hs Ht. destruct (text_of_truthy _ _ Hs Ht) as (e & He & Hx).
    assert (Hin : In e (flat_map (ET.findall_child "CFOP") (ET.findall "prod" det))).
    { destruct (flat_map (ET.findall_child "CFOP") (ET.findall "prod" det));
        [discriminate|]. injection He as ->. now left. }
    apply in_flat_map in Hin. destruct Hin as (prod & Hp & Hin).
    apply filter_In in Hp. destruct Hp as [Hp _].
    apply filter_In in Hin. destruct Hin as [Hin Htag].
    exists e. split; [|split; [now apply String.eqb_eq | exact Hx]].
    apply (descendants_trans det prod e Hp). now apply children_descendants. }
  assert (Hres : forall x,
            PyStr.or_empty (PyStr.or_else a (PyStr.or_else b c)) = x ->
            x <> EmptyString ->
            exists e, In e (ET.descendants det) /\ ET.tag e = "CFOP" /\
                      ET.text e = Some x).
  { intros x Hx Hne.
    destruct (or_empty_or_else_casos a (PyStr.or_else b c)) as [H | [[Ht H] | (Hf & Ht & H)]].
    - congruence.
    - rewrite Hx in H. apply Ha; [exact H | now rewrite <- H].
    - rewrite Hx in H.
      destruct (or_empty_or_else_casos b c) as [H' | [[Ht' H'] | (Hf' & Ht' & H')]].
      + rewrite H in Ht, H'. destruct x; [discriminate Ht | discriminate H'].
      + unfold PyStr.or_else in H at 1. rewrite Ht' in H.
        apply Hb; [exact H | now rewrite <- H].
      + unfold PyStr.or_else in H at 1. rewrite Hf' in H.
        apply Hc; [exact H | now rewrite <- H]. }
  split; [|intros Hne; exact (Hres _ eq_refl Hne)].
  intros Hnone.
  destruct (String.string_dec
              (PyStr.or_empty (PyStr.or_else a (PyStr.or_else b c))) EmptyString)
    as [E | Hne]; [exact E|].
  exfalso. destruct (Hres _ eq_refl Hne) as (e & Hin & Htag & _).
  assert (Hf : In e (ET.findall "CFOP" det)).
  { apply filter_In. split; [exact Hin | now apply String.eqb_eq]. }
  rewrite Hnone in Hf. exact Hf.
Qed.

(* ------------------------------------------------------------------ *)
(** ** The number as the reports print it *)

Lemma length_append (a b : string) :
  String.length (a ++ b) = (String.length a + String.length b)%nat.
Proof. induction a as [|c a IH]; simpl; [reflexivity | now rewrite IH]. Qed.

Lemma only_digits_app a b :
  PyStr.only_digits (a ++ b) = (PyStr.only_digits a ++ PyStr.only_digits b)%string.
Proof.
  induction a as [|c a IH]; simpl; [reflexivity|].
  destruct (PyStr.isdigit c); simpl; now rewrite IH.
Qed.

Lemma so_digitos_app a b : so_digitos (a ++ b) = so_digitos a && so_digitos b.
Proof.
  unfold so_digitos. induction a as [|c a IH]; simpl; [reflexivity|].
  now rewrite IH, andb_assoc.
Qed.

Lemma so_digitos_substring s : forall n m,
  so_digitos s = true -> so_digitos (substring n m s) = true.
Proof.
  unfold so_digitos. induction s as [|c s IH]; intros n m H.
  - destruct n, m; reflexivity.
  - cbn [all_chars] in H. apply andb_true_iff in H. destruct H as [Hc Hs].
    destruct n as [|n]; [destruct m as [|m]|]; simpl; auto.
    rewrite Hc. simpl. auto.
Qed.

Lemma length_substring s : forall n m,
  (n + m <= String.length s)%nat -> String.length (substring n m s) = m.
Proof.
  induction s as [|c s IH]; intros n m H; simpl in H.
  - destruct n, m; simpl; lia.
  - destruct n as [|n]; [destruct m as [|m]|]; simpl; [reflexivity| |].
    + rewrite IH by lia. reflexivity.
    + apply IH. lia.
Qed.

Lemma zeros_digitos n : so_digitos (Py.zeros n) = true /\ String.length (Py.zeros n) = n.
Proof. induction n as [|n [IH1 IH2]]; simpl; auto. Qed.

Lemma digito_sem_sinal c :
  PyStr.isdigit c = true -> Ascii.eqb c "+" || Ascii.eqb c "-" = false.
Proof.
  intros H. destruct (Ascii.eqb c "+") eqn:E1.
  - apply Ascii.eqb_eq in E1. subst. discriminate.
  - destruct (Ascii.eqb c "-") eqn:E2; [|reflexivity].
    apply Ascii.eqb_eq in E2. subst. discriminate.
Qed.

Lemma zfill_digitos w s :
  so_digitos s = true ->
  so_digitos (Py.zfill w s) = true /\
  String.length (Py.zfill w s) = Nat.max w (String.length s) /\
  ((w <= String.length s)%nat -> Py.zfill w s = s).
Proof.
  intros H. unfold Py.zfill.
  destruct (w <=? String.length s)%nat eqn:E.
  - apply Nat.leb_le in E. split; [exact H|]. split; [lia | reflexivity].
  - apply Nat.leb_gt in E.
    destruct (zeros_digitos (w - String.length s)) as [Hz Hl].
    assert (Hfill : so_digitos (Py.zeros (w - String.length s) ++ s) = true /\
                    String.length (Py.zeros (w - String.length s) ++ s)
                    = Nat.max w (String.length s)).
    { rewrite so_digitos_app, Hz, H, length_append, Hl. split; [reflexivity | lia]. }
    destruct s as [|c r].
    + rewrite append_nil_r in Hfill. destruct Hfill. repeat split; auto. simpl in *. lia.
    + unfold so_digitos in H. cbn [all_chars] in H.
      apply andb_true_iff in H. destruct H as [Hc Hr].
      rewrite (digito_sem_sinal c Hc). destruct Hfill. repeat split; auto. lia.
Qed.

Lemma partes_14 p :
  String.length p = 14%nat ->
  (Py.slice 0 2 p ++ Py.slice 2 5 p ++ Py.slice 5 8 p ++ Py.slice 8 12 p
   ++ Py.slice_from 12 p)%string = p.
Proof.
  intros H. do 15 (destruct p as [|? p]; try discriminate H). reflexivity.
Qed.

Lemma partes_11 p :
  String.length p = 11%nat ->
  (Py.slice 0 3 p ++ Py.slice 3 6 p ++ Py.slice 6 9 p ++ Py.slice_from 9 p)%string = p.
Proof.
  intros H. do 12 (destruct p as [|? p]; try discriminate H). reflexivity.
Qed.

Lemma only_digits_parte p n m :
  so_digitos p = true -> PyStr.only_digits (substring n m p) = substring n m p.
Proof. intros H. apply only_digits_id. now apply so_digitos_substring. Qed.

Lemma all_chars_app f a b : all_chars f (a ++ b) = all_chars f a && all_chars f b.
Proof.
  induction a as [|c a IH]; simpl; [reflexivity|]. now rewrite IH, andb_assoc.
Qed.

Lemma all_chars_substring f s : forall n m,
  all_chars f s = true -> all_chars f (substring n m s) = true.
Proof.
  induction s as [|c s IH]; intros n m H.
  - destruct n, m; reflexivity.
  - cbn [all_chars] in H. apply andb_true_iff in H. destruct H as [Hc Hs].
    destruct n as [|n]; [destruct m as [|m]|]; simpl; auto.
    rewrite Hc. simpl. auto.
Qed.

Lemma all_chars_impl (f g : ascii -> bool) s :
  (forall c, f c = true -> g c = true) -> all_chars f s = true -> all_chars g s = true.
Proof.
  intros Hfg. induction s as [|c s IH]; simpl; [reflexivity|].
  intros H. apply andb_true_iff in H. destruct H as [Hc Hs].
  rewrite (Hfg c Hc). auto.
Qed.


(** What [_format_cnpj] prints for a number of one to fourteen digits. *)
Lemma format_cnpj_partes (cnpj : string) :
  so_digitos cnpj = true -> cnpj <> EmptyString -> (String.length cnpj <= 14)%nat ->
  let longo := (11 <? String.length cnpj)%nat in
  PyStr.only_digits (Relatorios._format_cnpj cnpj)
  = Py.zfill (if longo then 14 else 11) cnpj /\
  String.length (Relatorios._format_cnpj cnpj) = (if longo then 18 else 14)%nat /\
  all_chars (fun c => implb (Py.isdigit c) (PyStr.isdigit c))
    (Relatorios._format_cnpj cnpj) = true.
Proof.
  intros Hd Hne Hlen longo.
  subst longo. unfold Relatorios._format_cnpj.
  destruct cnpj as [|c0 r0] eqn:Ec; [congruence|]. rewrite <- Ec in *.
  replace (negb (PyStr.truthy (Some cnpj))) with false by (rewrite Ec; reflexivity).
  assert (Hg : forall p, so_digitos p = true ->
             all_chars (fun c => implb (Py.isdigit c) (PyStr.isdigit c)) p = true).
  { intros p Hp. apply (all_chars_impl PyStr.isdigit); [|exact Hp].
    intros c Hc. rewrite Hc. apply implb_true_r. }
  destruct (11 <? String.length cnpj)%nat eqn:E.
  - apply Nat.ltb_lt in E.
    destruct (zfill_digitos 14 cnpj Hd) as (Hp & Hl & _).
    set (p := Py.zfill 14 cnpj) in *.
    assert (Hl14 : String.length p = 14%nat) by lia.
    rewrite Hl14. cbn [Nat.eqb].
    split; [|split].
    + rewrite !only_digits_app. unfold Py.slice, Py.slice_from.
      rewrite !only_digits_parte by exact Hp. cbn [PyStr.only_digits].
      change (PyStr.isdigit ".") with false. change (PyStr.isdigit "/") with false.
      change (PyStr.isdigit "-") with false. cbn [append].
      exact (partes_14 p Hl14).
    + rewrite !length_append. unfold Py.slice, Py.slice_from.
      rewrite !length_substring by lia. rewrite Hl14. reflexivity.
    + rewrite !all_chars_app. unfold Py.slice, Py.slice_from.
      rewrite !all_chars_substring by (apply Hg, Hp). reflexivity.
  - apply Nat.ltb_ge in E.
    destruct (zfill_digitos 11 cnpj Hd) as (Hp & Hl & _).
    set (p := Py.zfill 11 cnpj) in *.
    assert (Hl11 : String.length p = 11%nat) by lia.
    rewrite Hl11. cbn [Nat.eqb].
    split; [|split].
    + rewrite !only_digits_app. unfold Py.slice, Py.slice_from.
      rewrite !only_digits_parte by exact Hp. cbn [PyStr.only_digits].
      change (PyStr.isdigit ".") with false.
      change (PyStr.isdigit "-") with false. cbn [append].
      exact (partes_11 p Hl11).
    + rewrite !length_append. unfold Py.slice, Py.slice_from.
      rewrite !length_substring by lia. rewrite Hl11. reflexivity.
    + rewrite !all_chars_app. unfold Py.slice, Py.slice_from.
      rewrite !all_chars_substring by (apply Hg, Hp). reflexivity.
Qed.

Lemma zfill_exato w cnpj :
  so_digitos cnpj = true -> String.length cnpj = w -> Py.zfill w cnpj = cnpj.
Proof.
  intros Hd Hw. destruct (zfill_digitos w cnpj Hd) as (_ & _ & H). apply H. lia.
Qed.

(** X13.  For a number of one to fourteen digits, what [_format_cnpj] prints
    holds, besides the punctuation, the number padded with zeros on the
    left to eleven digits, or to fourteen when it has more than eleven; the
    printed text has fourteen or eighteen characters.  For a number of
    eleven or fourteen digits, removing what is not a digit from the printed
    text gives the number back. *)
Theorem format_cnpj_digitos (cnpj : string) :
  so_digitos cnpj = true -> cnpj <> EmptyString -> (String.length cnpj <= 14)%nat ->
  let longo := (11 <? String.length cnpj)%nat in
  PyStr.only_digits (Relatorios._format_cnpj cnpj)
  = Py.zfill (if longo then 14 else 11) cnpj /\
  String.length (Relatorios._format_cnpj cnpj) = (if longo then 18 else 14)%nat /\
  (String.length cnpj = 11%nat \/ String.length cnpj = 14%nat ->
   PyStr.only_digits (Relatorios._format_cnpj cnpj) = cnpj).
Proof.
  intros Hd Hne Hlen longo.
  destruct (format_cnpj_partes cnpj Hd Hne Hlen) as (H1 & H2 & _).
  split; [exact H1|]. split; [exact H2|].
  intros Hc. rewrite H1.
  destruct Hc as [Hc | Hc]; rewrite Hc; simpl; now apply zfill_exato.
Qed.

Lemma format_cnpj_digitos_witness :
  PyStr.only_digits (Relatorios._format_cnpj Exemplos.hospital) = Exemplos.hospital.
Proof.
  apply (format_cnpj_digitos Exemplos.hospital).
  - reflexivity.
  - discriminate.
  - simpl. lia.
  - right. reflexivity.
Defined.

Example format_cnpj_exemplos :
  map Relatorios._format_cnpj [ Exemplos.hospital; "12345678901"; "123"; "" ]
  = [ "12.345.678/0001-90"; "123.456.789-01"; "000.000.001-23"; "" ].
Proof. reflexivity. Qed.

Example format_cnpj_com_sinal :
  map Relatorios._format_cnpj [ "-5"; "+12345678901234" ]
  = [ "-00.000.000-05"; "+12345678901234" ].
Proof. reflexivity. Qed.

(* ------------------------------------------------------------------ *)
(** ** Texts cut for the table of the report *)

(** X14.  With a limit that is not negative, [_truncate_text] returns a text
    of at most the limit plus three characters: the text itself when it is
    within the limit, else its first characters up to the limit followed by
    three periods.  A text one or two characters over the limit comes out
    longer than it went in. *)
Theorem truncate_text_comprimento (text : string) (max_length : Z) :
  0 <= max_length ->
  let r := Relatorios._truncate_text text max_length in
  let n := Z.to_nat max_length in
  ((String.length text <= n)%nat -> r = text) /\
  ((n < String.length text)%nat ->
     r = (substring 0 n text ++ "...")%string /\ String.length r = (n + 3)%nat) /\
  (String.length r <= Nat.max (String.length text) (n + 3))%nat /\
  ((n < String.length text < n + 3)%nat -> (String.length text < String.length r)%nat).
Proof.
  intros Hn r n.
  assert (Hcurto : (String.length text <= n)%nat -> r = text).
  { intros H. subst r. unfold Relatorios._truncate_text.
    destruct text as [|c t]; [reflexivity|]. cbn [PyStr.truthy negb].
    destruct (max_length <? Z.of_nat (String.length (String c t))) eqn:E;
      [|reflexivity].
    apply Z.ltb_lt in E. subst n. lia. }
  assert (Hlongo : (n < String.length text)%nat ->
            r = (substring 0 n text ++ "...")%string /\
            String.length r = (n + 3)%nat).
  { intros H. subst r. unfold Relatorios._truncate_text.
    destruct text as [|c t]; [simpl in H; lia|]. cbn [PyStr.truthy negb].
    destruct (max_length <? Z.of_nat (String.length (String c t))) eqn:E.
    - unfold Py.slice_to. replace (0 <=? max_length) with true
        by (symmetry; apply Z.leb_le; exact Hn).
      fold n. split; [reflexivity|].
      rewrite length_append, length_substring by lia. reflexivity.
    - apply Z.ltb_ge in E. subst n. lia. }
  split; [exact Hcurto|]. split; [exact Hlongo|].
  destruct (Nat.le_gt_cases (String.length text) n) as [H | H].
  - rewrite (Hcurto H). split; lia.
  - destruct (Hlongo H) as [_ Hl]. rewrite Hl. split; lia.
Qed.

Lemma truncate_text_comprimento_witness :
  (String.length "Hospital A" < String.length (Relatorios._truncate_text "Hospital A" 8))%nat.
Proof.
  apply (truncate_text_comprimento "Hospital A" 8).
  - lia.
  - simpl. lia.
Defined.

Example truncate_text_exemplos :
  map (Relatorios._truncate_text "abcdef") [ 3; 5; 6; 7; 0; -2; -10 ]
  = [ "abc..."; "abcde..."; "abcdef"; "abcdef"; "..."; "abcd..."; "..." ].
Proof. reflexivity. Qed.

(* ------------------------------------------------------------------ *)
(** ** The summary of the balances *)

Lemma efeito_prefixo {B} (g : SaldoMaterial -> B) nota item s :
  (forall tipo q agora r, g (soma tipo q agora r) = g r) ->
  exists extra,
    map g (saldos (snd (_atualizar_saldo nota item s))) = map g (saldos s) ++ extra.
Proof.
  intros Hg. destruct (nf_tipo_operacao nota) eqn:Et.
  - rewrite (atualizar_saldo_saida nota item s Et).
    destruct (hd_error _).
    + exists []. rewrite app_nil_r. apply update_row_map. intros r. apply (Hg Saida).
    + eexists. rewrite map_app. reflexivity.
  - rewrite (atualizar_saldo_com_busca nota item s)
      by (unfold com_busca; rewrite Et; auto).
    exists []. rewrite app_nil_r. destruct (fst _); [|reflexivity].
    rewrite update_saldo_saldos. apply update_row_map. intros; apply Hg.
  - rewrite (atualizar_saldo_com_busca nota item s)
      by (unfold com_busca; rewrite Et; auto).
    exists []. rewrite app_nil_r. destruct (fst _); [|reflexivity].
    rewrite update_saldo_saldos. apply update_row_map. intros; apply Hg.
  - rewrite (atualizar_saldo_com_busca nota item s)
      by (unfold com_busca; rewrite Et; auto).
    exists []. rewrite app_nil_r. destruct (fst _); [|reflexivity].
    rewrite update_saldo_saldos. apply update_row_map. intros; apply Hg.
  - exists []. rewrite app_nil_r. unfold _atualizar_saldo. rewrite Et. reflexivity.
Qed.

Lemma fold_efeito_prefixo {B} (g : SaldoMaterial -> B) nota agora itens :
  (forall tipo q agora r, g (soma tipo q agora r) = g r) ->
  forall t, exists extra,
    map g (fold_left (efeito nota agora) itens t) = map g t ++ extra.
Proof.
  intros Hg. induction itens as [|item l IH]; intros t.
  - exists []. now rewrite app_nil_r.
  - simpl. destruct (IH (efeito nota agora t item)) as [e2 H2].
    destruct (efeito_prefixo g nota item (so_saldos t agora) Hg) as [e1 H1].
    change (map g (efeito nota agora t item) = map g t ++ e1) in H1.
    rewrite H1 in H2. exists (e1 ++ e2).
    rewrite H2, app_assoc. reflexivity.
Qed.

Lemma processar_nota_fiscal_prefixo {B} (g : SaldoMaterial -> B) lib xml s :
  (forall tipo q agora r, g (soma tipo q agora r) = g r) ->
  exists extra,
    map g (saldos (snd (processar_nota_fiscal lib xml s))) = map g (saldos s) ++ extra.
Proof.
  intros Hg.
  destruct (fst (processar_nota_fiscal lib xml s)) as [k numero serie tipo cnt|e] eqn:E.
  - destruct (processar_nota_fiscal_sucesso_inv lib xml s k numero serie tipo cnt
                (snd (processar_nota_fiscal lib xml s)))
      as (nf & nota & _ & _ & _ & _ & _ & _ & _ & Hs').
    { rewrite <- E. apply surjective_pairing. }
    destruct (processar_itens_spec nota (nd_itens nf) 0 (snd (add_nota nota s)))
      as (_ & Hsal & _).
    rewrite Hs', Hsal. apply fold_efeito_prefixo. exact Hg.
  - exists []. rewrite app_nil_r. unfold saldos.
    rewrite processar_nota_fiscal_falha; [reflexivity|]. rewrite E. reflexivity.
Qed.

Lemma distinct_count_app l extra :
  (Consultas.distinct_count l <= Consultas.distinct_count (l ++ extra))%nat.
Proof.
  unfold Consultas.distinct_count. apply NoDup_incl_length; [apply NoDup_nodup|].
  intros x Hx. apply nodup_In in Hx. apply nodup_In. apply in_or_app. now left.
Qed.

Lemma soma_codigo_produto tipo q agora r :
  codigo_produto (soma tipo q agora r) = codigo_produto r.
Proof. destruct tipo; reflexivity. Qed.

(** X15.  [obter_resumo_saldos] changes nothing, and over one call of
    [processar_nota_fiscal] its counts move so: the number of invoices goes
    up by one when the call succeeds and stays when it fails; the numbers of
    distinct counterparties and of distinct products never go down; after a
    call that fails the whole summary is what it was. *)
Theorem resumo_apos_ingestao (lib : PyLib) (xml : string) (s : Sessao) :
  let antes := fst (Consultas.obter_resumo_saldos s) in
  let r := processar_nota_fiscal lib xml s in
  let depois := fst (Consultas.obter_resumo_saldos (snd r)) in
  snd (Consultas.obter_resumo_saldos s) = s /\
  total_nfs_processadas depois
  = (total_nfs_processadas antes + if success (fst r) then 1 else 0)%nat /\
  (total_clientes antes <= total_clientes depois)%nat /\
  (total_produtos antes <= total_produtos depois)%nat /\
  (success (fst r) = false -> depois = antes).
Proof.
  intros antes r depois. subst antes r depois.
  unfold Consultas.obter_resumo_saldos, bind, query_saldos. cbn [fst snd].
  cbn [total_nfs_processadas total_clientes total_produtos].
  split; [reflexivity|].
  fold (saldos s). fold (saldos (snd (processar_nota_fiscal lib xml s))).
  destruct (processar_nota_fiscal_prefixo cliente_cnpj lib xml s soma_cliente_cnpj)
    as [e1 H1].
  destruct (processar_nota_fiscal_prefixo codigo_produto lib xml s soma_codigo_produto)
    as [e2 H2].
  rewrite H1, H2.
  split; [|split; [apply distinct_count_app|split; [apply distinct_count_app|]]].
  - destruct (fst (processar_nota_fiscal lib xml s))
      as [k numero serie tipo cnt|e] eqn:E.
    + destruct (processar_nota_fiscal_sucesso_inv lib xml s k numero serie tipo cnt
                  (snd (processar_nota_fiscal lib xml s)))
        as (nf & nota & _ & _ & _ & _ & _ & _ & _ & Hs').
      { rewrite <- E. apply surjective_pairing. }
      destruct (processar_itens_spec nota (nd_itens nf) 0 (snd (add_nota nota s)))
        as (_ & _ & Hnot & _).
      rewrite Hs', Hnot. simpl. rewrite length_app. reflexivity.
    + rewrite processar_nota_fiscal_falha by (rewrite E; reflexivity). simpl. lia.
  - intros Hf. rewrite <- H1, <- H2. unfold saldos.
    rewrite (processar_nota_fiscal_falha lib xml s Hf). reflexivity.
Qed.

(** X16.  The summary counts no pending balance exactly when no lookup can
    find a record: whatever the counterparty, product and lot of a return,
    symbolic return or billing line, [_buscar_saldo_para_retorno] returns
    nothing. *)
Theorem sem_pendencias_sse_nenhuma_busca (s : Sessao) :
  saldos_pendentes (fst (Consultas.obter_resumo_saldos s)) = 0%nat <->
  forall cnpj produto lote, fst (_buscar_saldo_para_retorno cnpj produto lote s) = None.
Proof.
  unfold Consultas.obter_resumo_saldos, bind, query_saldos. cbn [fst saldos_pendentes].
  fold (saldos s). split.
  - intros H cnpj produto lote.
    destruct (fst (_buscar_saldo_para_retorno cnpj produto lote s)) as [r|] eqn:E;
      [|reflexivity].
    destruct (buscar_Some _ _ _ _ _ E) as (Hin & _ & Hd & _).
    assert (Hf : In r (filter Consultas.pendente (saldos s))).
    { apply filter_In. split; [exact Hin|]. unfold Consultas.pendente.
      apply Z.ltb_lt. unfold disponivel_exato in Hd. lia. }
    destruct (filter Consultas.pendente (saldos s)); [destruct Hf | discriminate H].
  - intros H.
    destruct (filter Consultas.pendente (saldos s)) as [|r l] eqn:E; [reflexivity|].
    exfalso.
    assert (Hf : In r (filter Consultas.pendente (saldos s))) by (rewrite E; now left).
    apply filter_In in Hf. destruct Hf as [Hin Hp].
    apply (buscar_None _ _ _ _ (H (cliente_cnpj r) (codigo_produto r)
                                  (Some (numero_lote r))) r Hin).
    + repeat split.
    + unfold Consultas.pendente in Hp. apply Z.ltb_lt in Hp.
      unfold disponivel_exato. lia.
Qed.

(* ------------------------------------------------------------------ *)
(** ** The answer to an upload *)

(** X17.  The upload route answers 200, 400 or 500.  It answers 200 exactly
    when the request holds a file whose name ends in [.xml], in any letter
    case, whose bytes decode, and whose ingestion succeeds; every failure of
    the service, the internal one too, is answered 400; 500 is the answer
    only to a request that cannot be read or a file that does not decode.
    Whenever the answer is not 200 the database is as it was, and a file
    whose name does not end in [.xml] never reaches the service. *)
Theorem upload_xml_resposta (lib : PyLib) (decode : list Byte.byte -> option string)
    (pedido : Pedido) (sv : Servidor) :
  let resp := fst (Rotas.upload_xml lib decode pedido sv) in
  let sv' := snd (Rotas.upload_xml lib decode pedido sv) in
  (status resp = 200%nat \/ status resp = 400%nat \/ status resp = 500%nat) /\
  (status resp = 200%nat <->
   exists file xml,
     pedido = Pedido_com_arquivo file /\
     Py.endswith (Py.lower (filename file)) ".xml" = true /\
     decode (conteudo file) = Some xml /\
     success (fst (processar_nota_fiscal lib xml (sessao sv))) = true) /\
  (status resp <> 200%nat -> banco (sessao sv') = banco (sessao sv)) /\
  (status resp = 500%nat <->
   pedido = Pedido_ilegivel \/
   exists file,
     pedido = Pedido_com_arquivo file /\
     Py.endswith (Py.lower (filename file)) ".xml" = true /\
     decode (conteudo file) = None) /\
  (forall file,
     pedido = Pedido_com_arquivo file ->
     Py.endswith (Py.lower (filename file)) ".xml" = false ->
     status resp = 400%nat /\ sv' = sv).
Proof.
  intros resp sv'. subst resp sv'. unfold Rotas.upload_xml.
  destruct pedido as [| |file].
  - simpl. split; [auto|]. split.
    { split; [discriminate|]. intros (f & x & H & _). discriminate. }
    split; [reflexivity|]. split; [tauto|]. intros f H. discriminate.
  - simpl. split; [auto|]. split.
    { split; [discriminate|]. intros (f & x & H & _). discriminate. }
    split; [reflexivity|]. split.
    { split; [discriminate|]. intros [H | (f & H & _)]; discriminate. }
    intros f H. discriminate.
  - destruct (String.eqb (filename file) "") eqn:Ev.
    { apply String.eqb_eq in Ev. simpl.
      assert (Hn : Py.endswith (Py.lower (filename file)) ".xml" = false)
        by (rewrite Ev; reflexivity).
      split; [auto|]. split.
      { split; [discriminate|]. intros (f & x & H & He & _).
        injection H as <-. congruence. }
      split; [reflexivity|]. split.
      { split; [discriminate|]. intros [H | (f & H & He & _)]; [discriminate|].
        injection H as <-. congruence. }
      intros f H _. auto. }
    destruct (Py.endswith (Py.lower (filename file)) ".xml") eqn:Ee; simpl.
    + destruct (decode (conteudo file)) as [xml|] eqn:Ed.
      * pose proof (processar_nota_fiscal_falha lib xml (sessao sv)) as Hfalha.
        destruct (processar_nota_fiscal lib xml (sessao sv)) as [res s'] eqn:Ep.
        cbn [fst snd] in Hfalha.
        destruct res as [k numero serie tipo cnt|e]; simpl.
        -- split; [auto|]. split.
           { split; [|reflexivity]. intros _. exists file, xml.
             rewrite Ep. auto. }
           split; [congruence|]. split.
           { split; [discriminate|]. intros [H | (f & H & _ & Hd)]; [discriminate|].
             injection H as <-. congruence. }
           intros f H He. injection H as <-. congruence.
        -- split; [auto|]. split.
           { split; [discriminate|]. intros (f & x & H & _ & Hd & Hs).
             injection H as <-. rewrite Ed in Hd. injection Hd as <-.
             rewrite Ep in Hs. discriminate. }
           split; [intros _; apply Hfalha; reflexivity|]. split.
           { split; [discriminate|]. intros [H | (f & H & _ & Hd)]; [discriminate|].
             injection H as <-. congruence. }
           intros f H He. injection H as <-. congruence.
      * simpl. split; [auto|]. split.
        { split; [discriminate|]. intros (f & x & H & _ & Hd & _).
          injection H as <-. congruence. }
        split; [reflexivity|]. split.
        { split; [|reflexivity]. intros _. right. exists file. auto. }
        intros f H He. injection H as <-. congruence.
    + split; [auto|]. split.
      { split; [discriminate|]. intros (f & x & H & He & _).
        injection H as <-. congruence. }
      split; [reflexivity|]. split.
      { split; [discriminate|]. intros [H | (f & H & He & _)]; [discriminate|].
        injection H as <-. congruence. }
      intros f H _. auto.
Qed.

(* ------------------------------------------------------------------ *)
(** ** Once ingested, always rejected *)

Lemma processar_nota_fiscal_duplicada lib xml s nf :
  fst (XMLParser.validate_xml_structure lib xml) = true ->
  XMLParser.parse_xml lib xml = inr nf ->
  ja_ingerida (nd_chave_acesso nf) s ->
  processar_nota_fiscal lib xml s
  = (Falha (Ja_processada (nd_numero nf) (nd_serie nf)), s).
Proof.
  intros Hv Hp Hex. unfold processar_nota_fiscal.
  destruct (XMLParser.validate_xml_structure lib xml) as [v msg].
  simpl in Hv. subst v. simpl. rewrite Hp.
  apply ja_ingerida_filter in Hex.
  destruct (hd_error _); [reflexivity | congruence].
Qed.

Lemma ingerir_todos_notas lib xmls : forall s,
  exists extra,
    notas_fiscais (banco (ingerir_todos lib xmls s)) = notas_fiscais (banco s) ++ extra.
Proof.
  induction xmls as [|xml xmls IH]; intros s.
  - exists []. simpl. now rewrite app_nil_r.
  - destruct (IH (snd (processar_nota_fiscal lib xml s))) as [e2 H2].
    change (ingerir_todos lib (xml :: xmls) s)
      with (ingerir_todos lib xmls (snd (processar_nota_fiscal lib xml s))).
    rewrite H2.
    destruct (processar_nota_fiscal_notas lib xml s) as [-> | (nota & -> & _)].
    + eauto.
    + exists ([nota] ++ e2). now rewrite app_assoc.
Qed.

(** X18.  The invoice table only grows, so a rejection lasts: after a
    document was ingested with success, whatever documents are ingested
    next, in any number and with any outcome, the rows of the invoice table
    are still there in their order, and ingesting the document again is
    answered with the duplicate rejection and changes nothing. *)
Theorem nota_ingerida_fica_rejeitada (lib : PyLib) (xml : string) (s s1 : Sessao)
    (k : nat) (numero serie : string) (tipo : TipoOperacao) (cnt : nat) :
  processar_nota_fiscal lib xml s = (Sucesso k numero serie tipo cnt, s1) ->
  forall xmls,
    let s2 := ingerir_todos lib xmls s1 in
    (exists extra, notas_fiscais (banco s2) = notas_fiscais (banco s1) ++ extra) /\
    exists nf,
      XMLParser.parse_xml lib xml = inr nf /\
      processar_nota_fiscal lib xml s2
      = (Falha (Ja_processada (nd_numero nf) (nd_serie nf)), s2).
Proof.
  intros H xmls s2.
  destruct (processar_nota_fiscal_sucesso_inv _ _ _ _ _ _ _ _ _ H)
    as (nf & nota & Hv & Hp & _ & Hn & _ & _ & _ & Hs').
  destruct (ingerir_todos_notas lib xmls s1) as [extra He].
  split; [exists extra; exact He|].
  exists nf. split; [exact Hp|].
  apply processar_nota_fiscal_duplicada; [exact Hv | exact Hp|].
  exists nota. split; [|apply (nova_nota_chave _ _ _ _ _ Hn)].
  subst s2. rewrite He. apply in_or_app. left.
  destruct (processar_itens_spec nota (nd_itens nf) 0 (snd (add_nota nota s)))
    as (_ & _ & Hnot & _).
  rewrite Hs', Hnot. simpl. apply in_or_app. right. now left.
Qed.

Lemma nota_ingerida_fica_rejeitada_witness :
  let s1 := snd (processar_nota_fiscal Exemplos.lib_ex "envio"
                   (Exemplos.sessao_ex [] [])) in
  let s2 := ingerir_todos Exemplos.lib_ex [ "retorno"; "nada"; "retorno" ] s1 in
  exists nf,
    XMLParser.parse_xml Exemplos.lib_ex "envio" = inr nf /\
    processar_nota_fiscal Exemplos.lib_ex "envio" s2
    = (Falha (Ja_processada (nd_numero nf) (nd_serie nf)), s2).
Proof.
  intros s1 s2.
  assert (E : processar_nota_fiscal Exemplos.lib_ex "envio" (Exemplos.sessao_ex [] [])
              = (Sucesso 1 "100" "1" Saida 1, s1))
    by (vm_compute; reflexivity).
  exact (proj2 (nota_ingerida_fica_rejeitada Exemplos.lib_ex "envio"
                  (Exemplos.sessao_ex [] []) s1 1 "100" "1" Saida 1 E
                  [ "retorno"; "nada"; "retorno" ])).
Defined.

(* ------------------------------------------------------------------ *)
(** ** Namespace prefixes *)

Example remove_namespaces_exemplos :
  let q := String Namespaces.aspas EmptyString in
  map Namespaces._remove_namespaces
    [ "<n:a xmlns:n=" ++ q ++ "u" ++ q ++ ">x</n:a>";
      "<a:b:c>";
      "<NFe xmlns=" ++ q ++ "http://www.portalfiscal.inf.br/nfe" ++ q ++ "><ide>1</ide></NFe>";
      "xmxmlns=" ++ q ++ "a" ++ q ++ "lns=" ++ q ++ "b" ++ q;
      "hora 10:30 <b>";
      "</:x>";
      "  xmlns = " ++ q ++ "q" ++ q ++ " xmlns:x=" ++ q ++ "1" ++ q ++ "y";
      "a < b: c";
      "<ns2:det xmlns:ns2=" ++ q ++ "u" ++ q ++ " nItem=" ++ q ++ "1" ++ q ++ "/>";
      "xmlns=" ++ q;
      "<<a:";
      "<:a/:b>" ]%string
  = [ "<a>x<a>";
      "<b:c>";
      "<NFe><ide>1</ide></NFe>";
      "xmlns=" ++ q ++ "b" ++ q;
      "hora 10:30 <b>";
      "<x>";
      "  xmlns = " ++ q ++ "q" ++ q ++ "y";
      "a < b: c";
      "<det nItem=" ++ q ++ "1" ++ q ++ "/>";
      "xmlns=" ++ q;
      "<<";
      "<a/:b>" ]%string.
Proof. vm_compute. reflexivity. Qed.

Example normaliza_espaco_exemplos :
  map Namespaces._remove_namespaces
    [ String "<" (String "a" (String (ascii_of_N 10) " b>"));
      String "<" (String "a" (String (ascii_of_N 9) (String (ascii_of_N 9) "b>"))) ]
  = [ "<a  b>"; String "<" (String "a" (String " " (String (ascii_of_N 9) "b>"))) ].
Proof. vm_compute. reflexivity. Qed.

Lemma sub_from_skip_prefixo r repl p : forall resto,
  ReSub.sub_from r repl (S (String.length p)) (p ++ String ":" resto)
  = ReSub.sub_from r repl 0 resto.
Proof.
  induction p as [|c p IH]; intros resto; simpl.
  - destruct resto; reflexivity.
  - apply IH.
Qed.

Lemma prefixo_sem_menor c s :
  Ascii.eqb c "<" = false -> ReSub.match_here Namespaces.prefixo (String c s) = None.
Proof. intros H. cbn. now rewrite H. Qed.

Lemma remove_prefixos_sem_menor antes : forall resto,
  all_chars (fun c => negb (Ascii.eqb c "<")) antes = true ->
  Namespaces.remove_prefixos (antes ++ resto)
  = (antes ++ Namespaces.remove_prefixos resto)%string.
Proof.
  unfold Namespaces.remove_prefixos, ReSub.sub.
  induction antes as [|c a IH]; intros resto H; [reflexivity|].
  cbn [all_chars] in H. apply andb_true_iff in H. destruct H as [Hc Ha].
  apply negb_true_iff in Hc.
  cbn [append ReSub.sub_from]. rewrite (prefixo_sem_menor c _ Hc).
  now rewrite IH.
Qed.

Lemma rep_nome_prefixo p : forall resto,
  all_chars ReSub.nome p = true ->
  ReSub.rep {| ReSub.cl := ReSub.Nome; ReSub.qt := ReSub.Estrela; ReSub.grp := false |}
    (ReSub.match_here [ ReSub.um (ReSub.Lit ":") ]) (p ++ String ":" resto)
  = Some (S (String.length p), EmptyString).
Proof.
  induction p as [|c p IH]; intros resto H.
  - reflexivity.
  - cbn [all_chars] in H. apply andb_true_iff in H. destruct H as [Hc Hp].
    cbn [append ReSub.rep ReSub.aceita ReSub.cl String.length].
    rewrite Hc, (IH resto Hp). reflexivity.
Qed.

Lemma nome_sem_barra c : ReSub.nome c = true -> Ascii.eqb c "/" = false.
Proof.
  intros H. destruct (Ascii.eqb c "/") eqn:E; [|reflexivity].
  apply Ascii.eqb_eq in E. subst. discriminate.
Qed.

Lemma match_here_prefixo s :
  ReSub.match_here Namespaces.prefixo s =
  ReSub.one (ReSub.um (ReSub.Lit "<"))
    (fun s =>
       match ReSub.one {| ReSub.cl := ReSub.Lit "/"; ReSub.qt := ReSub.Opcional;
                          ReSub.grp := false |}
               (ReSub.rep {| ReSub.cl := ReSub.Nome; ReSub.qt := ReSub.Estrela;
                             ReSub.grp := false |}
                  (ReSub.match_here [ ReSub.um (ReSub.Lit ":") ])) s with
       | Some m => Some m
       | None =>
           ReSub.rep {| ReSub.cl := ReSub.Nome; ReSub.qt := ReSub.Estrela;
                        ReSub.grp := false |}
             (ReSub.match_here [ ReSub.um (ReSub.Lit ":") ]) s
       end) s.
Proof. reflexivity. Qed.

Lemma prefixo_de_fechamento p resto :
  all_chars ReSub.nome p = true ->
  ReSub.match_here Namespaces.prefixo
    (String "<" (String "/" (p ++ String ":" resto)))
  = Some (S (S (S (String.length p))), EmptyString).
Proof.
  intros H. rewrite match_here_prefixo.
  cbn [ReSub.one ReSub.aceita ReSub.cl ReSub.um].
  change (Ascii.eqb "<" "<") with true. change (Ascii.eqb "/" "/") with true.
  cbv iota. rewrite (rep_nome_prefixo p resto H). reflexivity.
Qed.

Lemma prefixo_de_abertura p resto :
  all_chars ReSub.nome p = true ->
  ReSub.match_here Namespaces.prefixo (String "<" (p ++ String ":" resto))
  = Some (S (S (String.length p)), EmptyString).
Proof.
  intros H. rewrite match_here_prefixo.
  cbn [ReSub.one ReSub.aceita ReSub.cl ReSub.um].
  change (Ascii.eqb "<" "<") with true. cbv iota.
  rewrite (rep_nome_prefixo p resto H).
  destruct p as [|c p].
  - reflexivity.
  - cbn [all_chars] in H. apply andb_true_iff in H. destruct H as [Hc _].
    cbn [append ReSub.one ReSub.aceita ReSub.cl].
    rewrite (nome_sem_barra c Hc). reflexivity.
Qed.

Lemma sem_menor_app a b :
  all_chars (fun c => negb (Ascii.eqb c "<")) (a ++ b)
  = all_chars (fun c => negb (Ascii.eqb c "<")) a
    && all_chars (fun c => negb (Ascii.eqb c "<")) b.
Proof.
  induction a as [|c a IH]; simpl; [reflexivity|]. now rewrite IH, andb_assoc.
Qed.

(** None of the three patterns matches the empty text. *)
Lemma padroes_nao_vazios r s g :
  In r [ Namespaces.declaracao; Namespaces.prefixo; Namespaces.nome_e_espaco ] ->
  ReSub.match_here r s <> Some (O, g).
Proof.
  intros [<- | [<- | [<- | []]]].
  - change (ReSub.match_here Namespaces.declaracao)
      with (ReSub.rep {| ReSub.cl := ReSub.Espaco; ReSub.qt := ReSub.Estrela;
                         ReSub.grp := false |}
              (ReSub.match_here (tl Namespaces.declaracao))).
    induction s as [|c s IH]; [discriminate|].
    cbn [ReSub.rep]. destruct (ReSub.aceita _ c).
    + destruct (ReSub.rep _ _ s); [discriminate|].
      change (ReSub.match_here (tl Namespaces.declaracao) (String c s))
        with (if Ascii.eqb c "x"
              then option_map (ReSub.toma (ReSub.um (ReSub.Lit "x")) c)
                     (ReSub.match_here (tl (tl Namespaces.declaracao)) s)
              else None).
      destruct (Ascii.eqb c "x"); [|discriminate].
      destruct (ReSub.match_here _ s); discriminate.
    + change (ReSub.match_here (tl Namespaces.declaracao) (String c s))
        with (if Ascii.eqb c "x"
              then option_map (ReSub.toma (ReSub.um (ReSub.Lit "x")) c)
                     (ReSub.match_here (tl (tl Namespaces.declaracao)) s)
              else None).
      destruct (Ascii.eqb c "x"); [|discriminate].
      destruct (ReSub.match_here _ s); discriminate.
  - rewrite match_here_prefixo. destruct s as [|c s]; [discriminate|].
    cbn [ReSub.one]. destruct (ReSub.aceita _ c); [|discriminate].
    match goal with |- option_map _ ?x <> _ => destruct x end; discriminate.
  - change (ReSub.match_here Namespaces.nome_e_espaco)
      with (ReSub.one (ReSub.um (ReSub.Lit "<"))
              (ReSub.match_here (tl Namespaces.nome_e_espaco))).
    destruct s as [|c s]; [discriminate|].
    cbn [ReSub.one]. destruct (ReSub.aceita _ c); [|discriminate].
    destruct (ReSub.match_here _ s); discriminate.
Qed.

(** X19.  The second substitution of [_remove_namespaces] drops the prefix
    of a closing tag together with its slash: the text from [<] to the colon
    of [</p:] is replaced by [<], as that of [<p:] is.  So an element written
    with a prefix comes out with two opening tags and no closing tag.  The
    patterns match no empty text. *)
Theorem prefixo_de_fechamento_vira_abertura (antes p resto : string) :
  all_chars (fun c => negb (Ascii.eqb c "<")) antes = true ->
  all_chars ReSub.nome p = true ->
  Namespaces.remove_prefixos (antes ++ "</" ++ p ++ ":" ++ resto)
  = (antes ++ "<" ++ Namespaces.remove_prefixos resto)%string /\
  Namespaces.remove_prefixos (antes ++ "<" ++ p ++ ":" ++ resto)
  = (antes ++ "<" ++ Namespaces.remove_prefixos resto)%string /\
  (forall t x,
     all_chars (fun c => negb (Ascii.eqb c "<")) (t ++ ">" ++ x) = true ->
     Namespaces.remove_prefixos
       ("<" ++ p ++ ":" ++ t ++ ">" ++ x ++ "</" ++ p ++ ":" ++ t ++ ">")
     = ("<" ++ t ++ ">" ++ x ++ "<" ++ t ++ ">")%string) /\
  (forall r s g,
     In r [ Namespaces.declaracao; Namespaces.prefixo; Namespaces.nome_e_espaco ] ->
     ReSub.match_here r s <> Some (O, g)).
Proof.
  intros Ha Hp.
  assert (Hf : forall resto,
            Namespaces.remove_prefixos ("</" ++ p ++ ":" ++ resto)
            = ("<" ++ Namespaces.remove_prefixos resto)%string).
  { intros r. unfold Namespaces.remove_prefixos, ReSub.sub.
    cbn [append ReSub.sub_from].
    rewrite (prefixo_de_fechamento p r Hp).
    cbn [ReSub.sub_from append]. now rewrite sub_from_skip_prefixo. }
  assert (Ho : forall resto,
            Namespaces.remove_prefixos ("<" ++ p ++ ":" ++ resto)
            = ("<" ++ Namespaces.remove_prefixos resto)%string).
  { intros r. unfold Namespaces.remove_prefixos, ReSub.sub.
    cbn [append ReSub.sub_from].
    rewrite (prefixo_de_abertura p r Hp).
    cbn [ReSub.sub_from append]. now rewrite sub_from_skip_prefixo. }
  split; [rewrite remove_prefixos_sem_menor by exact Ha; now rewrite Hf|].
  split; [rewrite remove_prefixos_sem_menor by exact Ha; now rewrite Ho|].
  split; [|intros r s g; apply padroes_nao_vazios].
  intros t x Htx. rewrite Ho.
  replace (t ++ ">" ++ x ++ "</" ++ p ++ ":" ++ t ++ ">")%string
    with ((t ++ ">" ++ x) ++ "</" ++ p ++ ":" ++ t ++ ">")%string
    by (rewrite !append_assoc3; reflexivity).
  rewrite remove_prefixos_sem_menor by exact Htx.
  rewrite Hf.
  rewrite sem_menor_app in Htx. apply andb_true_iff in Htx. destruct Htx as [Ht _].
  replace (t ++ ">")%string with ((t ++ ">") ++ "")%string by apply append_nil_r.
  rewrite remove_prefixos_sem_menor
    by (rewrite sem_menor_app, Ht; reflexivity).
  change (Namespaces.remove_prefixos "") with EmptyString.
  rewrite append_nil_r, !append_assoc3. reflexivity.
Qed.

Lemma prefixo_de_fechamento_vira_abertura_witness :
  Namespaces.remove_prefixos "<nfe:det>1</nfe:det>" = "<det>1<det>".
Proof.
  destruct (prefixo_de_fechamento_vira_abertura "" "nfe" "") as (_ & _ & H & _).
  - reflexivity.
  - reflexivity.
  - apply (H "det" "1"). reflexivity.
Defined.

(* ------------------------------------------------------------------ *)
(** ** The answer to a synchronisation *)

Lemma processar_nota_fiscal_conta lib xml s :
  List.length (notas_fiscais (banco (snd (processar_nota_fiscal lib xml s))))
  = (List.length (notas_fiscais (banco s))
     + if success (fst (processar_nota_fiscal lib xml s)) then 1 else 0)%nat.
Proof.
  destruct (fst (processar_nota_fiscal lib xml s)) as [k numero serie tipo cnt|e] eqn:E.
  - destruct (processar_nota_fiscal_sucesso_inv lib xml s k numero serie tipo cnt
                (snd (processar_nota_fiscal lib xml s)))
      as (nf & nota & _ & _ & _ & _ & _ & _ & _ & Hs').
    { rewrite <- E. apply surjective_pairing. }
    destruct (processar_itens_spec nota (nd_itens nf) 0 (snd (add_nota nota s)))
      as (_ & _ & Hnot & _).
    rewrite Hs', Hnot. simpl. rewrite length_app. reflexivity.
  - rewrite processar_nota_fiscal_falha by (rewrite E; reflexivity). simpl. lia.
Qed.

Lemma processar_valor_conta lib v s :
  List.length (notas_fiscais (banco (snd (Rotas.processar_valor lib v s))))
  = (List.length (notas_fiscais (banco s))
     + if success (fst (Rotas.processar_valor lib v s)) then 1 else 0)%nat.
Proof.
  destruct v; simpl; try lia. apply processar_nota_fiscal_conta.
Qed.

Lemma processar_notas_spec lib notas : forall res suc err s,
  let r := Rotas.processar_notas lib notas res suc err s in
  exists novos,
    fst (fst (fst r)) = res ++ novos /\
    map dt_chave_acesso novos
    = map nm_chave_acesso (filter (fun n => py_truthy (nm_xml_content n)) notas) /\
    snd (fst (fst r))
    = (suc + List.length (filter (fun d => success (dt_resultado d)) novos))%nat /\
    snd (fst r)
    = (err + List.length (filter (fun d => negb (success (dt_resultado d))) novos))%nat /\
    List.length (notas_fiscais (banco (snd r)))
    = (List.length (notas_fiscais (banco s))
       + List.length (filter (fun d => success (dt_resultado d)) novos))%nat.
Proof.
  induction notas as [|nota notas IH]; intros res suc err s.
  - exists []. simpl. rewrite app_nil_r. repeat split; lia.
  - cbn [Rotas.processar_notas filter].
    destruct (py_truthy (nm_xml_content nota)).
    + unfold bind.
      pose proof (processar_valor_conta lib (nm_xml_content nota) s) as Hc.
      destruct (Rotas.processar_valor lib (nm_xml_content nota) s)
        as [resultado s1] eqn:Ev.
      cbn [fst snd] in Hc.
      set (d := {| dt_chave_acesso := nm_chave_acesso nota;
                   dt_numero := nm_numero nota;
                   dt_resultado := resultado |}).
      destruct (success resultado) eqn:Es.
      * destruct (IH (res ++ [d]) (S suc) err s1) as (novos & H1 & H2 & H3 & H4 & H5).
        exists (d :: novos). cbn [filter dt_resultado d]. rewrite Es. cbn [negb].
        rewrite H1, H3, H4, H5, Hc, <- app_assoc. simpl. rewrite H2.
        repeat split; lia.
      * destruct (IH (res ++ [d]) suc (S err) s1) as (novos & H1 & H2 & H3 & H4 & H5).
        exists (d :: novos). cbn [filter dt_resultado d]. rewrite Es. cbn [negb].
        rewrite H1, H3, H4, H5, Hc, <- app_assoc. simpl. rewrite H2.
        repeat split; lia.
    + apply IH.
Qed.

Lemma filter_particao {A} (f : A -> bool) l :
  (List.length (filter f l) + List.length (filter (fun x => negb (f x)) l)
   = List.length l)%nat.
Proof.
  induction l as [|x l IH]; simpl; [reflexivity|].
  destruct (f x); simpl; lia.
Qed.

Lemma checa_data_casos strptime campo data sv resp sv' :
  Rotas.checa_data strptime campo data sv = inl (resp, sv') ->
  status resp <> 200%nat /\ sessao sv' = sessao sv /\
  match corpo resp with Corpo_sincronizacao _ _ _ _ => False | _ => True end.
Proof.
  unfold Rotas.checa_data. destruct (py_truthy data); [|discriminate].
  destruct (Rotas._validar_formato_data strptime data) as [[|]|]; try discriminate;
    intros H; injection H as <- <-; simpl; repeat split; discriminate.
Qed.

(** X20.  When the synchronisation route answers with the summary, the
    status is 200 and the counts add up: there is one entry of [detalhes] for
    each note with a document, in their order; successes and errors together
    are the entries, the successes those whose result is a success; and the
    invoice table has grown by exactly the number of successes.  Every other
    answer has another status and leaves the session of the service as it
    was. *)
Theorem sync_maino_resumo (lib : PyLib) (strptime_dmy : string -> option datetime)
    (maino : MainoAPIService) (pedido : PedidoSync) (sv : Servidor) :
  let r := Rotas.sync_maino lib strptime_dmy maino pedido sv in
  match corpo (fst r) with
  | Corpo_sincronizacao total_notas sucessos erros detalhes =>
      status (fst r) = 200%nat /\
      (exists data_inicio data_fim notas,
          pedido = Sync_datas data_inicio data_fim /\
          sync_notas_fiscais maino data_inicio data_fim = Some notas /\
          total_notas = List.length notas /\
          map dt_chave_acesso detalhes
          = map nm_chave_acesso
              (filter (fun n => py_truthy (nm_xml_content n)) notas)) /\
      (sucessos + erros = List.length detalhes)%nat /\
      (List.length detalhes <= total_notas)%nat /\
      sucessos = List.length (filter (fun d => success (dt_resultado d)) detalhes) /\
      List.length (notas_fiscais (banco (sessao (snd r))))
      = (List.length (notas_fiscais (banco (sessao sv))) + sucessos)%nat
  | _ => status (fst r) <> 200%nat /\ sessao (snd r) = sessao sv
  end.
Proof.
  intros r. subst r. unfold Rotas.sync_maino.
  destruct pedido as [|data_inicio data_fim]; [simpl; split; [discriminate|reflexivity]|].
  destruct (Rotas.checa_data strptime_dmy _ data_inicio sv) as [[resp sv']|[]] eqn:E1.
  { apply checa_data_casos in E1. destruct E1 as (H1 & H2 & H3). cbn [fst snd].
    destruct (corpo resp); tauto. }
  destruct (Rotas.checa_data strptime_dmy _ data_fim sv) as [[resp sv']|[]] eqn:E2.
  { apply checa_data_casos in E2. destruct E2 as (H1 & H2 & H3). cbn [fst snd].
    destruct (corpo resp); tauto. }
  destruct (test_connection maino); cbn [negb];
    [|simpl; split; [discriminate|reflexivity]].
  destruct (sync_notas_fiscais maino data_inicio data_fim) as [notas|] eqn:En;
    [|simpl; split; [discriminate|reflexivity]].
  destruct (processar_notas_spec lib notas [] 0%nat 0%nat (sessao sv))
    as (novos & H1 & H2 & H3 & H4 & H5).
  destruct (Rotas.processar_notas lib notas [] 0 0 (sessao sv))
    as [[[resultados sucessos] erros] s'].
  cbn [fst snd corpo status sessao] in *. subst resultados.
  cbn [app] in *.
  split; [reflexivity|]. split.
  { exists data_inicio, data_fim, notas. repeat split; auto. }
  pose proof (filter_particao (fun d => success (dt_resultado d)) novos).
  pose proof (filter_length_le (fun n => py_truthy (nm_xml_content n)) notas).
  assert (Hl : List.length novos
               = List.length (filter (fun n => py_truthy (nm_xml_content n)) notas)).
  { rewrite <- (length_map dt_chave_acesso novos), H2. apply length_map. }
  repeat split; lia.
Qed.

(* ------------------------------------------------------------------ *)
(** ** A document without issue date *)

Lemma parse_xml_data_emissao lib xml root ide nf :
  fromstring lib xml = Some root ->
  ET.find "ide" root = Some ide ->
  XMLParser.parse_xml lib xml = inr nf ->
  PyStr.truthy (ET.findtext_child "dhEmi" ide) = false ->
  PyStr.truthy (ET.findtext_child "dEmi" ide) = false ->
  nd_data_emissao nf = None.
Proof.
  intros Hroot Hide Hp Hh He. revert Hp.
  unfold XMLParser.parse_xml, XMLParser._extract_nf_data, exc_bind.
  rewrite Hroot, Hide.
  destruct (XMLParser._extract_destinatario_data root) as [cnpj nome].
  destruct (XMLParser._extract_itens_data lib root); [discriminate|].
  intros H. injection H as <-. cbn [nd_data_emissao].
  unfold PyStr.or_else. rewrite Hh, He. reflexivity.
Qed.

(** X21.  The validation does not look at the issue date, the invoice table
    does: a document that passes the validation, parses and is no duplicate,
    but has no issue date that could be read, is not ingested.  The call
    answers with the internal error of the constraint, the database is as it
    was and the error is logged.  So it is for a document whose [ide] block
    has neither a [dhEmi] nor a [dEmi] text. *)
Theorem sem_data_de_emissao_nao_ingere (lib : PyLib) (xml : string) (s : Sessao)
    (nf : NFData) :
  fst (XMLParser.validate_xml_structure lib xml) = true ->
  XMLParser.parse_xml lib xml = inr nf ->
  ~ ja_ingerida (nd_chave_acesso nf) s ->
  let erro := IntegrityError "NOT NULL constraint failed" in
  (nd_data_emissao nf = None ->
   processar_nota_fiscal lib xml s
   = (Falha (Erro_interno erro),
      {| banco := banco s;
         log := log s ++ [Error_ao_processar erro];
         utcnow := utcnow s |})) /\
  (forall root ide,
     fromstring lib xml = Some root -> ET.find "ide" root = Some ide ->
     PyStr.truthy (ET.findtext_child "dhEmi" ide) = false ->
     PyStr.truthy (ET.findtext_child "dEmi" ide) = false ->
     nd_data_emissao nf = None).
Proof.
  intros Hv Hp Hnew erro. split.
  - intros Hd. unfold processar_nota_fiscal.
    destruct (XMLParser.validate_xml_structure lib xml) as [v msg].
    simpl in Hv. subst v. simpl. rewrite Hp.
    rewrite ja_ingerida_filter in Hnew.
    destruct (hd_error _) as [n|]; [exfalso; apply Hnew; discriminate|].
    unfold nova_nota. rewrite Hd.
    destruct (nd_numero nf), (nd_serie nf); reflexivity.
  - intros root ide Hroot Hide Hh He.
    exact (parse_xml_data_emissao lib xml root ide nf Hroot Hide Hp Hh He).
Qed.

Lemma sem_data_de_emissao_nao_ingere_witness :
  success (fst (processar_nota_fiscal Casos.lib_casos "sem data"
                  (Exemplos.sessao_ex [] Exemplos.dois_envios))) = false.
Proof.
  destruct (XMLParser.parse_xml Casos.lib_casos "sem data") as [e|nf] eqn:Hp.
  - vm_compute in Hp. discriminate Hp.
  - assert (Hd : nd_data_emissao nf = None).
    { vm_compute in Hp. injection Hp as <-. reflexivity. }
    destruct (sem_data_de_emissao_nao_ingere Casos.lib_casos "sem data"
                (Exemplos.sessao_ex [] Exemplos.dois_envios) nf) as [H _].
    + vm_compute. reflexivity.
    + exact Hp.
    + intros (n & [] & _).
    + rewrite (H Hd). reflexivity.
Defined.

(* ------------------------------------------------------------------ *)
(** ** The balances of one counterparty *)

Lemma filter_isdigit_id s :
  all_chars Py.isdigit s = true -> Py.filter_isdigit s = s.
Proof.
  induction s as [|c s IH]; simpl; [reflexivity|].
  intros H. apply andb_true_iff in H. destruct H as [Hc Hs].
  rewrite Hc, IH by exact Hs. reflexivity.
Qed.

Lemma filter_isdigit_digitos s : all_chars Py.isdigit (Py.filter_isdigit s) = true.
Proof.
  induction s as [|c s IH]; simpl; [reflexivity|].
  destruct (Py.isdigit c) eqn:E; [|exact IH]. cbn [all_chars]. now rewrite E.
Qed.

Lemma insert_by_In motor r l x :
  In x (Saldos.insert_by motor r l) <-> x = r \/ In x l.
Proof.
  induction l as [|y l IH]; simpl.
  - intuition.
  - destruct (Saldos.nao_depois motor r y); simpl; rewrite ?IH; intuition.
Qed.

Lemma order_by_In motor l x : In x (Saldos.order_by motor l) <-> In x l.
Proof.
  induction l as [|y l IH]; simpl; [tauto|].
  rewrite insert_by_In, IH. intuition.
Qed.

Lemma insert_by_length motor r l :
  List.length (Saldos.insert_by motor r l) = S (List.length l).
Proof.
  induction l as [|y l IH]; simpl; [reflexivity|].
  destruct (Saldos.nao_depois motor r y); simpl; [reflexivity | now rewrite IH].
Qed.

Lemma order_by_length motor l :
  List.length (Saldos.order_by motor l) = List.length l.
Proof.
  induction l as [|y l IH]; simpl; [reflexivity|].
  now rewrite insert_by_length, IH.
Qed.

Lemma agrupa_entradas key saldo produtos :
  fold_right (fun kp n => (List.length (pr_nfs_saida (snd kp)) + n)%nat) 0%nat
    (Saldos.agrupa key saldo produtos)
  = S (fold_right (fun kp n => (List.length (pr_nfs_saida (snd kp)) + n)%nat) 0%nat
         produtos) /\
  (Forall (fun kp => pr_nfs_saida (snd kp) <> []) produtos ->
   Forall (fun kp => pr_nfs_saida (snd kp) <> []) (Saldos.agrupa key saldo produtos)) /\
  (NoDup (map fst produtos) -> NoDup (map fst (Saldos.agrupa key saldo produtos))) /\
  (forall k, In k (map fst (Saldos.agrupa key saldo produtos)) <->
             k = key \/ In k (map fst produtos)).
Proof.
  induction produtos as [|[k p] ps (IH1 & IH2 & IH3 & IH4)].
  - simpl. split; [reflexivity|]. split.
    + intros _. constructor; [simpl; discriminate | constructor].
    + split; [intros _; repeat constructor; simpl; tauto|]. intros k. intuition.
  - simpl. destruct (String.eqb k key) eqn:E.
    + apply String.eqb_eq in E. subst k. simpl. split.
      * rewrite length_app. simpl. lia.
      * split.
        -- intros H. inversion H; subst. constructor; [|assumption].
           simpl. destruct (pr_nfs_saida p); discriminate.
        -- split; [auto|]. intros k. intuition.
    + simpl. split; [rewrite IH1; lia|]. split.
      * intros H. inversion H; subst. constructor; auto.
      * split.
        -- intros H. inversion H as [|? ? Hk Hps]; subst. constructor; [|auto].
           rewrite IH4. intros [-> | Hin]; [|tauto].
           rewrite String.eqb_refl in E. discriminate.
        -- intros k0. rewrite IH4. intuition.
Qed.

Lemma agrupa_todos_entradas saldos :
  let produtos := Saldos.agrupa_todos saldos in
  fold_right (fun kp n => (List.length (pr_nfs_saida (snd kp)) + n)%nat) 0%nat produtos
  = List.length saldos /\
  Forall (fun kp => pr_nfs_saida (snd kp) <> []) produtos /\
  NoDup (map fst produtos) /\
  (forall k, In k (map fst produtos) <-> In k (map Saldos.chave_do_produto saldos)).
Proof.
  unfold Saldos.agrupa_todos.
  assert (H : forall produtos,
            let final :=
              fold_left (fun produtos saldo =>
                           Saldos.agrupa (Saldos.chave_do_produto saldo) saldo produtos)
                saldos produtos in
            fold_right (fun kp n => (List.length (pr_nfs_saida (snd kp)) + n)%nat) 0%nat
              final
            = (fold_right (fun kp n => (List.length (pr_nfs_saida (snd kp)) + n)%nat)
                 0%nat produtos + List.length saldos)%nat /\
            (Forall (fun kp => pr_nfs_saida (snd kp) <> []) produtos ->
             Forall (fun kp => pr_nfs_saida (snd kp) <> []) final) /\
            (NoDup (map fst produtos) -> NoDup (map fst final)) /\
            (forall k, In k (map fst final) <->
                       In k (map fst produtos)
                       \/ In k (map Saldos.chave_do_produto saldos))).
  { induction saldos as [|saldo saldos IH]; intros produtos.
    - simpl. split; [lia|]. split; [auto|]. split; [auto|]. intros k. tauto.
    - cbn [fold_left]. cbv zeta.
      destruct (agrupa_entradas (Saldos.chave_do_produto saldo) saldo produtos)
        as (A1 & A2 & A3 & A4).
      destruct (IH (Saldos.agrupa (Saldos.chave_do_produto saldo) saldo produtos))
        as (H1 & H2 & H3 & H4).
      split; [rewrite H1, A1; simpl; lia|]. split; [auto|]. split; [auto|].
      intros k. rewrite H4, A4. simpl. intuition. }
  destruct (H []) as (H1 & H2 & H3 & H4). cbv zeta.
  split; [rewrite H1; reflexivity|]. split; [apply H2; constructor|].
  split; [apply H3; constructor|]. intros k. rewrite H4. simpl. tauto.
Qed.

Lemma grupos_nao_vazios (produtos : list (string * Produto)) :
  Forall (fun kp => pr_nfs_saida (snd kp) <> []) produtos ->
  (List.length produtos
   <= fold_right (fun kp n => (List.length (pr_nfs_saida (snd kp)) + n)%nat) 0%nat
        produtos)%nat.
Proof.
  induction 1 as [|kp l Hkp _ IH]; simpl; [lia|].
  destruct (pr_nfs_saida (snd kp)); [congruence | simpl; lia].
Qed.

Lemma consultar_saldos_cliente_servico motor digitos s :
  PyStr.truthy (Some digitos) = true ->
  Py.filter_isdigit digitos = digitos ->
  Saldos.consultar_saldos_cliente motor (Some digitos) None s
  = (map (Saldos.to_dict motor)
       (Saldos.order_by motor
          (filter (fun x => String.eqb (cliente_cnpj x) digitos) (saldos s))), s).
Proof.
  intros Hne Hid.
  unfold Saldos.consultar_saldos_cliente, bind, query_saldos, ret, saldos.
  rewrite Hne. cbn [PyStr.truthy].
  replace (PyStr.or_empty (Some digitos)) with digitos
    by (destruct digitos; [discriminate Hne | reflexivity]).
  rewrite Hid. reflexivity.
Qed.

(** X22.  The route of the balances of one counterparty reads the number
    by its digits; it answers 400 exactly when they are not eleven or
    fourteen, and changes nothing in any case.  Otherwise it answers 200
    with the records whose counterparty number is those digits: their count
    is [total_nfs], every one is an entry of exactly one product, the
    products are as many as the distinct keys made of product code and lot
    and never more than the records, and the counterparty reported, present
    exactly when there is a record, carries those digits. *)
Theorem consultar_saldos_cliente_resposta (motor : Motor) (cnpj : string) (sv : Servidor) :
  let digitos := Py.filter_isdigit cnpj in
  let r := Rotas.consultar_saldos_cliente motor cnpj sv in
  let do_cliente :=
    filter (fun x => String.eqb (cliente_cnpj x) digitos) (saldos (sessao sv)) in
  snd r = sv /\
  match corpo (fst r) with
  | Corpo_cliente cliente produtos total_produtos total_nfs produtos_com_saldo =>
      status (fst r) = 200%nat /\
      (String.length digitos = 11%nat \/ String.length digitos = 14%nat) /\
      total_nfs = List.length do_cliente /\
      fold_right (fun p n => (List.length (pr_nfs_saida p) + n)%nat) 0%nat produtos
      = total_nfs /\
      total_produtos = List.length produtos /\
      total_produtos
      = List.length (nodup String.string_dec
                       (map (fun x => (codigo_produto x ++ "_" ++ numero_lote x)%string)
                          do_cliente)) /\
      (total_produtos <= total_nfs)%nat /\
      (produtos_com_saldo <= total_produtos)%nat /\
      (cliente = None <-> total_nfs = 0%nat) /\
      (forall c n, cliente = Some (c, n) -> c = digitos)
  | _ =>
      status (fst r) = 400%nat /\
      String.length digitos <> 11%nat /\ String.length digitos <> 14%nat
  end.
Proof.
  intros digitos r do_cliente. subst r. unfold Rotas.consultar_saldos_cliente.
  fold digitos.
  destruct ((String.length digitos =? 11)%nat || (String.length digitos =? 14)%nat)
    eqn:El; cbn [negb].
  2:{ apply orb_false_iff in El. destruct El as [E1 E2].
      apply Nat.eqb_neq in E1, E2. simpl. auto. }
  assert (Hlen : String.length digitos = 11%nat \/ String.length digitos = 14%nat).
  { apply orb_true_iff in El. destruct El as [E | E]; apply Nat.eqb_eq in E; auto. }
  assert (Hne : PyStr.truthy (Some digitos) = true).
  { destruct digitos; [destruct Hlen; discriminate | reflexivity]. }
  assert (Hid : Py.filter_isdigit digitos = digitos)
    by (apply filter_isdigit_id, filter_isdigit_digitos).
  rewrite (consultar_saldos_cliente_servico motor digitos (sessao sv) Hne Hid).
  fold do_cliente.
  set (linhas := map (Saldos.to_dict motor) (Saldos.order_by motor do_cliente)).
  destruct (agrupa_todos_entradas linhas) as (G1 & G2 & G3 & G4).
  set (grupos := Saldos.agrupa_todos linhas) in *.
  assert (Hn : List.length linhas = List.length do_cliente).
  { unfold linhas. now rewrite length_map, order_by_length. }
  cbn [fst snd corpo status].
  split; [destruct sv; reflexivity|].
  split; [reflexivity|]. split; [exact Hlen|]. split; [exact Hn|].
  assert (Hsum : fold_right (fun p n => (List.length (pr_nfs_saida p) + n)%nat) 0%nat
                   (map snd grupos) = List.length linhas).
  { rewrite <- G1. clear. induction grupos as [|kp l IH]; simpl; [reflexivity|].
    now rewrite IH. }
  split; [exact Hsum|].
  split; [now rewrite length_map|].
  split.
  { rewrite <- (length_map fst grupos).
    apply Nat.le_antisymm.
    - apply NoDup_incl_length; [exact G3|]. intros k Hk. apply nodup_In.
      apply G4 in Hk. unfold linhas in Hk. rewrite map_map in Hk.
      apply in_map_iff in Hk. destruct Hk as (x & <- & Hx).
      apply order_by_In in Hx. apply in_map_iff. exists x. auto.
    - apply NoDup_incl_length; [apply NoDup_nodup|]. intros k Hk.
      apply nodup_In in Hk. apply G4. unfold linhas. rewrite map_map.
      apply in_map_iff in Hk. destruct Hk as (x & <- & Hx).
      apply in_map_iff. exists x. split; [reflexivity|]. now apply order_by_In. }
  split; [pose proof (grupos_nao_vazios grupos G2); lia|].
  split.
  { rewrite <- (length_map snd grupos). apply filter_length_le. }
  split.
  - destruct linhas; simpl; split; intros H; try reflexivity; discriminate.
  - intros c n Hc.
    destruct linhas as [|saldo l] eqn:Elin; [discriminate|].
    injection Hc as <- <-.
    assert (Hin : In saldo linhas) by (rewrite Elin; now left).
    unfold linhas in Hin. apply in_map_iff in Hin. destruct Hin as (x & <- & Hx).
    apply order_by_In in Hx. apply filter_In in Hx. destruct Hx as [_ Hx].
    apply String.eqb_eq in Hx. exact Hx.
Qed.


